(** * Route resolution core of serverless-next.js

    A shallow embedding of the routing decision engine
    ([packages/libs/core/src/page.ts], [redirect.ts], [match.ts]) and of the
    locale-duplication pass of the manifest builder ([build/index.ts]),
    followed by the properties the specification states about them.

    Conventions of the embedding:
    - a JavaScript string is a [string]; [undefined]/[null] results are
      [option]; a thrown exception caught by a [try]/[catch] is [None] at the
      place where the source catches it;
    - a manifest bucket (a JS object used as a dictionary at request time)
      is the [gmap string _] of its own properties; a read [o[k]] goes on to
      [Object.prototype] when [k] is not an own key ([Js.member]), so a key
      such as ["constructor"] finds a built-in function in every bucket;
    - where the builder iterates over an object ([for ... in]), the object is
      an insertion-ordered association list, because the iteration order
      decides what the loop does;
    - JavaScript truthiness is written out: a string is truthy when it is not
      empty, an object always is;
    - functions of third-party packages (path-to-regexp, the WHATWG [URL]
      parser, the regular-expression engine) and helpers of this repository
      whose files are not part of the sources at hand are fields of the
      classes [Helpers] and [PathToRegexp]. *)

From Stdlib Require Import Ascii String.
From stdpp Require Import gmap strings list fin_maps.

Open Scope string_scope.
Open Scope list_scope.

(** ** JavaScript string primitives used by the sources *)

Module Js.

(** [s.startsWith(p)] *)
Definition startsWith (s p : string) : bool := String.prefix p s.

(** [s.endsWith(suffix)]: [s] is [suffix], or its tail ends with it. *)
Fixpoint endsWith (s suffix : string) : bool :=
  String.eqb s suffix ||
  match s with
  | EmptyString => false
  | String _ s' => endsWith s' suffix
  end.

(** [s.slice(0, -1)]: all but the last character. *)
Fixpoint slice_0_m1 (s : string) : string :=
  match s with
  | EmptyString => EmptyString
  | String c EmptyString => EmptyString
  | String c s' => String c (slice_0_m1 s')
  end.

(** Drop the first [n] characters. *)
Fixpoint drop (n : nat) (s : string) : string :=
  match n, s with
  | O, _ => s
  | S _, EmptyString => EmptyString
  | S n', String _ s' => drop n' s'
  end.

(** [s.replace(pat, rep)] with a string pattern: only the first occurrence
    is replaced ([rep] is taken as it is: the replacement texts of the
    sources have no [$] pattern). *)
Fixpoint replace (pat rep s : string) : string :=
  if String.prefix pat s then rep +:+ drop (String.length pat) s
  else match s with
       | EmptyString => EmptyString
       | String c s' => String c (replace pat rep s')
       end.

(** [s.replace(/\?/g, "\\?")]: every question mark gets a backslash. *)
Fixpoint escapeQuestionMarks (s : string) : string :=
  match s with
  | EmptyString => EmptyString
  | String c s' =>
      if Ascii.eqb c "?"%char
      then String "\"%char (String "?"%char (escapeQuestionMarks s'))
      else String c (escapeQuestionMarks s')
  end.

Definition lowerAscii (c : ascii) : ascii :=
  let n := nat_of_ascii c in
  if ((65 <=? n) && (n <=? 90))%nat then ascii_of_nat (n + 32) else c.

(** [s.toLowerCase()], on the ASCII letters (the only ones that can
    produce the prefixes the source compares against). *)
Fixpoint toLowerCase (s : string) : string :=
  match s with
  | EmptyString => EmptyString
  | String c s' => String (lowerAscii c) (toLowerCase s')
  end.

(** Text before the first occurrence of [sep]. *)
Fixpoint upTo (sep : ascii) (s : string) : string :=
  match s with
  | EmptyString => EmptyString
  | String c s' => if Ascii.eqb c sep then EmptyString else String c (upTo sep s')
  end.

(** Text after the first occurrence of [sep], when there is one. *)
Fixpoint after (sep : ascii) (s : string) : option string :=
  match s with
  | EmptyString => None
  | String c s' => if Ascii.eqb c sep then Some s' else after sep s'
  end.

(** [const [path, querystring] = s.split("?")]: the first two pieces of the
    split; the second is [undefined] when [s] has no question mark. *)
Definition splitQuery (s : string) : string * option string :=
  (upTo "?"%char s, upTo "?"%char <$> after "?"%char s).

(** [s.split(sep)[0]]: the text before the first occurrence of the string
    [sep] (all of [s] when there is none). *)
Fixpoint beforeFirst (sep s : string) : string :=
  if String.prefix sep s then EmptyString
  else match s with
       | EmptyString => EmptyString
       | String c s' => String c (beforeFirst sep s')
       end.

(** Truthiness of a string. *)
Definition truthy (s : string) : bool := negb (String.eqb s "").

(** The property names of [Object.prototype], which every object literal
    and every object read from JSON inherits: eleven built-in functions and
    the accessor [__proto__], whose value is [Object.prototype] itself. *)
Definition objectPrototype : list string :=
  [ "constructor"; "__defineGetter__"; "__defineSetter__"; "hasOwnProperty";
    "__lookupGetter__"; "__lookupSetter__"; "isPrototypeOf";
    "propertyIsEnumerable"; "toString"; "valueOf"; "__proto__";
    "toLocaleString" ].

Definition inherited (k : string) : bool := bool_decide (k ∈ objectPrototype).

(** What a read [o[k]] finds: an own property, or the member of
    [Object.prototype] of that name. *)
Inductive Member (V : Type) :=
| Own (v : V)
| Proto (name : string).
Arguments Own {V} v.
Arguments Proto {V} name.

(** [o[k]]; [None] is [undefined]. *)
Definition member {V : Type} (o : gmap string V) (k : string) : option (Member V) :=
  match o !! k with
  | Some v => Some (Own v)
  | None => if inherited k then Some (Proto k) else None
  end.

(** A value that the sources put where their types say [string]: a string,
    the member of [Object.prototype] with the given name (a function or
    the prototype object, always truthy), or [undefined]. *)
Inductive Value :=
| Str (s : string)
| Inherited (name : string)
| Undefined.

(** [o[k]] used as a condition and then as a value, for string values. *)
Definition truthyAt (o : gmap string string) (k : string) : option Value :=
  match member o k with
  | Some (Own v) => if truthy v then Some (Str v) else None
  | Some (Proto name) => Some (Inherited name)
  | None => None
  end.

(** [o[k]] used as a condition, for object values (an object is truthy). *)
Definition has {V : Type} (o : gmap string V) (k : string) : bool :=
  bool_decide (is_Some (member o k)).

(** [s.includes(sub)] *)
Fixpoint includes (s sub : string) : bool :=
  String.prefix sub s ||
  match s with
  | EmptyString => false
  | String _ s' => includes s' sub
  end.

(** [/^\/[^/]/.test(s)] *)
Definition slashThenOther (s : string) : bool :=
  match s with
  | String "/"%char (String c _) => negb (Ascii.eqb c "/"%char)
  | _ => false
  end.

End Js.

(** ** Data model ([types.ts], as far as the sources read it) *)

(** A value of a dynamic bucket ([DynamicPageKeyValue]). *)
Record Dynamic := { file : string; regex : string }.

(** An entry of the sorted list [pages.dynamic]. *)
Record DynamicRoute := { route : string; pattern : string }.

Record SsgRoute := {
  dataRoute : string;
  initialRevalidateSeconds : option nat;
  srcRoute : option string
}.

Record DynamicSSG := {
  routeRegex : string;
  dataRouteRegex : string;
  fallback : option string;
  dynDataRoute : string
}.

Record HtmlPages := {
  htmlNonDynamic : gmap string string;
  htmlDynamic : gmap string Dynamic
}.

Record SsrPages := {
  ssrNonDynamic : gmap string string;
  ssrDynamic : gmap string Dynamic;
  ssrCatchAll : gmap string Dynamic
}.

Record SsgPages := {
  ssgNonDynamic : gmap string SsgRoute;
  ssgDynamic : gmap string DynamicSSG
}.

Record Pages := {
  dynamic : list DynamicRoute;
  ssr : SsrPages;
  html : HtmlPages;
  ssg : SsgPages
}.

Record PageManifest := {
  buildId : string;
  pages : Pages;
  publicFiles : gmap string string
}.

(** The fields of [Manifest] that [redirect.ts] reads; [trailingSlash] is
    optional there. *)
Record Manifest := { trailingSlash : option bool }.

Record RedirectData := {
  source : string;
  destination : string;
  statusCode : nat
}.

Record I18n := { locales : list string; defaultLocale : string }.

Record RoutesManifest := {
  basePath : string;
  redirects : option (list RedirectData);
  i18n : option I18n
}.

Record Request := { uri : string }.

(** The answer of [getRedirectPath]. *)
Record Redirect := { path : string; redirectStatusCode : nat }.

(** Captured parameters of a match. *)
Definition Params := list (string * string).

(** A string is a value. *)
Coercion Js.Str : string >-> Js.Value.

(** The routing decision ([PageRoute | ExternalRoute]).  [file] and [page]
    are strings by their declared type and hold whatever the lookup gave. *)
Inductive Target :=
| StaticFile (isData : bool) (file : Js.Value)
| Render (isData : bool) (page : Js.Value)
| External (path : string).

Record Route := { target : Target; querystring : option string }.

Definition plain (t : Target) : Route := {| target := t; querystring := None |}.

(** ** Collaborators *)

(** Helpers of the repository that live in [basepath.ts], [locale.ts] and
    [rewrite.ts], with the contracts the specification gives them, and the
    regular-expression test [new RegExp(regex, "i").test(uri)]. *)
Class Helpers := {
  normalise : string → RoutesManifest → string;
  addDefaultLocaleToPath : string → RoutesManifest → string;
  getRewritePath : string → RoutesManifest → option string;
  isExternalRewrite : string → bool;
  regexTest : string → string → bool
}.

(** path-to-regexp and the URL parser.  [ptrMatch source path] is
    [match(source, { decode })(path)]; [compile template] is [None] when
    [compile] throws, and the function it returns is [None] when that
    function throws; [parseURL s] is [None] when [new URL(s)] throws and the
    pair [(origin, pathname)] otherwise. *)
Class PathToRegexp := {
  ptrMatch : string → string → option Params;
  compile : string → option (Params → option string);
  parseURL : string → option (string * string)
}.

(** [build/isDynamicRoute.ts] and [build/pathToRegexStr.ts]. *)
Class RouteSyntax := {
  isDynamicRoute : string → bool;
  isOptionalCatchAllRoute : string → bool;
  pathToRegexStr : string → string
}.

(** ** [match.ts] *)

Section Match.
Context `{!Helpers} `{!PathToRegexp}.

(** [matchPath] *)
Definition matchPath (path source : string) : option Params :=
  ptrMatch source path.

(** [compileDestination].  The whole body is inside [try]; every exception
    ends in [return null]. *)
Definition compileDestination (destination : string) (params : Params)
  : option string :=
  let destinationLowerCase := Js.toLowerCase destination in
  if Js.startsWith destinationLowerCase "https://"
     || Js.startsWith destinationLowerCase "http://"
  then
    '(origin, pathname) ← parseURL destination;
    toPath ← compile pathname;
    compiledPath ← toPath params;
    let compiledDestination := origin +:+ compiledPath in
    if negb (Js.endsWith destination "/") && Js.endsWith compiledDestination "/"
    then Some (Js.slice_0_m1 compiledDestination)
    else Some compiledDestination
  else
    let escapedDestination := Js.escapeQuestionMarks destination in
    toPath ← compile escapedDestination;
    toPath params.

(** [matchDynamic]: the file of the first route whose regex accepts the
    URI. *)
Fixpoint matchDynamic (uri : string) (routes : list Dynamic) : option string :=
  match routes with
  | [] => None
  | r :: routes' =>
      if regexTest (regex r) uri then Some (file r) else matchDynamic uri routes'
  end.

(** Modelled from the spec: [matchDynamicRoute] is imported by [page.ts]
    from [match.ts] but its body is not in the sources at hand.  Section
    4.5, step 6: scan the globally sorted dynamic-route list for the first
    structural pattern match against the normalized path; the answer is
    that entry's route template.  Same loop as [matchDynamic]. *)
Fixpoint matchDynamicRoute (uri : string) (routes : list DynamicRoute)
  : option string :=
  match routes with
  | [] => None
  | r :: routes' =>
      if regexTest (pattern r) uri then Some (route r)
      else matchDynamicRoute uri routes'
  end.

End Match.

(** ** [page.ts] *)

Section Page.
Context `{!Helpers}.

Definition pageHtml (localeUri : string) : string :=
  if String.eqb localeUri "/" then "pages/index.html"
  else "pages" +:+ localeUri +:+ ".html".

Definition handle404 (manifest : PageManifest) : Route :=
  match Js.truthyAt (htmlNonDynamic (html (pages manifest))) "/404" with
  | Some _ => plain (StaticFile false "pages/404.html")
  | None => plain (Render false "pages/_error.js")
  end.

(** [entry.file] for what a read of a dynamic bucket found: the members of
    [Object.prototype] have no property [file]. *)
Definition fileOf (entry : Js.Member Dynamic) : Js.Value :=
  match entry with
  | Js.Own page => Js.Str (file page)
  | Js.Proto _ => Js.Undefined
  end.

(** The part of [handlePageReq] after the rewrite step (lines 91-129).
    [!dynamic] holds for [undefined] and for the empty template. *)
Definition resolveDynamic (manifest : PageManifest) (localeUri : string)
  : Route :=
  let pages := pages manifest in
  match matchDynamicRoute localeUri (dynamic pages) with
  | None => handle404 manifest
  | Some dynamic =>
      if negb (Js.truthy dynamic) then handle404 manifest
      else
      if Js.has (ssgDynamic (ssg pages)) dynamic
      then plain (StaticFile false (pageHtml localeUri))
      else
      match Js.member (ssrDynamic (ssr pages)) dynamic with
      | Some dynamicSSR => plain (Render false (fileOf dynamicSSR))
      | None =>
      match Js.member (htmlDynamic (html pages)) dynamic with
      | Some dynamicHTML => plain (StaticFile false (fileOf dynamicHTML))
      | None =>
      match Js.member (ssrCatchAll (ssr pages)) dynamic with
      | Some catchAll => plain (Render false (fileOf catchAll))
      | None => handle404 manifest
      end end end
  end.

(** [handlePageReq].  The source calls itself once, inside the rewrite
    branch; [fuel] bounds the depth of these calls and [None] means the
    bound was reached.  [isRewrite] is the optional last parameter
    ([undefined] is [false]). *)
Fixpoint handlePageReq (fuel : nat) (uri : string) (manifest : PageManifest)
    (routesManifest : RoutesManifest) (isPreview isRewrite : bool)
  : option Route :=
  match fuel with
  | O => None
  | S fuel' =>
    let pages := pages manifest in
    let localeUri :=
      normalise (addDefaultLocaleToPath uri routesManifest) routesManifest in
    match Js.truthyAt (htmlNonDynamic (html pages)) localeUri with
    | Some htmlFile => Some (plain (StaticFile false htmlFile))
    | None =>
    if Js.has (ssgNonDynamic (ssg pages)) localeUri && negb isPreview
    then Some (plain (StaticFile false (pageHtml localeUri)))
    else
    match Js.truthyAt (ssrNonDynamic (ssr pages)) localeUri with
    | Some ssrPage => Some (plain (Render false ssrPage))
    | None =>
      let rewrite :=
        if isRewrite then None
        else match getRewritePath uri routesManifest with
             | Some r => if Js.truthy r then Some r else None
             | None => None
             end in
      match rewrite with
      | Some rewrite =>
          let '(path, querystring) := Js.splitQuery rewrite in
          if isExternalRewrite path
          then Some {| target := External path; querystring := querystring |}
          else
            route ← handlePageReq fuel' path manifest routesManifest isPreview true;
            Some {| target := target route; querystring := querystring |}
      | None => Some (resolveDynamic manifest localeUri)
      end
    end end
  end.

End Page.

(** ** [redirect.ts] *)

Section Redirect.
Context `{!Helpers} `{!PathToRegexp}.

(** The [for ... of] loop of [getRedirectPath]: both [return]s leave the
    function, so a rule that matches ends the scan whether or not its
    destination compiles. *)
Fixpoint scanRedirects (path : string) (redirects : list RedirectData)
  : option Redirect :=
  match redirects with
  | [] => None
  | redirect :: rest =>
      match matchPath path (source redirect) with
      | Some params =>
          match compileDestination (destination redirect) params with
          | Some compiledDestination =>
              if Js.truthy compiledDestination
              then Some {| path := compiledDestination;
                           redirectStatusCode := statusCode redirect |}
              else None
          | None => None
          end
      | None => scanRedirects path rest
      end
  end.

Definition getRedirectPath (request : Request) (routesManifest : RoutesManifest)
  : option Redirect :=
  let path := addDefaultLocaleToPath (uri request) routesManifest in
  let redirects := default [] (redirects routesManifest) in
  scanRedirects path redirects.

Definition getTrailingSlashPath (request : Request) (manifest : Manifest)
    (isFile : bool) : option string :=
  let uri := uri request in
  if isFile then
    if Js.endsWith uri "/" then Some (Js.slice_0_m1 uri) else None
  else if Js.slashThenOther uri then
    let trailingSlash := default false (trailingSlash manifest) in
    if negb trailingSlash && Js.endsWith uri "/" then Some (Js.slice_0_m1 uri)
    else if trailingSlash && negb (Js.endsWith uri "/") then Some (uri +:+ "/")
    else None
  else None.

End Redirect.

(** ** [build/index.ts]: the HTML pages of [prepareBuildManifests] *)

Module Build.

(** A JS object in insertion order.  The keys written here all begin with
    ["/"], so none is an array index and [for ... in] visits them in the
    order they were first written. *)
Definition JsObject (V : Type) := list (string * V).

Fixpoint get {V} (o : JsObject V) (key : string) : option V :=
  match o with
  | [] => None
  | (k, v) :: o' => if String.eqb k key then Some v else get o' key
  end.

(** [o[key] = v]: overwrite in place, or append. *)
Fixpoint set {V} (o : JsObject V) (key : string) (v : V) : JsObject V :=
  match o with
  | [] => [(key, v)]
  | (k, v') :: o' =>
      if String.eqb k key then (k, v) :: o' else (k, v') :: set o' key v
  end.

(** [{ ...a, ...b }] *)
Definition spread {V} (a b : JsObject V) : JsObject V :=
  fold_left (λ acc kv, set acc kv.1 kv.2) b a.

(** The object as the dictionary the request handler reads after the
    manifest has been written out and loaded again. *)
Definition bucket {V} (o : JsObject V) : gmap string V :=
  fold_left (λ m kv, <[kv.1 := kv.2]> m) o ∅.

Record HtmlPagesObject := {
  dynamicObject : JsObject Dynamic;
  nonDynamicObject : JsObject string
}.

Definition isHtmlPage (path : string) : bool := Js.endsWith path ".html".

(** One step of the first [forEach] (lines 70-96), for what it writes into
    [htmlPages]; the branches for API and server-rendered pages write into
    other objects. *)
Definition collectHtmlPage `{!RouteSyntax} (htmlPages : HtmlPagesObject)
    (route pageFile : string) : HtmlPagesObject :=
  let isOptionalCatchAllDynamicRoute := isOptionalCatchAllRoute route in
  let isOtherDynamicRoute :=
    negb isOptionalCatchAllDynamicRoute && isDynamicRoute route in
  let optionalBaseRoute :=
    if isOptionalCatchAllDynamicRoute
    then let base := Js.beforeFirst "/[[" route in
         if Js.truthy base then base else "/"
    else "" in
  if isHtmlPage pageFile then
    if isOtherDynamicRoute then
      {| dynamicObject :=
           set (dynamicObject htmlPages) route
             {| file := pageFile; regex := pathToRegexStr route |};
         nonDynamicObject := nonDynamicObject htmlPages |}
    else if isOptionalCatchAllDynamicRoute then
      {| dynamicObject :=
           set (dynamicObject htmlPages) route
             {| file := pageFile; regex := pathToRegexStr route |};
         nonDynamicObject := set (nonDynamicObject htmlPages) optionalBaseRoute pageFile |}
    else
      {| dynamicObject := dynamicObject htmlPages;
         nonDynamicObject := set (nonDynamicObject htmlPages) route pageFile |}
  else htmlPages.

(** [htmlPages] after [Object.entries(pagesManifest).forEach(...)]. *)
Definition collectHtmlPages `{!RouteSyntax} (pagesManifest : JsObject string)
  : HtmlPagesObject :=
  fold_left (λ htmlPages entry, collectHtmlPage htmlPages entry.1 entry.2)
    pagesManifest {| dynamicObject := []; nonDynamicObject := [] |}.

(** The inner [for (const locale of i18n.locales)] of lines 188-192: does
    some configured locale prefix [key]? *)
Definition localePrefixed (locales : list string) (key : string) : bool :=
  existsb (λ locale,
             Js.startsWith key ("/" +:+ locale +:+ "/")
             || String.eqb key ("/" +:+ locale))
          locales.

Definition localeKey (locale key : string) : string :=
  if String.eqb key "/" then "/" +:+ locale else "/" +:+ locale +:+ key.

(** The labelled loop [htmlPagesNonDynamicLoop] (lines 186-199) for one
    [locale], over the entries of [htmlPages.nonDynamic] that remain to be
    visited.  [break htmlPagesNonDynamicLoop] leaves the whole loop. *)
Fixpoint htmlPagesNonDynamicLoop (locales : list string) (locale : string)
    (entries : JsObject string) (localeHtmlNonDynamic : JsObject string)
  : JsObject string :=
  match entries with
  | [] => localeHtmlNonDynamic
  | (key, pageFile) :: entries' =>
      if localePrefixed locales key then localeHtmlNonDynamic
      else
        let newKey := localeKey locale key in
        htmlPagesNonDynamicLoop locales locale entries'
          (set localeHtmlNonDynamic newKey
             (Js.replace "pages/" ("pages/" +:+ locale +:+ "/") pageFile))
  end.

(** [localeHtmlPages.nonDynamic] after the loop over all locales
    (line 185). *)
Definition localeHtmlPagesNonDynamic (i18n : I18n)
    (htmlNonDynamic : JsObject string) : JsObject string :=
  fold_left
    (λ acc locale, htmlPagesNonDynamicLoop (locales i18n) locale htmlNonDynamic acc)
    (locales i18n) [].

(** [pageManifest.pages.html.nonDynamic] as the builder leaves it
    (lines 152 and 321-325). *)
Definition htmlNonDynamicOut (routesManifest : RoutesManifest)
    (htmlNonDynamic : JsObject string) : JsObject string :=
  match i18n routesManifest with
  | Some i18n => spread htmlNonDynamic (localeHtmlPagesNonDynamic i18n htmlNonDynamic)
  | None => htmlNonDynamic
  end.

End Build.

(** ** Record updates used in the statements *)

Definition withSsgNonDynamic (manifest : PageManifest)
    (nonDynamic : gmap string SsgRoute) : PageManifest :=
  let pg := pages manifest in
  {| buildId := buildId manifest;
     pages := {| dynamic := dynamic pg;
                 ssr := ssr pg;
                 html := html pg;
                 ssg := {| ssgNonDynamic := nonDynamic;
                           ssgDynamic := ssgDynamic (ssg pg) |} |};
     publicFiles := publicFiles manifest |}.

(** The same helpers with another rewrite resolver. *)
Definition withRewriteResolver (H : Helpers)
    (resolver : string → RoutesManifest → option string) : Helpers :=
  {| normalise := @normalise H;
     addDefaultLocaleToPath := @addDefaultLocaleToPath H;
     getRewritePath := resolver;
     isExternalRewrite := @isExternalRewrite H;
     regexTest := @regexTest H |}.

(** The keys of a bucket are routes: none of them is the name of a property
    of [Object.prototype], so a key is found in the bucket that stores it and
    in no other.  The builder takes the keys from the framework's page
    listing and from the prerendered routes, which all begin with ["/"], and
    puts ["/"] and the locale in front of the ones it adds. *)
Definition routeKeys {V : Type} (bucket : gmap string V) : Prop :=
  map_Forall (λ key _, Js.inherited key = false) bucket.

(** An entry of an object of the builder whose key is a route, and one
    whose file is named as well. *)
Definition routed {V : Type} (entry : string * V) : Prop :=
  Js.startsWith entry.1 "/" = true.

Definition routedFile (entry : string * string) : Prop :=
  routed entry ∧ entry.2 ≠ "".

(** A manifest is well formed when the page files it names are not empty
    and the keys of its non-dynamic buckets are routes.  The builder copies
    the files from the framework's page listing, where each is the path of a
    build artifact; for the HTML bucket the builder itself guarantees it
    ([builder_html_files_not_empty] below), and a listing whose routes begin
    with ["/"] gives a manifest that is well formed
    ([built_manifest_wellFormed]). *)
Definition wellFormed (manifest : PageManifest) : Prop :=
  map_Forall (λ _ pageFile, pageFile ≠ "") (htmlNonDynamic (html (pages manifest)))
  ∧ map_Forall (λ _ pageFile, pageFile ≠ "") (ssrNonDynamic (ssr (pages manifest)))
  ∧ routeKeys (htmlNonDynamic (html (pages manifest)))
  ∧ routeKeys (ssgNonDynamic (ssg (pages manifest)))
  ∧ routeKeys (ssrNonDynamic (ssr (pages manifest))).

(** No rewrite is followed: the call is itself the target of a rewrite, or
    the resolver finds nothing. *)
Definition noRewrite `{!Helpers} (uri : string) (routesManifest : RoutesManifest)
    (isRewrite : bool) : Prop :=
  isRewrite = true
  ∨ getRewritePath uri routesManifest = None
  ∨ getRewritePath uri routesManifest = Some "".

(** The normalized path is a key of no non-dynamic bucket that the request
    may use, and it names no property of [Object.prototype], which every
    bucket would find. *)
Definition noNonDynamic (manifest : PageManifest) (localeUri : string)
    (isPreview : bool) : Prop :=
  (htmlNonDynamic (html (pages manifest)) !! localeUri = None
   ∧ Js.inherited localeUri = false)
  ∧ (ssgNonDynamic (ssg (pages manifest)) !! localeUri = None ∨ isPreview = true)
  ∧ ssrNonDynamic (ssr (pages manifest)) !! localeUri = None.

(** [T] is the first template of the sorted list whose pattern accepts the
    path. *)
Definition firstMatch `{!Helpers} (routes : list DynamicRoute) (localeUri T : string)
    : Prop :=
  ∃ before entry rest,
    routes = before ++ entry :: rest
    ∧ Forall (λ r, regexTest (pattern r) localeUri = false) before
    ∧ regexTest (pattern entry) localeUri = true
    ∧ route entry = T.

(** ** Stand-ins for the collaborators, for evaluating concrete requests

    Each stand-in reproduces its original on a fragment of the inputs and
    answers [None] (or [false]) outside it; the examples that use them stay
    inside the fragment. *)

Module Fixture.

Definition isNameChar (c : ascii) : bool :=
  let n := nat_of_ascii c in
  (((48 <=? n) && (n <=? 57)) || ((65 <=? n) && (n <=? 90))
   || ((97 <=? n) && (n <=? 122)) || (n =? 95))%nat.

Definition isUnreserved (c : ascii) : bool :=
  isNameChar c
  || existsb (Ascii.eqb c)
       ["-"; "."; "!"; "~"; "*"; "'"; "("; ")"]%char.

Definition hexDigit (n : nat) : ascii :=
  ascii_of_nat (if (n <? 10)%nat then 48 + n else 55 + n).

(** [encodeURIComponent] on the bytes of the string. *)
Fixpoint encodeURIComponent (s : string) : string :=
  match s with
  | EmptyString => EmptyString
  | String c s' =>
      if isUnreserved c then String c (encodeURIComponent s')
      else
        let n := nat_of_ascii c in
        String "%"%char
          (String (hexDigit (n / 16)) (String (hexDigit (n mod 16))
             (encodeURIComponent s')))
  end.

(** Tokens of path-to-regexp's lexer, without custom patterns and
    modifiers. *)
Inductive Token :=
| TChar (c : ascii)
| TName (name : string)
| TOpen
| TClose.

Fixpoint takeName (s : string) : string :=
  match s with
  | String c s' => if isNameChar c then String c (takeName s') else EmptyString
  | EmptyString => EmptyString
  end.

(** [fuel] is the number of characters left to read. *)
Fixpoint lex (fuel : nat) (s : string) : option (list Token) :=
  match fuel, s with
  | _, EmptyString => Some []
  | O, _ => None
  | S fuel', String c s' =>
      if Ascii.eqb c ":"%char then
        let name := takeName s' in
        if String.eqb name "" then None
        else (TName name ::.) <$> lex fuel' (Js.drop (String.length name) s')
      else if Ascii.eqb c "\"%char then
        match s' with
        | String e s'' => (TChar e ::.) <$> lex fuel' s''
        | EmptyString => None
        end
      else if Ascii.eqb c "{"%char then (TOpen ::.) <$> lex fuel' s'
      else if Ascii.eqb c "}"%char then (TClose ::.) <$> lex fuel' s'
      else if existsb (Ascii.eqb c) ["("; ")"; "*"; "+"; "?"]%char then None
      else (TChar c ::.) <$> lex fuel' s'
  end.

(** The grammar of [parse]: text, parameters, and groups
    [{prefix:name suffix}]; the result says whether the braces are
    balanced. *)
Fixpoint wellBraced (inGroup seenName : bool) (tokens : list Token) : bool :=
  match tokens with
  | [] => negb inGroup
  | TChar _ :: tokens' => wellBraced inGroup seenName tokens'
  | TName _ :: tokens' =>
      if inGroup && seenName then false else wellBraced inGroup true tokens'
  | TOpen :: tokens' => if inGroup then false else wellBraced true false tokens'
  | TClose :: tokens' => if inGroup then wellBraced false false tokens' else false
  end.

(** The function that [compile] returns: the text of the template with
    each parameter replaced by its encoded value.  A parameter without a
    value, or with an empty one, and a group without a parameter make it
    throw. *)
Fixpoint toPath (inGroup seenName : bool) (tokens : list Token) (params : Params)
  : option string :=
  match tokens with
  | [] => Some ""
  | TChar c :: tokens' => String c <$> toPath inGroup seenName tokens' params
  | TName name :: tokens' =>
      value ← Build.get params name;
      if String.eqb value "" then None
      else String.append (encodeURIComponent value) <$> toPath inGroup true tokens' params
  | TOpen :: tokens' => toPath true false tokens' params
  | TClose :: tokens' =>
      if seenName then toPath false false tokens' params else None
  end.

Definition compileTemplate (template : string) : option (Params → option string) :=
  tokens ← lex (String.length template) template;
  if wellBraced false false tokens then Some (toPath false false tokens) else None.

Definition isDelimiter (c : ascii) : bool :=
  existsb (Ascii.eqb c) ["/"; "#"; "?"]%char.

Fixpoint allChars (ok : ascii → bool) (s : string) : bool :=
  match s with
  | EmptyString => true
  | String c s' => ok c && allChars ok s'
  end.

(** An ASCII character without a meaning in a path-to-regexp template. *)
Definition isPlain (c : ascii) : bool :=
  (nat_of_ascii c <? 128)%nat
  && negb (existsb (Ascii.eqb c)
             [":"; "\"; "{"; "}"; "("; ")"; "*"; "+"; "?"]%char).

(** [match] for a source made of plain characters: the path is the source,
    compared without regard to case, optionally followed by one delimiter;
    there is nothing to capture. *)
Definition literalMatch (source path : string) : option Params :=
  if allChars isPlain source then
    let src := Js.toLowerCase source in
    let p := Js.toLowerCase path in
    if String.eqb p src
       || existsb (λ d, String.eqb p (src +:+ String d "")) ["/"; "#"; "?"]%char
    then Some [] else None
  else None.

Fixpoint upToDelimiter (s : string) : string :=
  match s with
  | EmptyString => EmptyString
  | String c s' => if isDelimiter c then EmptyString else String c (upToDelimiter s')
  end.

Fixpoint pathOf (s : string) : string :=
  match s with
  | EmptyString => EmptyString
  | String c s' =>
      if existsb (Ascii.eqb c) ["#"; "?"]%char then EmptyString
      else String c (pathOf s')
  end.

Definition isHostChar (c : ascii) : bool :=
  let n := nat_of_ascii c in
  (((48 <=? n) && (n <=? 57)) || ((97 <=? n) && (n <=? 122)))%nat
  || existsb (Ascii.eqb c) ["-"; "."]%char.

Definition isPathChar (c : ascii) : bool :=
  isNameChar c || existsb (Ascii.eqb c) ["-"; "~"; ":"; "/"]%char.

(** [new URL(s)] for [http://host/path?query#fragment] (or [https]) with a
    lower-case host name without port and a path of letters, digits and
    [- _ ~ : /], which the parser leaves as they are: the origin and the
    path, which is ["/"] when the URL has none. *)
Definition parseHttpURL (s : string) : option (string * string) :=
  let parse scheme :=
    let rest := Js.drop (String.length scheme) s in
    let host := upToDelimiter rest in
    let path := pathOf (Js.drop (String.length host) rest) in
    if String.eqb host "" || negb (allChars isHostChar host)
       || negb (allChars isPathChar path)
    then None
    else Some (scheme +:+ host, if String.eqb path "" then "/" else path) in
  if Js.startsWith s "https://" then parse "https://"
  else if Js.startsWith s "http://" then parse "http://"
  else None.

Definition pathToRegexp : PathToRegexp :=
  {| ptrMatch := literalMatch;
     compile := compileTemplate;
     parseURL := parseHttpURL |}.

(** The pattern of a page with one dynamic segment, as the builder's
    [pathToRegexStr] writes it. *)
Definition oneSegmentRegex : string := "^\/(?:([^\/#\?]+?))[\/#\?]?$".

Fixpoint segmentBody (s : string) : bool :=
  match s with
  | EmptyString => true
  | String c EmptyString => true
  | String c s' => negb (isDelimiter c) && segmentBody s'
  end.

(** What [oneSegmentRegex] accepts: a slash, a first character that is not
    a delimiter, more of them, and at most one delimiter at the end. *)
Definition oneSegment (uri : string) : bool :=
  match uri with
  | String "/"%char (String c s') => negb (isDelimiter c) && segmentBody s'
  | _ => false
  end.

Definition oneSegmentTest (regex uri : string) : bool :=
  String.eqb regex oneSegmentRegex && oneSegment uri.

(** Helpers for a deployment without base path and without locales, for
    request paths without a trailing slash, whose rewrites are the
    exact-path table [rewrites]. *)
Definition helpers (rewrites : list (string * string)) : Helpers :=
  {| normalise := λ uri _, uri;
     addDefaultLocaleToPath := λ uri _, uri;
     getRewritePath := λ uri _, Build.get rewrites uri;
     isExternalRewrite := λ path,
       Js.startsWith path "http://" || Js.startsWith path "https://";
     regexTest := oneSegmentTest |}.

Definition routesManifest (rules : list RedirectData) : RoutesManifest :=
  {| basePath := ""; redirects := Some rules; i18n := None |}.

Definition manifestOf (pg : Pages) : PageManifest :=
  {| buildId := "build"; pages := pg; publicFiles := ∅ |}.

Definition slugPage : Dynamic :=
  {| file := "pages/[slug].js"; regex := oneSegmentRegex |}.

(** A static page [/about] next to the server-rendered page [/[slug]]. *)
Definition aboutAndSlug : PageManifest :=
  manifestOf
    {| dynamic := [ {| route := "/[slug]"; pattern := oneSegmentRegex |} ];
       ssr := {| ssrNonDynamic := ∅;
                 ssrDynamic := {[ "/[slug]" := slugPage ]};
                 ssrCatchAll := ∅ |};
       html := {| htmlNonDynamic := {[ "/about" := "pages/about.html" ]};
                  htmlDynamic := ∅ |};
       ssg := {| ssgNonDynamic := ∅; ssgDynamic := ∅ |} |}.

(** The server-rendered page alone, under a template of one's choice. *)
Definition slugUnder (template : string) : PageManifest :=
  manifestOf
    {| dynamic := [ {| route := template; pattern := oneSegmentRegex |} ];
       ssr := {| ssrNonDynamic := ∅;
                 ssrDynamic := {[ template := slugPage ]};
                 ssrCatchAll := ∅ |};
       html := {| htmlNonDynamic := ∅; htmlDynamic := ∅ |};
       ssg := {| ssgNonDynamic := ∅; ssgDynamic := ∅ |} |}.

Definition rule (src dest : string) (status : nat) : RedirectData :=
  {| source := src; destination := dest; statusCode := status |}.

Definition english_dutch : RoutesManifest :=
  {| basePath := ""; redirects := None;
     i18n := Some {| locales := ["en"; "nl"]; defaultLocale := "en" |} |}.

(** Only a localized 404 page. *)
Definition localized404 : PageManifest :=
  manifestOf
    {| dynamic := [];
       ssr := {| ssrNonDynamic := ∅; ssrDynamic := ∅; ssrCatchAll := ∅ |};
       html := {| htmlNonDynamic := {[ "/404" := "pages/en/404.html" ]};
                  htmlDynamic := ∅ |};
       ssg := {| ssgNonDynamic := ∅; ssgDynamic := ∅ |} |}.

End Fixture.

(** ** The rest of [redirect.ts] and [match.ts] *)

(** An element of a header list ([{ key, value }]). *)
Record Header := { headerKey : string; headerValue : string }.

(** [request.headers]: the lists of header entries by lower-case name.  The
    record [Request] above has the URI only; the functions below take the
    headers next to it. *)
Definition Headers := gmap string (list Header).


(** Node's table [http.STATUS_CODES], [getAcceptLanguageLocale] of
    [locale.ts] (awaited by its caller; a plain function here), and the text
    that the engine gives a built-in function of a given name when it is
    converted to a string (the language leaves its layout to the engine). *)
Class Platform := {
  STATUS_CODES : nat → option string;
  getAcceptLanguageLocale :
    option string → Manifest → RoutesManifest → option string;
  nativeFunctionText : string → string
}.

Section RedirectRest.
Context `{!Platform}.



(** The text of a value inside a template literal.  The member
    [constructor] of [Object.prototype] is the function [Object], the member
    [__proto__] is the prototype object, the others are functions of their
    own name. *)
Definition valueText (v : Js.Value) : string :=
  match v with
  | Js.Str s => s
  | Js.Inherited name =>
      if String.eqb name "__proto__" then "[object Object]"
      else nativeFunctionText
             (if String.eqb name "constructor" then "Object" else name)
  | Js.Undefined => "undefined"
  end.

(** [getDomainRedirectPath]; [domainRedirects] is [manifest.domainRedirects],
    read at the host name as any object is. *)
Definition getDomainRedirectPath (request : Request) (headers : Headers)
    (domainRedirects : option (gmap string string)) : option string :=
  match headers !! "host" with
  | Some (first :: _) =>
      let host := headerValue first in
      match domainRedirects with
      | Some domainRedirects =>
          match Js.truthyAt domainRedirects host with
          | Some target => Some (valueText target +:+ uri request)
          | None => None
          end
      | None => None
      end
  | _ => None
  end.

(** [getLanguageRedirectPath] *)
Definition getLanguageRedirectPath (req : Request) (headers : Headers)
    (manifest : Manifest) (routesManifest : RoutesManifest) : option string :=
  let acceptLanguage :=
    match headers !! "accept-language" with
    | Some (first :: _) => Some (headerValue first)
    | _ => None
    end in
  let basePath := basePath routesManifest in
  let trailingSlash := default false (trailingSlash manifest) in
  let rootUri :=
    if Js.truthy basePath
    then basePath +:+ (if trailingSlash then "/" else "")
    else "/" in
  if String.eqb (uri req) rootUri
     || match acceptLanguage with Some a => Js.truthy a | None => false end
  then getAcceptLanguageLocale acceptLanguage manifest routesManifest
  else None.

End RedirectRest.

(** [matchDynamicSSG]: the key of the first entry, in the order of
    [Object.entries], whose page or data regex accepts the URI. *)
Fixpoint matchDynamicSSG `{!Helpers} (uri : string)
    (routes : list (string * DynamicSSG)) (isData : bool) : option string :=
  match routes with
  | [] => None
  | (key, route) :: routes' =>
      let regex := if isData then dataRouteRegex route else routeRegex route in
      if regexTest regex uri then Some key else matchDynamicSSG uri routes' isData
  end.

(** ** The whole of [prepareBuildManifests] ([build/index.ts])

    The objects the builder fills are association lists in insertion order
    ([Build.JsObject]); a JS object has each key once, and [Build.set]
    keeps it so.  Where the source loops over the keys of an object and
    reads [object[key]], the loop here runs over the entries. *)

(** [build/sortedRoutes.ts] ([None] when it throws) and
    [build/normaliseDomainRedirects.ts]. *)
Class BuildTools := {
  getSortedRoutes : list string → option (list string);
  normaliseDomainRedirects : option (gmap string string) → option (gmap string string)
}.

Module Builder.

Record SsrPagesObject := {
  ssrDynamicObject : Build.JsObject Dynamic;
  ssrCatchAllObject : Build.JsObject Dynamic;
  ssrNonDynamicObject : Build.JsObject string
}.

Record SsgPagesObject := {
  ssgDynamicObject : Build.JsObject DynamicSSG;
  ssgNonDynamicObject : Build.JsObject SsgRoute
}.

Record PagesObject := {
  dynamicList : list DynamicRoute;
  ssrObject : SsrPagesObject;
  htmlObject : Build.HtmlPagesObject;
  ssgObject : SsgPagesObject
}.

Record PageManifestObject := {
  manifestBuildId : string;
  manifestPages : PagesObject;
  manifestPublicFiles : Build.JsObject string;
  manifestTrailingSlash : bool;
  manifestDomainRedirects : option (gmap string string);
  manifestAuthentication : option (string * string)
}.

Record ApiManifestObject := {
  apiDynamic : list Dynamic;
  apiNonDynamic : Build.JsObject string;
  apiDomainRedirects : option (gmap string string);
  apiAuthentication : option (string * string)
}.

Record ImageManifestObject := {
  imageAuthentication : option (string * string);
  imageDomainRedirects : option (gmap string string)
}.

Record BuildOptions := {
  authentication : option (string * string);
  optionsBuildId : string;
  optionsDomainRedirects : option (gmap string string)
}.

(** The field of [NextConfig] that the builder reads. *)
Record NextConfig := { configTrailingSlash : option bool }.

Record PrerenderManifest := {
  prerenderRoutes : Build.JsObject SsgRoute;
  prerenderDynamicRoutes : option (Build.JsObject DynamicSSG)
}.

Record Manifests := {
  pageManifest : PageManifestObject;
  apiManifest : ApiManifestObject;
  imageManifest : ImageManifestObject
}.

(** What the first [forEach] fills: [htmlPages], [ssrPages] (its
    [dynamic] and [nonDynamic]), [apiPages.nonDynamic] and [dynamicApi]. *)
Record Collected := {
  htmlPages : Build.HtmlPagesObject;
  ssrPagesDynamic : Build.JsObject Dynamic;
  ssrPagesNonDynamic : Build.JsObject string;
  apiPagesNonDynamic : Build.JsObject string;
  dynamicApi : Build.JsObject Dynamic
}.

Definition isApiPage (path : string) : bool := Js.startsWith path "pages/api".

Section Steps.
Context `{!RouteSyntax} `{!BuildTools}.

(** [route.split("/[[")[0] || "/"] for an optional catch-all route, [""]
    otherwise (lines 78-80). *)
Definition optionalBaseRoute (route : string) : string :=
  if isOptionalCatchAllRoute route
  then let base := Js.beforeFirst "/[[" route in
       if Js.truthy base then base else "/"
  else "".

(** One round of the first [forEach] (lines 70-126).  The writes into
    [htmlPages] are [Build.collectHtmlPage]. *)
Definition collectPage (c : Collected) (route pageFile : string) : Collected :=
  let isOptionalCatchAllDynamicRoute := isOptionalCatchAllRoute route in
  let isOtherDynamicRoute :=
    negb isOptionalCatchAllDynamicRoute && isDynamicRoute route in
  let page := {| file := pageFile; regex := pathToRegexStr route |} in
  if Build.isHtmlPage pageFile then
    {| htmlPages := Build.collectHtmlPage (htmlPages c) route pageFile;
       ssrPagesDynamic := ssrPagesDynamic c;
       ssrPagesNonDynamic := ssrPagesNonDynamic c;
       apiPagesNonDynamic := apiPagesNonDynamic c;
       dynamicApi := dynamicApi c |}
  else if isApiPage pageFile then
    if isOtherDynamicRoute then
      {| htmlPages := htmlPages c;
         ssrPagesDynamic := ssrPagesDynamic c;
         ssrPagesNonDynamic := ssrPagesNonDynamic c;
         apiPagesNonDynamic := apiPagesNonDynamic c;
         dynamicApi := Build.set (dynamicApi c) route page |}
    else if isOptionalCatchAllDynamicRoute then
      {| htmlPages := htmlPages c;
         ssrPagesDynamic := ssrPagesDynamic c;
         ssrPagesNonDynamic := ssrPagesNonDynamic c;
         apiPagesNonDynamic :=
           Build.set (apiPagesNonDynamic c) (optionalBaseRoute route) pageFile;
         dynamicApi := Build.set (dynamicApi c) route page |}
    else
      {| htmlPages := htmlPages c;
         ssrPagesDynamic := ssrPagesDynamic c;
         ssrPagesNonDynamic := ssrPagesNonDynamic c;
         apiPagesNonDynamic := Build.set (apiPagesNonDynamic c) route pageFile;
         dynamicApi := dynamicApi c |}
  else if isOtherDynamicRoute then
    {| htmlPages := htmlPages c;
       ssrPagesDynamic := Build.set (ssrPagesDynamic c) route page;
       ssrPagesNonDynamic := ssrPagesNonDynamic c;
       apiPagesNonDynamic := apiPagesNonDynamic c;
       dynamicApi := dynamicApi c |}
  else if isOptionalCatchAllDynamicRoute then
    {| htmlPages := htmlPages c;
       ssrPagesDynamic := Build.set (ssrPagesDynamic c) route page;
       ssrPagesNonDynamic :=
         Build.set (ssrPagesNonDynamic c) (optionalBaseRoute route) pageFile;
       apiPagesNonDynamic := apiPagesNonDynamic c;
       dynamicApi := dynamicApi c |}
  else
    {| htmlPages := htmlPages c;
       ssrPagesDynamic := ssrPagesDynamic c;
       ssrPagesNonDynamic := Build.set (ssrPagesNonDynamic c) route pageFile;
       apiPagesNonDynamic := apiPagesNonDynamic c;
       dynamicApi := dynamicApi c |}.

Definition collectPages (pagesManifest : Build.JsObject string) : Collected :=
  fold_left (λ c entry, collectPage c entry.1 entry.2) pagesManifest
    {| htmlPages := {| Build.dynamicObject := []; Build.nonDynamicObject := [] |};
       ssrPagesDynamic := [];
       ssrPagesNonDynamic := [];
       apiPagesNonDynamic := [];
       dynamicApi := [] |}.

(** One round of "Add non-dynamic SSG routes" (lines 129-142).  The
    assignment to [ssgRoute.dataRoute] changes the object that is then
    stored. *)
Definition addSsgRoute (routesManifest : RoutesManifest)
    (nonDynamic : Build.JsObject SsgRoute) (route : string) (ssgRoute : SsgRoute)
  : Build.JsObject SsgRoute :=
  let defaultLocale := defaultLocale <$> i18n routesManifest in
  match defaultLocale with
  | Some defaultLocale =>
      if Js.truthy defaultLocale then
        let normalizedRoute := Js.replace ("/" +:+ defaultLocale +:+ "/") "/" route in
        Build.set nonDynamic normalizedRoute
          {| dataRoute :=
               Js.replace ("/" +:+ defaultLocale +:+ "/") "/" (dataRoute ssgRoute);
             initialRevalidateSeconds := initialRevalidateSeconds ssgRoute;
             srcRoute := srcRoute ssgRoute |}
      else Build.set nonDynamic route ssgRoute
  | None => Build.set nonDynamic route ssgRoute
  end.

(** [ssgPages] after lines 129-149. *)
Definition collectSsgPages (routesManifest : RoutesManifest)
    (prerenderManifest : PrerenderManifest) : SsgPagesObject :=
  {| ssgNonDynamicObject :=
       fold_left (λ o entry, addSsgRoute routesManifest o entry.1 entry.2)
         (prerenderRoutes prerenderManifest) [];
     ssgDynamicObject :=
       fold_left (λ o entry, Build.set o entry.1 entry.2)
         (default [] (prerenderDynamicRoutes prerenderManifest)) [] |}.

(** The six objects that the locale pass fills. *)
Record LocalePages := {
  localeHtmlDynamic : Build.JsObject Dynamic;
  localeHtmlNonDynamic : Build.JsObject string;
  localeSsrNonDynamic : Build.JsObject string;
  localeSsrDynamic : Build.JsObject Dynamic;
  localeSsgNonDynamic : Build.JsObject SsgRoute;
  localeSsgDynamic : Build.JsObject DynamicSSG
}.

(** Lines 201-217 for one key. *)
Definition localeHtmlDynamicEntry (locale : string) (o : Build.JsObject Dynamic)
    (key : string) (page : Dynamic) : Build.JsObject Dynamic :=
  let newKey := Build.localeKey locale key in
  Build.set o newKey
    {| file := Js.replace "pages/" ("pages/" +:+ locale +:+ "/") (file page);
       regex := pathToRegexStr newKey |}.

(** Lines 224-236 for one key. *)
Definition localeSsrDynamicEntry (locale : string) (o : Build.JsObject Dynamic)
    (key : string) (page : Dynamic) : Build.JsObject Dynamic :=
  let newKey := Build.localeKey locale key in
  Build.set o newKey {| file := file page; regex := pathToRegexStr newKey |}.

(** Lines 238-269 for one key. *)
Definition localeSsgNonDynamicEntry (buildId locale : string)
    (o : Build.JsObject SsgRoute) (key : string) (ssgRoute : SsgRoute)
  : Build.JsObject SsgRoute :=
  let newKey := Build.localeKey locale key in
  let data := "/_next/data/" +:+ buildId +:+ "/" in
  Build.set o newKey
    {| dataRoute :=
         if String.eqb key "/"
         then Js.replace (data +:+ "index.json") (data +:+ locale +:+ ".json")
                (dataRoute ssgRoute)
         else Js.replace data (data +:+ locale +:+ "/") (dataRoute ssgRoute);
       initialRevalidateSeconds := initialRevalidateSeconds ssgRoute;
       srcRoute :=
         match srcRoute ssgRoute with
         | Some src => if Js.truthy src then Some ("/" +:+ locale +:+ src) else Some src
         | None => None
         end |}.

(** Lines 271-293 for one key. *)
Definition localeSsgDynamicEntry (buildId locale : string)
    (o : Build.JsObject DynamicSSG) (key : string) (ssgRoute : DynamicSSG)
  : Build.JsObject DynamicSSG :=
  let newKey := Build.localeKey locale key in
  let data := "/_next/data/" +:+ buildId +:+ "/" in
  Build.set o newKey
    {| routeRegex := Js.replace "^/" ("^/" +:+ locale +:+ "/") (routeRegex ssgRoute);
       dataRouteRegex :=
         Js.replace data (data +:+ locale +:+ "/") (dataRouteRegex ssgRoute);
       fallback := Js.replace "/" ("/" +:+ locale +:+ "/") <$> fallback ssgRoute;
       dynDataRoute := Js.replace data (data +:+ locale +:+ "/") (dynDataRoute ssgRoute) |}.

(** The body of [for (const locale of routesManifest.i18n.locales)]
    (lines 185-294). *)
Definition localePass (buildId : string) (i : I18n) (c : Collected)
    (ssgPages : SsgPagesObject) (l : LocalePages) (locale : string) : LocalePages :=
  {| localeHtmlNonDynamic :=
       Build.htmlPagesNonDynamicLoop (locales i) locale
         (Build.nonDynamicObject (htmlPages c)) (localeHtmlNonDynamic l);
     localeHtmlDynamic :=
       fold_left (λ o entry, localeHtmlDynamicEntry locale o entry.1 entry.2)
         (Build.dynamicObject (htmlPages c)) (localeHtmlDynamic l);
     localeSsrNonDynamic :=
       fold_left (λ o entry, Build.set o (Build.localeKey locale entry.1) entry.2)
         (ssrPagesNonDynamic c) (localeSsrNonDynamic l);
     localeSsrDynamic :=
       fold_left (λ o entry, localeSsrDynamicEntry locale o entry.1 entry.2)
         (ssrPagesDynamic c) (localeSsrDynamic l);
     localeSsgNonDynamic :=
       fold_left (λ o entry, localeSsgNonDynamicEntry buildId locale o entry.1 entry.2)
         (ssgNonDynamicObject ssgPages) (localeSsgNonDynamic l);
     localeSsgDynamic :=
       fold_left (λ o entry, localeSsgDynamicEntry buildId locale o entry.1 entry.2)
         (ssgDynamicObject ssgPages) (localeSsgDynamic l) |}.

Definition localePages (buildId : string) (i : I18n) (c : Collected)
    (ssgPages : SsgPagesObject) : LocalePages :=
  fold_left (localePass buildId i c ssgPages) (locales i)
    {| localeHtmlDynamic := []; localeHtmlNonDynamic := [];
       localeSsrNonDynamic := []; localeSsrDynamic := [];
       localeSsgNonDynamic := []; localeSsgDynamic := [] |}.

(** [pageManifest.pages] after line 331 ([dynamic] is still the empty
    list). *)
Definition pagesWithLocales (buildId : string) (routesManifest : RoutesManifest)
    (c : Collected) (ssgPages : SsgPagesObject) : PagesObject :=
  match i18n routesManifest with
  | Some i =>
      let l := localePages buildId i c ssgPages in
      {| dynamicList := [];
         ssrObject :=
           {| ssrDynamicObject := Build.spread (ssrPagesDynamic c) (localeSsrDynamic l);
              ssrCatchAllObject := [];
              ssrNonDynamicObject :=
                Build.spread (ssrPagesNonDynamic c) (localeSsrNonDynamic l) |};
         ssgObject :=
           {| ssgNonDynamicObject :=
                Build.spread (ssgNonDynamicObject ssgPages) (localeSsgNonDynamic l);
              ssgDynamicObject :=
                Build.spread (ssgDynamicObject ssgPages) (localeSsgDynamic l) |};
         htmlObject :=
           {| Build.nonDynamicObject :=
                Build.spread (Build.nonDynamicObject (htmlPages c))
                  (localeHtmlNonDynamic l);
              Build.dynamicObject :=
                Build.spread (Build.dynamicObject (htmlPages c)) (localeHtmlDynamic l) |} |}
  | None =>
      {| dynamicList := [];
         ssrObject :=
           {| ssrDynamicObject := ssrPagesDynamic c;
              ssrCatchAllObject := [];
              ssrNonDynamicObject := ssrPagesNonDynamic c |};
         ssgObject := ssgPages;
         htmlObject := htmlPages c |}
  end.

(** Lines 334-344: the routes with a catch-all marker go to one object, the
    others to another. *)
Definition splitCatchAll (allDynamicRoutes : Build.JsObject Dynamic)
  : Build.JsObject Dynamic * Build.JsObject Dynamic :=
  fold_left
    (λ '(nonCatchAllRoutes, catchAllRoutes) entry,
       if Js.includes entry.1 "[..."
       then (nonCatchAllRoutes, Build.set catchAllRoutes entry.1 entry.2)
       else (Build.set nonCatchAllRoutes entry.1 entry.2, catchAllRoutes))
    allDynamicRoutes ([], []).

Definition keys {V} (o : Build.JsObject V) : list string := o.*1.

(** Lines 346-363: the split and the sorted list of all dynamic routes. *)
Definition sortPageRoutes (pg : PagesObject) : option PagesObject :=
  let '(nonCatchAllRoutes, catchAllRoutes) :=
    splitCatchAll (ssrDynamicObject (ssrObject pg)) in
  let ssr :=
    {| ssrDynamicObject := nonCatchAllRoutes;
       ssrCatchAllObject := catchAllRoutes;
       ssrNonDynamicObject := ssrNonDynamicObject (ssrObject pg) |} in
  let dynamicRoutes :=
    keys (Build.dynamicObject (htmlObject pg))
    ++ keys (ssgDynamicObject (ssgObject pg))
    ++ keys (ssrDynamicObject ssr)
    ++ keys (ssrCatchAllObject ssr) in
  sortedRoutes ← getSortedRoutes dynamicRoutes;
  Some {| dynamicList :=
            (λ route, {| route := route; pattern := pathToRegexStr route |})
              <$> sortedRoutes;
          ssrObject := ssr;
          htmlObject := htmlObject pg;
          ssgObject := ssgObject pg |}.

(** Lines 366-372; reading [dynamicApi[route].file] of a route that is not
    a key throws. *)
Definition sortApiRoutes (dynamicApi : Build.JsObject Dynamic) : option (list Dynamic) :=
  sortedApi ← getSortedRoutes (keys dynamicApi);
  mapM (λ route,
          page ← Build.get dynamicApi route;
          Some {| file := file page; regex := pathToRegexStr route |})
       sortedApi.

(** Lines 375-379 *)
Definition publicFilesObject (publicFiles : list string) : Build.JsObject string :=
  fold_left (λ files file, Build.set files ("/" +:+ file) file) publicFiles [].

Definition prepareBuildManifests (buildOptions : BuildOptions)
    (nextConfig : option NextConfig) (routesManifest : RoutesManifest)
    (pagesManifest : Build.JsObject string) (prerenderManifest : PrerenderManifest)
    (publicFiles : list string) : option Manifests :=
  let domainRedirects :=
    normaliseDomainRedirects (optionsDomainRedirects buildOptions) in
  let buildId := optionsBuildId buildOptions in
  let c := collectPages pagesManifest in
  let ssgPages := collectSsgPages routesManifest prerenderManifest in
  pg ← sortPageRoutes (pagesWithLocales buildId routesManifest c ssgPages);
  apiDynamic ← sortApiRoutes (dynamicApi c);
  Some {| pageManifest :=
            {| manifestBuildId := buildId;
               manifestPages := pg;
               manifestPublicFiles := publicFilesObject publicFiles;
               manifestTrailingSlash :=
                 default false (nextConfig ≫= configTrailingSlash);
               manifestDomainRedirects := domainRedirects;
               manifestAuthentication := authentication buildOptions |};
          apiManifest :=
            {| apiDynamic := apiDynamic;
               apiNonDynamic := apiPagesNonDynamic c;
               apiDomainRedirects := domainRedirects;
               apiAuthentication := authentication buildOptions |};
          imageManifest :=
            {| imageAuthentication := authentication buildOptions;
               imageDomainRedirects := domainRedirects |} |}.

End Steps.

(** The page manifest as the request handler reads it. *)
Definition toPageManifest (m : PageManifestObject) : PageManifest :=
  let pg := manifestPages m in
  {| buildId := manifestBuildId m;
     pages :=
       {| dynamic := dynamicList pg;
          ssr := {| ssrNonDynamic := Build.bucket (ssrNonDynamicObject (ssrObject pg));
                    ssrDynamic := Build.bucket (ssrDynamicObject (ssrObject pg));
                    ssrCatchAll := Build.bucket (ssrCatchAllObject (ssrObject pg)) |};
          html := {| htmlNonDynamic :=
                       Build.bucket (Build.nonDynamicObject (htmlObject pg));
                     htmlDynamic := Build.bucket (Build.dynamicObject (htmlObject pg)) |};
          ssg := {| ssgNonDynamic := Build.bucket (ssgNonDynamicObject (ssgObject pg));
                    ssgDynamic := Build.bucket (ssgDynamicObject (ssgObject pg)) |} |};
     publicFiles := Build.bucket (manifestPublicFiles m) |}.

End Builder.

(** ** Stand-ins for the builder's collaborators and a sample build *)

Module Sample.

(** Node's reason phrases of the redirect status codes, a locale helper
    for the locales [en], [fr], [nl] with default [en] that knows the header
    value [fr] only, and Node's text of a built-in function. *)
Definition platform : Platform :=
  {| STATUS_CODES := λ code,
       if (code =? 301)%nat then Some "Moved Permanently"
       else if (code =? 302)%nat then Some "Found"
       else if (code =? 307)%nat then Some "Temporary Redirect"
       else if (code =? 308)%nat then Some "Permanent Redirect"
       else None;
     getAcceptLanguageLocale := λ acceptLanguage _ _,
       match acceptLanguage with
       | Some header => if String.eqb header "fr" then Some "/fr" else None
       | None => None
       end;
     nativeFunctionText := λ name, "function " +:+ name +:+ "() { [native code] }" |}.

(** Route syntax for routes whose brackets are whole segments; the regex of
    a route is the one of [/[slug]] above or, for the other routes, the
    route between anchors. *)
Definition routeSyntax : RouteSyntax :=
  {| isDynamicRoute := λ route, Js.includes route "/[";
     isOptionalCatchAllRoute := λ route, Js.includes route "/[[...";
     pathToRegexStr := λ route,
       if String.eqb route "/[slug]" then Fixture.oneSegmentRegex
       else "^" +:+ route +:+ "$" |}.

(** A route sorter for lists that are already in order of precedence, and
    domain redirects that are already normal. *)
Definition buildTools : BuildTools :=
  {| getSortedRoutes := λ routes, Some routes;
     normaliseDomainRedirects := λ domainRedirects, domainRedirects |}.

Definition buildOptions : Builder.BuildOptions :=
  {| Builder.authentication := None;
     Builder.optionsBuildId := "build";
     Builder.optionsDomainRedirects := None |}.

Definition pagesManifest : Build.JsObject string :=
  [ ("/about", "pages/about.html");
    ("/404", "pages/404.html");
    ("/[slug]", "pages/[slug].js");
    ("/dashboard", "pages/dashboard.js");
    ("/docs/[[...path]]", "pages/docs/[[...path]].js");
    ("/api/users/[id]", "pages/api/users/[id].js") ].

Definition prerenderManifest : Builder.PrerenderManifest :=
  {| Builder.prerenderRoutes :=
       [ ("/en/news",
          {| dataRoute := "/_next/data/build/en/news.json";
             initialRevalidateSeconds := None;
             srcRoute := None |}) ];
     Builder.prerenderDynamicRoutes := None |}.

(** The build of the sample listing for the locales [en] and [nl]. *)
Definition build : option Builder.Manifests :=
  @Builder.prepareBuildManifests routeSyntax buildTools buildOptions None
    Fixture.english_dutch pagesManifest prerenderManifest ["favicon.ico"].

End Sample.

(** * Properties *)

(** ** Strings *)

Lemma endsWith_slash_split (s : string) :
  Js.endsWith s "/" = true → Js.slice_0_m1 s +:+ "/" = s.
Proof.
  induction s as [|c s IH]; [discriminate|].
  destruct s as [|c' s'].
  - cbn. destruct (Ascii.eqb_spec c "/"%char) as [->|]; [done|discriminate].
  - intros E. change (Js.endsWith (String c (String c' s')) "/")
      with (String.eqb (String c (String c' s')) "/" || Js.endsWith (String c' s') "/") in E.
    replace (String.eqb (String c (String c' s')) "/") with false in E
      by (cbn; by destruct (Ascii.eqb c "/"%char)).
    cbn [orb] in E. change (String c (Js.slice_0_m1 (String c' s') +:+ "/") = String c (String c' s')).
    f_equal. by apply IH.
Qed.

Lemma slashThenOther_spec (s : string) :
  Js.slashThenOther s = true
  ↔ ∃ c rest, s = String "/"%char (String c rest) ∧ c ≠ "/"%char.
Proof.
  split.
  - destruct s as [|c0 [|c rest]]; cbn; try discriminate.
    + by destruct c0 as [[] [] [] [] [] [] [] []].
    + destruct (Ascii.eqb_spec c0 "/"%char) as [->|Hne].
      * intros E. exists c, rest. split; [done|].
        intros ->. by rewrite Ascii.eqb_refl in E.
      * by destruct c0 as [[] [] [] [] [] [] [] []].
  - intros (c & rest & -> & Hc). cbn.
    by destruct (Ascii.eqb_spec c "/"%char).
Qed.

Lemma truthy_spec (s : string) : Js.truthy s = true ↔ s ≠ "".
Proof.
  unfold Js.truthy. destruct (String.eqb_spec s ""); split; intros; done.
Qed.

Lemma truthyAt_Some (o : gmap string string) (k v : string) :
  o !! k = Some v → v ≠ "" → Js.truthyAt o k = Some (Js.Str v).
Proof.
  intros Hk Hv. unfold Js.truthyAt, Js.member. rewrite Hk.
  apply truthy_spec in Hv. by rewrite Hv.
Qed.

Lemma truthyAt_None (o : gmap string string) (k : string) :
  o !! k = None → Js.inherited k = false → Js.truthyAt o k = None.
Proof. intros Hk Hi. unfold Js.truthyAt, Js.member. by rewrite Hk, Hi. Qed.

(** A key that the prototype has and the object has not is found all the
    same. *)
Lemma truthyAt_inherited (o : gmap string string) (k : string) :
  o !! k = None → Js.inherited k = true → Js.truthyAt o k = Some (Js.Inherited k).
Proof. intros Hk Hi. unfold Js.truthyAt, Js.member. by rewrite Hk, Hi. Qed.

Lemma has_own {V : Type} (o : gmap string V) (k : string) (v : V) :
  o !! k = Some v → Js.has o k = true.
Proof.
  intros Hk. unfold Js.has, Js.member. rewrite Hk. by apply bool_decide_eq_true_2.
Qed.

Lemma has_None {V : Type} (o : gmap string V) (k : string) :
  o !! k = None → Js.inherited k = false → Js.has o k = false.
Proof.
  intros Hk Hi. unfold Js.has, Js.member. rewrite Hk, Hi.
  apply bool_decide_eq_false_2. by intros [? ?].
Qed.

Lemma has_inherited {V : Type} (o : gmap string V) (k : string) :
  Js.inherited k = true → Js.has o k = true.
Proof.
  intros Hi. unfold Js.has, Js.member. rewrite Hi.
  apply bool_decide_eq_true_2. destruct (o !! k); eauto.
Qed.

Lemma member_own {V : Type} (o : gmap string V) (k : string) (v : V) :
  o !! k = Some v → Js.member o k = Some (Js.Own v).
Proof. intros Hk. unfold Js.member. by rewrite Hk. Qed.

Lemma member_None {V : Type} (o : gmap string V) (k : string) :
  o !! k = None → Js.inherited k = false → Js.member o k = None.
Proof. intros Hk Hi. unfold Js.member. by rewrite Hk, Hi. Qed.

(** No property of [Object.prototype] has a name that begins with a slash:
    a route is never one. *)
Lemma route_not_inherited (k : string) :
  Js.startsWith k "/" = true → Js.inherited k = false.
Proof.
  intros Hk. unfold Js.inherited. apply bool_decide_eq_false_2. intros Hin.
  unfold Js.objectPrototype in Hin.
  repeat (apply elem_of_cons in Hin as [-> | Hin]; [discriminate Hk|]).
  by apply elem_of_nil in Hin.
Qed.

(** ** [redirect.ts]: trailing slashes *)

(** C8, as the source has it.  File-like requests lose a trailing slash
    whatever the policy.  Page requests are normalized only when the URI is a
    slash followed by a character other than a slash: with the policy off a
    trailing slash is removed (["/terms/"] becomes ["/terms"]), with the
    policy on a missing one is added.  Every other page URI, the bare root
    and the empty URI among them, gets no normalization. *)
Theorem trailing_slash_policies (u : string) (manifest : Manifest) :
  let request := {| uri := u |} in
  let policy := default false (trailingSlash manifest) in
  (Js.endsWith u "/" = true →
     getTrailingSlashPath request manifest true = Some (Js.slice_0_m1 u)
     ∧ Js.slice_0_m1 u +:+ "/" = u)
  ∧ (Js.slashThenOther u = true → policy = false → Js.endsWith u "/" = true →
     getTrailingSlashPath request manifest false = Some (Js.slice_0_m1 u)
     ∧ Js.slice_0_m1 u +:+ "/" = u)
  ∧ (Js.slashThenOther u = true → policy = true → Js.endsWith u "/" = false →
     getTrailingSlashPath request manifest false = Some (u +:+ "/"))
  ∧ (Js.slashThenOther u = false →
     getTrailingSlashPath request manifest false = None)
  ∧ getTrailingSlashPath {| uri := "/" |} manifest false = None
  ∧ getTrailingSlashPath {| uri := "" |} manifest false = None
  ∧ getTrailingSlashPath {| uri := "/terms/" |} {| trailingSlash := Some false |} false
    = Some "/terms".
Proof.
  cbn zeta. unfold getTrailingSlashPath. cbn [uri].
  split_and!; try done.
  - intros E. rewrite E. split; [done|]. by apply endsWith_slash_split.
  - intros G P E. rewrite G, P, E. split; [done|]. by apply endsWith_slash_split.
  - intros G P E. by rewrite G, P, E.
  - intros G. by rewrite G.
Qed.

(** Applying the theorem to the page request [/blog/] of a build whose
    policy is off. *)
Lemma trailing_slash_policies_witness :
  getTrailingSlashPath {| uri := "/blog/" |} {| trailingSlash := None |} false
  = Some "/blog".
Proof.
  pose proof (trailing_slash_policies "/blog/" {| trailingSlash := None |}) as H.
  cbn zeta in H. destruct H as (_ & H & _).
  destruct (H eq_refl eq_refl eq_refl) as [-> _]. reflexivity.
Defined.

(** C8 as written fails: ["//terms/"] is a page URI that ends with a slash
    and is neither the bare root nor empty; with the policy off the claim
    promises ["//terms"], the source answers nothing. *)
Lemma trailing_slash_double_slash_counterexample :
  Js.endsWith "//terms/" "/" = true
  ∧ "//terms/" ≠ "/" ∧ "//terms/" ≠ ""
  ∧ getTrailingSlashPath {| uri := "//terms/" |} {| trailingSlash := Some false |} false
    = None.
Proof. split_and!; done. Qed.

(** ** [page.ts] *)

Section PageFacts.
Context `{!Helpers}.

Lemma matchDynamicRoute_firstMatch (routes : list DynamicRoute) (localeUri T : string) :
  matchDynamicRoute localeUri routes = Some T ↔ firstMatch routes localeUri T.
Proof.
  induction routes as [|r routes IH]; cbn.
  - split; [discriminate|]. intros (before & entry & rest & E & _).
    by destruct before.
  - destruct (regexTest (pattern r) localeUri) eqn:Hr.
    + split.
      * intros [= <-]. exists [], r, routes. by rewrite Forall_nil.
      * intros ([|b before] & entry & rest & E & Hb & He & <-).
        -- by injection E as <- _.
        -- injection E as <- _. apply Forall_cons in Hb as [Hb _]. congruence.
    + rewrite IH. split.
      * intros (before & entry & rest & -> & Hb & He & <-).
        exists (r :: before), entry, rest. by rewrite Forall_cons.
      * intros ([|b before] & entry & rest & E & Hb & He & <-).
        -- injection E as <- _. congruence.
        -- injection E as <- ->. apply Forall_cons in Hb as [_ Hb].
           by exists before, entry, rest.
Qed.

(** The SSG step is passed over when the bucket has no such key or the
    request is a preview. *)
Lemma ssg_step_skipped {V : Type} (bucket : gmap string V) (localeUri : string)
    (isPreview : bool) :
  Js.inherited localeUri = false →
  bucket !! localeUri = None ∨ isPreview = true →
  Js.has bucket localeUri && negb isPreview = false.
Proof.
  intros Hi [Hk | ->]; [|by rewrite andb_false_r].
  by rewrite (has_None _ _ Hk Hi).
Qed.

(** When no non-dynamic bucket answers and no rewrite is followed, the
    call goes on to the dynamic routes, at any depth bound. *)
Lemma handlePageReq_dynamic_stage (fuel : nat) (u : string)
    (manifest : PageManifest) (rm : RoutesManifest) (isPreview isRewrite : bool) :
  let localeUri := normalise (addDefaultLocaleToPath u rm) rm in
  noNonDynamic manifest localeUri isPreview →
  noRewrite u rm isRewrite →
  handlePageReq (S fuel) u manifest rm isPreview isRewrite
  = Some (resolveDynamic manifest localeUri).
Proof.
  intros localeUri ([Hhtml Hi] & Hssg & Hssr) Hrw. cbn [handlePageReq]. fold localeUri.
  rewrite (truthyAt_None _ _ Hhtml Hi), (truthyAt_None _ _ Hssr Hi).
  rewrite (ssg_step_skipped _ _ _ Hi Hssg).
  destruct Hrw as [-> | [-> | ->]]; [done| by destruct isRewrite ..].
Qed.

Lemma handle404_cases (manifest : PageManifest) :
  handle404 manifest = plain (StaticFile false "pages/404.html")
  ∨ handle404 manifest = plain (Render false "pages/_error.js").
Proof. unfold handle404. destruct (Js.truthyAt _ _); auto. Qed.

End PageFacts.


Section PageClaims.
Context `{!Helpers}.

(** C1, as the source has it.  When the normalized path is a key of no
    non-dynamic bucket and names no property of [Object.prototype], no
    rewrite is followed, and [T] is the first template of the sorted dynamic
    list whose pattern accepts the path, a template that is not empty and
    names no property of [Object.prototype] either, the decision comes from
    the first of the buckets SSG-dynamic (static file named after the path),
    SSR-dynamic (render), HTML-dynamic (static file), SSR-catchAll (render)
    that has [T] as a key. *)
Theorem dynamic_bucket_priority (fuel : nat) (u : string) (manifest : PageManifest)
    (rm : RoutesManifest) (isPreview isRewrite : bool) (T : string) :
  let localeUri := normalise (addDefaultLocaleToPath u rm) rm in
  let pg := pages manifest in
  let answer := handlePageReq (S fuel) u manifest rm isPreview isRewrite in
  noNonDynamic manifest localeUri isPreview →
  noRewrite u rm isRewrite →
  firstMatch (dynamic pg) localeUri T →
  T ≠ "" →
  Js.inherited T = false →
  (∀ e, ssgDynamic (ssg pg) !! T = Some e →
        answer = Some (plain (StaticFile false (pageHtml localeUri))))
  ∧ (∀ d, ssgDynamic (ssg pg) !! T = None →
          ssrDynamic (ssr pg) !! T = Some d →
          answer = Some (plain (Render false (file d))))
  ∧ (∀ d, ssgDynamic (ssg pg) !! T = None →
          ssrDynamic (ssr pg) !! T = None →
          htmlDynamic (html pg) !! T = Some d →
          answer = Some (plain (StaticFile false (file d))))
  ∧ (∀ d, ssgDynamic (ssg pg) !! T = None →
          ssrDynamic (ssr pg) !! T = None →
          htmlDynamic (html pg) !! T = None →
          ssrCatchAll (ssr pg) !! T = Some d →
          answer = Some (plain (Render false (file d)))).
Proof.
  intros localeUri pg answer Hnd Hrw HT Hne Hi. subst answer.
  rewrite handlePageReq_dynamic_stage by done. fold localeUri.
  apply matchDynamicRoute_firstMatch in HT.
  unfold resolveDynamic. fold pg. rewrite HT.
  apply truthy_spec in Hne. rewrite Hne. cbn [negb].
  split_and!.
  - intros e E. by rewrite (has_own _ _ _ E).
  - intros d E1 E2. by rewrite (has_None _ _ E1 Hi), (member_own _ _ _ E2).
  - intros d E1 E2 E3.
    by rewrite (has_None _ _ E1 Hi), (member_None _ _ E2 Hi), (member_own _ _ _ E3).
  - intros d E1 E2 E3 E4.
    by rewrite (has_None _ _ E1 Hi), (member_None _ _ E2 Hi),
      (member_None _ _ E3 Hi), (member_own _ _ _ E4).
Qed.

(** C2.  A well-formed manifest (its page files are named and the keys of
    its non-dynamic buckets are routes) whose HTML, SSG or SSR non-dynamic
    bucket has the normalized path as a key answers from that bucket at once,
    whatever the rewrite resolver, the dynamic list and the [isRewrite] flag
    are: the stored HTML file, the HTML artifact named after the path for
    an SSG entry outside preview mode (["pages/index.html"] for the root),
    the stored page for an SSR entry.  In preview mode the SSG non-dynamic
    bucket is not consulted at all. *)
Theorem non_dynamic_first (fuel : nat) (u : string) (manifest : PageManifest)
    (rm : RoutesManifest) (isPreview isRewrite : bool) :
  let localeUri := normalise (addDefaultLocaleToPath u rm) rm in
  let pg := pages manifest in
  let answer := handlePageReq (S fuel) u manifest rm isPreview isRewrite in
  wellFormed manifest →
  (∀ htmlFile : string, htmlNonDynamic (html pg) !! localeUri = Some htmlFile →
        answer = Some (plain (StaticFile false htmlFile)))
  ∧ (∀ entry, htmlNonDynamic (html pg) !! localeUri = None →
        ssgNonDynamic (ssg pg) !! localeUri = Some entry →
        isPreview = false →
        answer = Some (plain (StaticFile false (pageHtml localeUri))))
  ∧ (∀ page : string, htmlNonDynamic (html pg) !! localeUri = None →
        ssgNonDynamic (ssg pg) !! localeUri = None ∨ isPreview = true →
        ssrNonDynamic (ssr pg) !! localeUri = Some page →
        answer = Some (plain (Render false page)))
  ∧ pageHtml "/" = "pages/index.html"
  ∧ (localeUri ≠ "/" → pageHtml localeUri = "pages" +:+ localeUri +:+ ".html")
  ∧ (isPreview = true → ∀ n other,
        handlePageReq n u (withSsgNonDynamic manifest other) rm isPreview isRewrite
        = handlePageReq n u manifest rm isPreview isRewrite).
Proof.
  intros localeUri pg answer (Whtml & Wssr & _ & Kssg & Kssr). subst answer.
  split_and!.
  - intros htmlFile E. cbn [handlePageReq]. fold localeUri pg.
    by rewrite (truthyAt_Some _ _ _ E (Whtml _ _ E)).
  - intros entry E1 E2 ->. cbn [handlePageReq]. fold localeUri pg.
    by rewrite (truthyAt_None _ _ E1 (Kssg _ _ E2)), (has_own _ _ _ E2).
  - intros page E1 E2 E3. cbn [handlePageReq]. fold localeUri pg.
    rewrite (truthyAt_None _ _ E1 (Kssr _ _ E3)),
      (truthyAt_Some _ _ _ E3 (Wssr _ _ E3)).
    by rewrite (ssg_step_skipped _ _ _ (Kssr _ _ E3) E2).
  - done.
  - intros Hne. unfold pageHtml. by destruct (String.eqb_spec localeUri "/").
  - intros -> n other. clear. revert u isRewrite.
    induction n as [|n IH]; intros u isRewrite; [done|].
    cbn [handlePageReq]. cbn [withSsgNonDynamic pages html ssr ssg htmlNonDynamic
      ssrNonDynamic ssgNonDynamic negb]. rewrite !andb_false_r.
    destruct (Js.truthyAt _ _); [done|].
    destruct (Js.truthyAt _ _); [done|].
    destruct (if isRewrite then None else _) as [rw|]; [|done].
    destruct (Js.splitQuery rw) as [path qs].
    destruct (isExternalRewrite path); [done|]. by rewrite IH.
Qed.

(** C6.  The resolver terminates on every input.  A call with [isRewrite]
    set needs no nested call (a depth bound of one is enough) and does not
    ask the rewrite resolver at all; any call needs at most one nested call
    (a depth bound of two is enough), and a larger bound changes nothing.
    The nested call, made when an internal rewrite is found, has the flag
    set. *)
Theorem handlePageReq_terminates (u : string) (manifest : PageManifest)
    (rm : RoutesManifest) (isPreview isRewrite : bool) :
  is_Some (handlePageReq 1 u manifest rm isPreview true)
  ∧ is_Some (handlePageReq 2 u manifest rm isPreview isRewrite)
  ∧ (∀ fuel, handlePageReq (2 + fuel) u manifest rm isPreview isRewrite
             = handlePageReq 2 u manifest rm isPreview isRewrite)
  ∧ (∀ fuel resolver,
        @handlePageReq (withRewriteResolver _ resolver) fuel u manifest rm isPreview true
        = handlePageReq fuel u manifest rm isPreview true)
  ∧ (∀ fuel rewrite,
        isRewrite = false →
        noNonDynamic manifest
          (normalise (addDefaultLocaleToPath u rm) rm) isPreview →
        getRewritePath u rm = Some rewrite → rewrite ≠ "" →
        isExternalRewrite (Js.splitQuery rewrite).1 = false →
        handlePageReq (S fuel) u manifest rm isPreview isRewrite
        = handlePageReq fuel (Js.splitQuery rewrite).1 manifest rm isPreview true
          ≫= λ route, Some {| target := target route;
                              querystring := (Js.splitQuery rewrite).2 |}).
Proof.
  assert (∀ fuel u', handlePageReq (S fuel) u' manifest rm isPreview true
                     = handlePageReq 1 u' manifest rm isPreview true
                     ∧ is_Some (handlePageReq 1 u' manifest rm isPreview true)) as Hflag.
  { intros fuel u'. cbn [handlePageReq].
    destruct (Js.truthyAt _ _); [by eauto|].
    destruct (_ && _); [by eauto|].
    destruct (Js.truthyAt _ _); by eauto. }
  split_and!.
  - by destruct (Hflag 0 u).
  - cbn [handlePageReq].
    destruct (Js.truthyAt _ _); [by eauto|].
    destruct (_ && _); [by eauto|].
    destruct (Js.truthyAt _ _); [by eauto|].
    destruct (if isRewrite then None else _) as [rw|]; [|by eauto].
    destruct (Js.splitQuery rw) as [path qs].
    destruct (isExternalRewrite path); [by eauto|].
    destruct (Hflag 0 path) as [_ [route Hroute]].
    cbn [handlePageReq] in Hroute. rewrite Hroute. by eauto.
  - intros fuel. change (2 + fuel) with (S (S fuel)).
    remember (S fuel) as k eqn:Hk. remember 1 as one eqn:H1.
    cbn [handlePageReq].
    destruct (Js.truthyAt _ _); [done|].
    destruct (_ && _); [done|].
    destruct (Js.truthyAt _ _); [done|].
    destruct (if isRewrite then None else _) as [rw|]; [|done].
    destruct (Js.splitQuery rw) as [path qs].
    destruct (isExternalRewrite path); [done|].
    subst k one. by destruct (Hflag fuel path) as [-> _].
  - intros [|fuel] resolver; [done|]. by cbn.
  - intros fuel rewrite -> ([Hhtml Hi] & Hssg & Hssr) Hrw Hne Hext.
    cbn [handlePageReq].
    rewrite (truthyAt_None _ _ Hhtml Hi), (truthyAt_None _ _ Hssr Hi), Hrw.
    apply truthy_spec in Hne. rewrite Hne.
    rewrite (ssg_step_skipped _ _ _ Hi Hssg).
    destruct (Js.splitQuery rewrite) as [path qs]. cbn [fst snd] in *.
    by rewrite Hext.
Qed.


End PageClaims.

(** C10.  Whatever (non-empty) file name the HTML non-dynamic bucket stores
    under ["/404"], the not-found decision names ["pages/404.html"]. *)
Theorem handle404_ignores_stored_file (manifest : PageManifest) (stored : string) :
  htmlNonDynamic (html (pages manifest)) !! "/404" = Some stored →
  stored ≠ "" →
  handle404 manifest = plain (StaticFile false "pages/404.html").
Proof.
  intros E Hne. unfold handle404. by rewrite (truthyAt_Some _ _ _ E Hne).
Qed.

(** ** [redirect.ts] and [match.ts]: redirect rules *)

Section RedirectClaims.
Context `{!Helpers} `{!PathToRegexp}.

(** The scan stops at the first rule whose source matches; the rules after
    it are never looked at. *)
Lemma scanRedirects_first (p : string) (before rest : list RedirectData)
    (r : RedirectData) (params : Params) :
  Forall (λ earlier, matchPath p (source earlier) = None) before →
  matchPath p (source r) = Some params →
  scanRedirects p (before ++ r :: rest) = scanRedirects p [r].
Proof.
  intros Hb Hr. induction Hb as [|earlier before He _ IH]; cbn [app scanRedirects].
  - by rewrite Hr.
  - by rewrite He.
Qed.

(** C3.  The rules are tried in declaration order and the first one whose
    source matches the path (after default-locale insertion) decides: when
    its destination compiles, the redirect is that destination with that
    rule's status code, whatever rules follow, so of two matching rules the
    earlier one always wins. *)
Theorem first_matching_redirect_decides (request : Request) (rm : RoutesManifest)
    (before rest : list RedirectData) (r : RedirectData) (params : Params) :
  let p := addDefaultLocaleToPath (uri request) rm in
  redirects rm = Some (before ++ r :: rest) →
  Forall (λ earlier, matchPath p (source earlier) = None) before →
  matchPath p (source r) = Some params →
  (∀ compiled, compileDestination (destination r) params = Some compiled →
     compiled ≠ "" →
     getRedirectPath request rm
     = Some {| path := compiled; redirectStatusCode := statusCode r |})
  ∧ (∀ later, scanRedirects p (before ++ r :: later) = getRedirectPath request rm).
Proof.
  intros p Hrules Hb Hr. unfold getRedirectPath. fold p. rewrite Hrules.
  change (default [] (Some (before ++ r :: rest))) with (before ++ r :: rest).
  split.
  - intros compiled Hc Hne. rewrite (scanRedirects_first _ _ _ _ _ Hb Hr).
    cbn [scanRedirects]. rewrite Hr, Hc. apply truthy_spec in Hne. by rewrite Hne.
  - intros later.
    by rewrite (scanRedirects_first p before later r params Hb Hr),
               (scanRedirects_first p before rest r params Hb Hr).
Qed.

(** C4, as the source has it.  When the destination of the first matching
    rule does not compile, the answer is "no redirect": nothing is thrown,
    and the rules after it are not tried. *)
Theorem failed_destination_yields_no_redirect (request : Request)
    (rm : RoutesManifest) (before rest : list RedirectData) (r : RedirectData)
    (params : Params) :
  let p := addDefaultLocaleToPath (uri request) rm in
  redirects rm = Some (before ++ r :: rest) →
  Forall (λ earlier, matchPath p (source earlier) = None) before →
  matchPath p (source r) = Some params →
  compileDestination (destination r) params = None →
  getRedirectPath request rm = None.
Proof.
  intros p Hrules Hb Hr Hc. unfold getRedirectPath. fold p. rewrite Hrules.
  change (default [] (Some (before ++ r :: rest))) with (before ++ r :: rest).
  rewrite (scanRedirects_first _ _ _ _ _ Hb Hr).
  cbn [scanRedirects]. by rewrite Hr, Hc.
Qed.

(** C9, as the source has it.  For an absolute [http]/[https] destination
    that does not end with a slash, a slash at the end of the compiled URL
    is removed (one of them); otherwise the compiled URL is returned as it
    is.  Any other destination is returned exactly as compiled, so a slash
    that the substitution puts at its end stays. *)
Theorem destination_trailing_slash (dest : string) (params : Params) :
  let lower := Js.toLowerCase dest in
  let absolute := Js.startsWith lower "https://" || Js.startsWith lower "http://" in
  (absolute = true →
   ∀ origin pathname toPath compiledPath,
     parseURL dest = Some (origin, pathname) →
     compile pathname = Some toPath →
     toPath params = Some compiledPath →
     (Js.endsWith dest "/" = false →
      Js.endsWith (origin +:+ compiledPath) "/" = true →
      ∃ stripped, compileDestination dest params = Some stripped
                  ∧ stripped +:+ "/" = origin +:+ compiledPath)
     ∧ (Js.endsWith dest "/" = true ∨ Js.endsWith (origin +:+ compiledPath) "/" = false →
        compileDestination dest params = Some (origin +:+ compiledPath)))
  ∧ (absolute = false →
     compileDestination dest params
     = compile (Js.escapeQuestionMarks dest) ≫= (λ toPath, toPath params)).
Proof.
  intros lower absolute. split.
  - intros Habs origin pathname toPath compiledPath Hurl Hcompile Hpath.
    unfold compileDestination. fold lower absolute. rewrite Habs, Hurl.
    cbn [mbind option_bind]. rewrite Hcompile. cbn [mbind option_bind].
    rewrite Hpath. cbn [mbind option_bind]. split.
    + intros Hd E. rewrite Hd, E. cbn [negb andb]. eexists. split; [done|].
      by apply endsWith_slash_split.
    + intros [Hd | E]; [by rewrite Hd|]. by rewrite E, andb_false_r.
  - intros Habs. unfold compileDestination. fold lower absolute. by rewrite Habs.
Qed.

End RedirectClaims.

(** ** Concrete requests *)

Lemma aboutAndSlug_wellFormed : wellFormed Fixture.aboutAndSlug.
Proof.
  unfold wellFormed, routeKeys. cbn.
  split_and!; try apply map_Forall_empty; by apply map_Forall_singleton.
Qed.

Lemma slug_firstMatch (u : string) :
  Fixture.oneSegment u = true →
  @firstMatch (Fixture.helpers []) (dynamic (pages Fixture.aboutAndSlug)) u "/[slug]".
Proof.
  intros Hu. exists [], {| route := "/[slug]"; pattern := Fixture.oneSegmentRegex |}, [].
  split_and!; [done|apply Forall_nil_2| |done].
  change (Fixture.oneSegmentTest Fixture.oneSegmentRegex u = true).
  unfold Fixture.oneSegmentTest. rewrite Hu. reflexivity.
Qed.

(** [/contact] is served by the page [/[slug]] of the SSR-dynamic bucket. *)
Lemma dynamic_bucket_priority_witness :
  @handlePageReq (Fixture.helpers []) 1 "/contact" Fixture.aboutAndSlug
    (Fixture.routesManifest []) false false
  = Some (plain (Render false "pages/[slug].js")).
Proof.
  pose proof (@dynamic_bucket_priority (Fixture.helpers []) 0 "/contact"
                Fixture.aboutAndSlug (Fixture.routesManifest []) false false "/[slug]") as H.
  cbn zeta in H. destruct H as (_ & H & _).
  - split_and!; [done|done|by left|done].
  - right. by left.
  - by apply slug_firstMatch.
  - done.
  - done.
  - exact (H Fixture.slugPage eq_refl eq_refl).
Defined.

(** C1 as written fails: [/about] matches the template [/[slug]], whose
    first bucket is SSR-dynamic, yet the decision is the static file of the
    HTML non-dynamic bucket and not the render of [pages/[slug].js]. *)
Lemma dynamic_bucket_priority_counterexample :
  @matchDynamicRoute (Fixture.helpers []) "/about"
     (dynamic (pages Fixture.aboutAndSlug)) = Some "/[slug]"
  ∧ ssgDynamic (ssg (pages Fixture.aboutAndSlug)) !! "/[slug]" = None
  ∧ ssrDynamic (ssr (pages Fixture.aboutAndSlug)) !! "/[slug]" = Some Fixture.slugPage
  ∧ @handlePageReq (Fixture.helpers []) 2 "/about" Fixture.aboutAndSlug
      (Fixture.routesManifest []) false false
    = Some (plain (StaticFile false "pages/about.html"))
  ∧ @handlePageReq (Fixture.helpers []) 2 "/about" Fixture.aboutAndSlug
      (Fixture.routesManifest []) false false
    ≠ Some (plain (Render false (file Fixture.slugPage))).
Proof. split_and!; done. Qed.

(** The two conditions on the template in C1 are needed.  An empty template
    counts as no match ([!dynamic]), whatever the buckets store under it;
    and a template that names a property of [Object.prototype] is found by
    the read of the SSG-dynamic bucket, which has no such key. *)
Example empty_template_is_not_found :
  @firstMatch (Fixture.helpers []) (dynamic (pages (Fixture.slugUnder ""))) "/contact" ""
  ∧ ssrDynamic (ssr (pages (Fixture.slugUnder ""))) !! "" = Some Fixture.slugPage
  ∧ @handlePageReq (Fixture.helpers []) 1 "/contact" (Fixture.slugUnder "")
      (Fixture.routesManifest []) false false
    = Some (plain (Render false "pages/_error.js")).
Proof.
  split_and!; [|done..].
  exists [], {| route := ""; pattern := Fixture.oneSegmentRegex |}, [].
  split_and!; [done|apply Forall_nil_2|done|done].
Qed.

Example inherited_template_is_static :
  @firstMatch (Fixture.helpers []) (dynamic (pages (Fixture.slugUnder "valueOf")))
     "/contact" "valueOf"
  ∧ ssgDynamic (ssg (pages (Fixture.slugUnder "valueOf"))) !! "valueOf" = None
  ∧ ssrDynamic (ssr (pages (Fixture.slugUnder "valueOf"))) !! "valueOf"
    = Some Fixture.slugPage
  ∧ @handlePageReq (Fixture.helpers []) 1 "/contact" (Fixture.slugUnder "valueOf")
      (Fixture.routesManifest []) false false
    = Some (plain (StaticFile false "pages/contact.html")).
Proof.
  split_and!; [|done..].
  exists [], {| route := "valueOf"; pattern := Fixture.oneSegmentRegex |}, [].
  split_and!; [done|apply Forall_nil_2|done|done].
Qed.

(** The rewrite of [/old] to [/about?ref=1] is answered by one nested call
    with the flag set. *)
Lemma handlePageReq_terminates_witness :
  @handlePageReq (Fixture.helpers [("/old", "/about?ref=1")]) 2 "/old"
    Fixture.aboutAndSlug (Fixture.routesManifest []) false false
  = @handlePageReq (Fixture.helpers [("/old", "/about?ref=1")]) 1 "/about"
      Fixture.aboutAndSlug (Fixture.routesManifest []) false true
    ≫= λ route, Some {| target := target route; querystring := Some "ref=1" |}.
Proof.
  pose proof (@handlePageReq_terminates (Fixture.helpers [("/old", "/about?ref=1")])
                "/old" Fixture.aboutAndSlug (Fixture.routesManifest []) false false)
    as (_ & _ & _ & _ & H).
  apply (H 1 "/about?ref=1"); try done.
  split_and!; [done|done|by left|done].
Defined.

(** [/about] is served from the HTML non-dynamic bucket. *)
Lemma non_dynamic_first_witness :
  @handlePageReq (Fixture.helpers []) 1 "/about" Fixture.aboutAndSlug
    (Fixture.routesManifest []) false false
  = Some (plain (StaticFile false "pages/about.html")).
Proof.
  pose proof (@non_dynamic_first (Fixture.helpers []) 0 "/about"
                Fixture.aboutAndSlug (Fixture.routesManifest []) false false
                aboutAndSlug_wellFormed) as H.
  cbn zeta in H. destruct H as (H & _).
  exact (H "pages/about.html" eq_refl).
Defined.



Lemma handle404_ignores_stored_file_witness :
  handle404 Fixture.localized404 = plain (StaticFile false "pages/404.html").
Proof.
  apply (handle404_ignores_stored_file Fixture.localized404 "pages/en/404.html");
    done.
Defined.

(** ** Concrete redirects *)

(** Two rules for [/a]: the first one declared wins. *)
Lemma first_matching_redirect_decides_witness :
  @getRedirectPath (Fixture.helpers []) Fixture.pathToRegexp {| uri := "/a" |}
    (Fixture.routesManifest [Fixture.rule "/a" "/b" 308; Fixture.rule "/a" "/c" 302])
  = Some {| path := "/b"; redirectStatusCode := 308 |}.
Proof.
  pose proof (@first_matching_redirect_decides (Fixture.helpers []) Fixture.pathToRegexp
                {| uri := "/a" |}
                (Fixture.routesManifest
                   [Fixture.rule "/a" "/b" 308; Fixture.rule "/a" "/c" 302])
                [] [Fixture.rule "/a" "/c" 302] (Fixture.rule "/a" "/b" 308) []) as H.
  cbn zeta in H. destruct H as [H _]; [done|apply Forall_nil_2|done|].
  exact (H "/b" eq_refl ltac:(done)).
Defined.

(** The rule [/invalid-destination] of the test suite: its destination does
    not compile, the answer is [null]. *)
Lemma failed_destination_yields_no_redirect_witness :
  @getRedirectPath (Fixture.helpers []) Fixture.pathToRegexp
    {| uri := "/invalid-destination" |}
    (Fixture.routesManifest
       [Fixture.rule "/a" "/b" 308;
        Fixture.rule "/invalid-destination" "ftp://example.com" 308])
  = None.
Proof.
  apply (@failed_destination_yields_no_redirect (Fixture.helpers []) Fixture.pathToRegexp
           {| uri := "/invalid-destination" |}
           (Fixture.routesManifest
              [Fixture.rule "/a" "/b" 308;
               Fixture.rule "/invalid-destination" "ftp://example.com" 308])
           [Fixture.rule "/a" "/b" 308] []
           (Fixture.rule "/invalid-destination" "ftp://example.com" 308) []).
  - done.
  - apply Forall_singleton. done.
  - done.
  - done.
Defined.

(** C4 as written fails: both rules match [/a], the destination of the first
    does not compile, the second would redirect to [/b]; the claim promises
    the redirect of the second, the source answers [null]. *)
Lemma failed_destination_counterexample :
  @matchPath Fixture.pathToRegexp "/a" "/a" = Some []
  ∧ @compileDestination Fixture.pathToRegexp "ftp://example.com" [] = None
  ∧ @getRedirectPath (Fixture.helpers []) Fixture.pathToRegexp {| uri := "/a" |}
      (Fixture.routesManifest [Fixture.rule "/a" "/b" 308])
    = Some {| path := "/b"; redirectStatusCode := 308 |}
  ∧ @getRedirectPath (Fixture.helpers []) Fixture.pathToRegexp {| uri := "/a" |}
      (Fixture.routesManifest
         [Fixture.rule "/a" "ftp://example.com" 308; Fixture.rule "/a" "/b" 308])
    = None.
Proof. split_and!; done. Qed.

(** The destination [https://example.com]: the URL parser gives the path
    ["/"], and the slash it brings is removed. *)
Lemma destination_trailing_slash_witness :
  ∃ stripped,
    @compileDestination Fixture.pathToRegexp "https://example.com" [] = Some stripped
    ∧ stripped +:+ "/" = "https://example.com/".
Proof.
  pose proof (@destination_trailing_slash Fixture.pathToRegexp "https://example.com" [])
    as H.
  cbn zeta in H. destruct H as [H _].
  destruct (H eq_refl "https://example.com" "/"
              (Fixture.toPath false false [Fixture.TChar "/"])
              "/" eq_refl eq_refl eq_refl) as [H' _].
  exact (H' eq_refl eq_refl).
Defined.

(** C9 as written fails: the relative destination [/docs{/:section/}] does
    not end with a slash, the substitution of [section] puts one at the end
    of the result, and it is not removed. *)
Lemma destination_trailing_slash_counterexample :
  Js.endsWith "/docs{/:section/}" "/" = false
  ∧ @compileDestination Fixture.pathToRegexp "/docs{/:section/}" [("section", "intro")]
    = Some "/docs/intro/"
  ∧ Js.endsWith "/docs/intro/" "/" = true.
Proof. split_and!; done. Qed.

(** ** [build/index.ts]: the HTML bucket *)

Section ObjectFacts.
Context {V : Type}.
Implicit Types (o : Build.JsObject V) (Q : V → Prop).

Lemma set_values o key v Q :
  Forall (λ kv, Q kv.2) o → Q v → Forall (λ kv, Q kv.2) (Build.set o key v).
Proof.
  intros Ho Hv. induction Ho as [|[k v'] o Hk Ho IH]; cbn.
  - by apply Forall_singleton.
  - destruct (String.eqb k key); apply Forall_cons; by split.
Qed.

Lemma spread_values o o' Q :
  Forall (λ kv, Q kv.2) o → Forall (λ kv, Q kv.2) o' →
  Forall (λ kv, Q kv.2) (Build.spread o o').
Proof.
  intros Ho Ho'. unfold Build.spread. revert o Ho.
  induction Ho' as [|[k v] o' Hk Ho' IH]; intros o Ho; cbn; [done|].
  apply IH. by apply set_values.
Qed.

Lemma bucket_values o Q :
  Forall (λ kv, Q kv.2) o → map_Forall (λ _ v, Q v) (Build.bucket o).
Proof.
  unfold Build.bucket. generalize (∅ : gmap string V) (map_Forall_empty (λ (_ : string) v, Q v) (M:=gmap string)).
  intros m Hm Ho. revert m Hm.
  induction Ho as [|[k v] o Hk Ho IH]; intros m Hm; cbn; [done|].
  apply IH. by apply map_Forall_insert_2.
Qed.

Lemma get_set_same o key v : Build.get (Build.set o key v) key = Some v.
Proof.
  induction o as [|[k v'] o IH]; cbn.
  - by rewrite String.eqb_refl.
  - destruct (String.eqb k key) eqn:E; cbn; by rewrite E.
Qed.

Lemma get_set_is_Some o key key' v :
  is_Some (Build.get o key') → is_Some (Build.get (Build.set o key v) key').
Proof.
  induction o as [|[k v'] o IH]; cbn; [by intros [? ?]|].
  destruct (String.eqb k key) eqn:E; cbn.
  - destruct (String.eqb k key'); eauto.
  - destruct (String.eqb k key'); eauto.
Qed.

Lemma spread_is_Some o o' key :
  is_Some (Build.get o key) ∨ is_Some (Build.get o' key) →
  is_Some (Build.get (Build.spread o o') key).
Proof.
  unfold Build.spread. revert o. induction o' as [|[k v] o' IH]; intros o; cbn.
  - intros [H|[? ?]]; done.
  - intros [H|H]; apply IH.
    + left. by apply get_set_is_Some.
    + destruct (String.eqb_spec k key) as [->|Hne].
      * left. rewrite get_set_same. eauto.
      * by right.
Qed.

End ObjectFacts.

Lemma endsWith_not_empty (s suffix : string) :
  suffix ≠ "" → Js.endsWith s suffix = true → s ≠ "".
Proof.
  intros Hs E ->. cbn in E. by destruct suffix.
Qed.

Lemma replace_not_empty (pat rep s : string) :
  rep ≠ "" → s ≠ "" → Js.replace pat rep s ≠ "".
Proof.
  intros Hrep Hs. destruct s as [|c s]; [done|].
  cbn [Js.replace]. destruct (String.prefix pat (String c s)); [|done].
  destruct rep; done.
Qed.

Section BuilderFacts.
Context `{!RouteSyntax}.

Lemma collectHtmlPage_files (htmlPages : Build.HtmlPagesObject) (route pageFile : string) :
  Forall (λ kv, kv.2 ≠ "") (Build.nonDynamicObject htmlPages) →
  Forall (λ kv, kv.2 ≠ "")
    (Build.nonDynamicObject (Build.collectHtmlPage htmlPages route pageFile)).
Proof.
  intros Hacc. unfold Build.collectHtmlPage.
  destruct (Build.isHtmlPage pageFile) eqn:Hhtml; [|done].
  assert (pageFile ≠ "") by (by eapply endsWith_not_empty; [|exact Hhtml]).
  destruct (_ && _); [done|].
  destruct (isOptionalCatchAllRoute route); cbn;
    by apply (set_values _ _ _ (λ f, f ≠ "")).
Qed.

Lemma collectHtmlPages_files (pagesManifest : Build.JsObject string) :
  Forall (λ kv, kv.2 ≠ "") (Build.nonDynamicObject (Build.collectHtmlPages pagesManifest)).
Proof.
  unfold Build.collectHtmlPages.
  assert (∀ acc, Forall (λ kv : string * string, kv.2 ≠ "") (Build.nonDynamicObject acc) →
            Forall (λ kv : string * string, kv.2 ≠ "")
              (Build.nonDynamicObject
                 (fold_left (λ htmlPages entry, Build.collectHtmlPage htmlPages entry.1 entry.2)
                    pagesManifest acc))) as Hfold.
  { induction pagesManifest as [|[route pageFile] rest IH]; intros acc Hacc; cbn; [done|].
    by apply IH, collectHtmlPage_files. }
  apply Hfold. cbn. apply Forall_nil_2.
Qed.

Lemma htmlPagesNonDynamicLoop_files (locales : list string) (locale : string)
    (entries acc : Build.JsObject string) :
  Forall (λ kv, kv.2 ≠ "") entries → Forall (λ kv, kv.2 ≠ "") acc →
  Forall (λ kv, kv.2 ≠ "") (Build.htmlPagesNonDynamicLoop locales locale entries acc).
Proof.
  intros He. revert acc. induction He as [|[key pageFile] entries Hk He IH];
    intros acc Hacc; cbn; [done|].
  destruct (Build.localePrefixed locales key); [done|].
  apply IH, (set_values _ _ _ (λ f, f ≠ "")); [done|].
  by apply replace_not_empty.
Qed.

(** The files that the builder stores in the HTML non-dynamic bucket are
    never empty: they end with [.html] when they come from the page listing
    and keep at least the locale segment when they are duplicates. *)
Lemma builder_html_files_not_empty (routesManifest : RoutesManifest)
    (pagesManifest : Build.JsObject string) :
  map_Forall (λ _ pageFile, pageFile ≠ "")
    (Build.bucket
       (Build.htmlNonDynamicOut routesManifest
          (Build.nonDynamicObject (Build.collectHtmlPages pagesManifest)))).
Proof.
  apply (bucket_values _ (λ pageFile, pageFile ≠ "")).
  pose proof (collectHtmlPages_files pagesManifest) as Hfiles.
  unfold Build.htmlNonDynamicOut. destruct (i18n routesManifest) as [i|]; [|done].
  apply (spread_values _ _ (λ pageFile, pageFile ≠ "")); [done|].
  unfold Build.localeHtmlPagesNonDynamic.
  assert (∀ todo acc, Forall (λ kv : string * string, kv.2 ≠ "") acc →
            Forall (λ kv : string * string, kv.2 ≠ "")
              (fold_left
                 (λ acc locale,
                    Build.htmlPagesNonDynamicLoop (locales i) locale
                      (Build.nonDynamicObject (Build.collectHtmlPages pagesManifest)) acc)
                 todo acc)) as Hfold.
  { induction todo as [|locale todo IH]; intros acc Hacc; cbn; [done|].
    by apply IH, htmlPagesNonDynamicLoop_files. }
  apply Hfold, Forall_nil_2.
Qed.

End BuilderFacts.

(** ** [build/index.ts]: locale duplicates of the HTML pages *)

(** Once a key with a locale prefix is met, the loop is left: the entries
    after it are not visited, for any locale. *)
Lemma htmlPagesNonDynamicLoop_break (locales : list string) (locale key pageFile : string)
    (rest localeHtml : Build.JsObject string) :
  Build.localePrefixed locales key = true →
  Build.htmlPagesNonDynamicLoop locales locale ((key, pageFile) :: rest) localeHtml
  = localeHtml.
Proof. intros E. cbn. by rewrite E. Qed.

Lemma htmlPagesNonDynamicLoop_keeps (locales : list string) (locale key' : string)
    (entries localeHtml : Build.JsObject string) :
  is_Some (Build.get localeHtml key') →
  is_Some (Build.get (Build.htmlPagesNonDynamicLoop locales locale entries localeHtml) key').
Proof.
  revert localeHtml. induction entries as [|[key pageFile] entries IH];
    intros localeHtml Hk; cbn; [done|].
  destruct (Build.localePrefixed locales key); [done|].
  by apply IH, get_set_is_Some.
Qed.

Lemma htmlPagesNonDynamicLoop_duplicates (locales : list string) (locale : string)
    (before rest localeHtml : Build.JsObject string) (key pageFile : string) :
  Forall (λ kv, Build.localePrefixed locales kv.1 = false) before →
  (key, pageFile) ∈ before →
  is_Some (Build.get
             (Build.htmlPagesNonDynamicLoop locales locale (before ++ rest) localeHtml)
             (Build.localeKey locale key)).
Proof.
  intros Hb. revert localeHtml.
  induction Hb as [|[k f] before Hk Hb IH]; intros localeHtml Hin.
  - by apply elem_of_nil in Hin.
  - cbn in Hk |- *. rewrite Hk. apply elem_of_cons in Hin as [[= <- <-]|Hin].
    + apply htmlPagesNonDynamicLoop_keeps. rewrite get_set_same. eauto.
    + by apply IH.
Qed.

(** The entries in front of the first key with a locale prefix do get their
    duplicate for every configured locale. *)
Lemma duplicates_before_first_prefixed_key (routesManifest : RoutesManifest)
    (i : I18n) (before rest : Build.JsObject string) (locale key pageFile : string) :
  i18n routesManifest = Some i →
  locale ∈ locales i →
  Forall (λ kv, Build.localePrefixed (locales i) kv.1 = false) before →
  (key, pageFile) ∈ before →
  is_Some (Build.get (Build.htmlNonDynamicOut routesManifest (before ++ rest))
             (Build.localeKey locale key)).
Proof.
  intros Hi Hlocale Hb Hin. unfold Build.htmlNonDynamicOut. rewrite Hi.
  apply spread_is_Some. right. unfold Build.localeHtmlPagesNonDynamic.
  assert (∀ todo acc,
            locale ∈ todo ∨ is_Some (Build.get acc (Build.localeKey locale key)) →
            is_Some (Build.get
                       (fold_left
                          (λ acc l, Build.htmlPagesNonDynamicLoop (locales i) l
                                      (before ++ rest) acc) todo acc)
                       (Build.localeKey locale key))) as Hfold.
  { induction todo as [|l todo IH]; intros acc H; cbn.
    - destruct H as [H|H]; [by apply elem_of_nil in H|done].
    - apply IH. destruct H as [H|H].
      + apply elem_of_cons in H as [<-|H]; [right|by left].
        by eapply htmlPagesNonDynamicLoop_duplicates.
      + right. by apply htmlPagesNonDynamicLoop_keeps. }
  apply Hfold. by left.
Qed.

(** When the first key already has a locale prefix, no duplicate is made
    at all and the bucket stays as it was. *)
Lemma nothing_duplicated_behind_prefixed_key (routesManifest : RoutesManifest)
    (key pageFile : string) (rest : Build.JsObject string) :
  (∀ i, i18n routesManifest = Some i → Build.localePrefixed (locales i) key = true) →
  Build.htmlNonDynamicOut routesManifest ((key, pageFile) :: rest)
  = (key, pageFile) :: rest.
Proof.
  intros Hkey. unfold Build.htmlNonDynamicOut.
  destruct (i18n routesManifest) as [i|]; [|done].
  specialize (Hkey i eq_refl). unfold Build.localeHtmlPagesNonDynamic.
  assert (∀ todo, fold_left
                    (λ acc l, Build.htmlPagesNonDynamicLoop (locales i) l
                                ((key, pageFile) :: rest) acc) todo []
                  = []) as ->; [|done].
  induction todo as [|l todo IH]; [done|].
  cbn [fold_left]. by rewrite htmlPagesNonDynamicLoop_break.
Qed.

(** C5 on the page listing [{ "/en/about": ..., "/contact": ... }] with the
    locales [en] and [nl]: [/contact] has no locale prefix, yet the builder
    leaves the HTML bucket without [/en/contact] and [/nl/contact], because
    the prefixed key [/en/about] comes first; with the two entries in the
    other order both duplicates are made. *)
Theorem locale_duplication_stops_at_prefixed_key :
  Build.localePrefixed ["en"; "nl"] "/contact" = false
  ∧ Build.localePrefixed ["en"; "nl"] "/en/about" = true
  ∧ Build.htmlNonDynamicOut Fixture.english_dutch
      [("/en/about", "pages/en/about.html"); ("/contact", "pages/contact.html")]
    = [("/en/about", "pages/en/about.html"); ("/contact", "pages/contact.html")]
  ∧ Build.htmlNonDynamicOut Fixture.english_dutch
      [("/contact", "pages/contact.html"); ("/en/about", "pages/en/about.html")]
    = [("/contact", "pages/contact.html"); ("/en/about", "pages/en/about.html");
       ("/en/contact", "pages/en/contact.html");
       ("/nl/contact", "pages/nl/contact.html")].
Proof. split_and!; reflexivity. Qed.

(** ** Further concrete runs *)

(** A rewrite is followed once: the nested call needs a depth bound of two,
    and the query string of the rewrite target is attached to its answer. *)
Example rewrite_followed_once :
  @handlePageReq (Fixture.helpers [("/old", "/about?ref=1")]) 1 "/old"
    Fixture.aboutAndSlug (Fixture.routesManifest []) false false = None
  ∧ @handlePageReq (Fixture.helpers [("/old", "/about?ref=1")]) 2 "/old"
      Fixture.aboutAndSlug (Fixture.routesManifest []) false false
    = Some {| target := StaticFile false "pages/about.html";
              querystring := Some "ref=1" |}.
Proof. split; reflexivity. Qed.

(** The target of a rewrite is not rewritten again: [/x] is rewritten to
    [/y], and [/y] is then served by the dynamic page although a rewrite of
    [/y] is declared. *)
Example rewrite_chain_not_followed :
  @handlePageReq (Fixture.helpers [("/x", "/y"); ("/y", "/about")]) 2 "/x"
    Fixture.aboutAndSlug (Fixture.routesManifest []) false false
  = Some (plain (Render false "pages/[slug].js")).
Proof. reflexivity. Qed.

Example external_rewrite :
  @handlePageReq (Fixture.helpers [("/ext", "https://external.com?x=1")]) 1 "/ext"
    Fixture.aboutAndSlug (Fixture.routesManifest []) false false
  = Some {| target := External "https://external.com"; querystring := Some "x=1" |}.
Proof. reflexivity. Qed.

(** The rules with literal sources of [redirector.test.ts]. *)
Example redirector_test_rules :
  let rules :=
    [Fixture.rule "/a" "/b" 308; Fixture.rule "/c" "/d" 302;
     Fixture.rule "/external" "https://example.com" 308;
     Fixture.rule "/invalid-destination" "ftp://example.com" 308] in
  let redirect u :=
    @getRedirectPath (Fixture.helpers []) Fixture.pathToRegexp {| uri := u |}
      (Fixture.routesManifest rules) in
  redirect "/a" = Some {| path := "/b"; redirectStatusCode := 308 |}
  ∧ redirect "/c" = Some {| path := "/d"; redirectStatusCode := 302 |}
  ∧ redirect "/external"
    = Some {| path := "https://example.com"; redirectStatusCode := 308 |}
  ∧ redirect "/invalid-destination" = None
  ∧ redirect "/missing" = None.
Proof. cbn zeta. split_and!; reflexivity. Qed.

(** A parameter is substituted percent-encoded, and a question mark of a
    relative destination is kept as text. *)
Example compile_with_parameter :
  @compileDestination Fixture.pathToRegexp "/news/:slug" [("slug", "a b")]
  = Some "/news/a%20b"
  ∧ @compileDestination Fixture.pathToRegexp "/search?q=:term" [("term", "x")]
    = Some "/search?q=x"
  ∧ @compileDestination Fixture.pathToRegexp "/news/:slug" [] = None.
Proof. split_and!; reflexivity. Qed.

(** * Further properties of the sources *)

(** ** [redirect.ts]: the redirect response *)

Lemma append_cons (c : ascii) (s t : string) :
  String c s +:+ t = String c (s +:+ t).
Proof. reflexivity. Qed.


Lemma append_assoc (s t u : string) : (s +:+ t) +:+ u = s +:+ (t +:+ u).
Proof. induction s as [|c s IH]; [done|]. by rewrite !append_cons, IH. Qed.

Lemma append_length (s t : string) :
  String.length (s +:+ t) = String.length s + String.length t.
Proof.
  induction s as [|c s IH]; [done|]. rewrite append_cons. cbn [String.length].
  by rewrite IH.
Qed.

Lemma prefix_cons (a c : ascii) (p s : string) :
  String.prefix (String a p) (String c s) = Ascii.eqb a c && String.prefix p s.
Proof.
  change (String.prefix (String a p) (String c s))
    with (if ascii_dec a c then String.prefix p s else false).
  destruct (ascii_dec a c) as [->|Hne].
  - by rewrite Ascii.eqb_refl.
  - apply Ascii.eqb_neq in Hne. by rewrite Hne.
Qed.

Lemma prefix_empty (s : string) : String.prefix "" s = true.
Proof. by destruct s. Qed.







Section RedirectResponse.
Context `{!Platform}.


End RedirectResponse.

(** ** [redirect.ts]: domain and language redirects *)

(** A domain redirect is answered exactly when the request has a host
    header and there is a table, and the first host value either is a key
    of the table with a non-empty target (the answer is that target followed
    by the request URI) or is no key of the table but the name of a property
    of [Object.prototype] (the answer is the text of that member followed by
    the request URI); a missing or empty header list, a missing table, an
    empty target or any other missing key give nothing. *)
Theorem domain_redirect_spec `{!Platform} (request : Request) (headers : Headers)
    (domainRedirects : option (gmap string string)) (answer : string) :
  getDomainRedirectPath request headers domainRedirects = Some answer
  ↔ ∃ first more table,
      headers !! "host" = Some (first :: more)
      ∧ domainRedirects = Some table
      ∧ ((∃ target, table !! headerValue first = Some target
                    ∧ target ≠ ""
                    ∧ answer = target +:+ uri request)
         ∨ (table !! headerValue first = None
            ∧ Js.inherited (headerValue first) = true
            ∧ answer = valueText (Js.Inherited (headerValue first)) +:+ uri request)).
Proof.
  unfold getDomainRedirectPath, Js.truthyAt, Js.member. split.
  - destruct (headers !! "host") as [[|first more]|]; try done.
    destruct domainRedirects as [table|]; [|done].
    destruct (table !! headerValue first) as [target|] eqn:E.
    + destruct (Js.truthy target) eqn:Ht; [|done]. intros [= <-].
      exists first, more, table. split_and!; [done..|]. left.
      exists target. by apply truthy_spec in Ht.
    + destruct (Js.inherited (headerValue first)) eqn:Hi; [|done]. intros [= <-].
      exists first, more, table. split_and!; [done..|]. by right.
  - intros (first & more & table & -> & -> & [(target & E & Ht & ->) | (E & Hi & ->)]).
    + rewrite E. apply truthy_spec in Ht. by rewrite Ht.
    + by rewrite E, Hi.
Qed.

(** The domain redirects of the test suite (host [example.com] goes to
    [https://www.example.com]), and a request whose host value is
    [constructor]: the table has no such key, and the redirect is the text
    of the function [Object] followed by the URI. *)
Example domain_redirect_of_a_listed_host :
  @getDomainRedirectPath Sample.platform {| uri := "/terms" |}
    {[ "host" := [ {| headerKey := "Host"; headerValue := "example.com" |} ] ]}
    (Some {[ "example.com" := "https://www.example.com" ]})
  = Some "https://www.example.com/terms".
Proof. reflexivity. Qed.

Example domain_redirect_of_an_inherited_name :
  @getDomainRedirectPath Sample.platform {| uri := "/terms" |}
    {[ "host" := [ {| headerKey := "Host"; headerValue := "constructor" |} ] ]}
    (Some {[ "example.com" := "https://www.example.com" ]})
  = Some "function Object() { [native code] }/terms".
Proof. reflexivity. Qed.

Section LanguageRedirect.
Context `{!Platform}.

(** The language redirect is computed only for the root URI (the base path,
    with a slash when the trailing-slash policy is on, or ["/"] without a
    base path) or when the first [Accept-Language] value is not empty: any
    other request gets none, and the locale helper decides for these. *)
Theorem language_redirect_guard (req : Request) (headers : Headers)
    (manifest : Manifest) (rm : RoutesManifest) :
  let accept := match headers !! "accept-language" with
                | Some (first :: _) => Some (headerValue first)
                | _ => None
                end in
  let root := if decide (basePath rm = "") then "/"
              else basePath rm
                   +:+ (if default false (trailingSlash manifest) then "/" else "") in
  (uri req ≠ root → (accept = None ∨ accept = Some "") →
   getLanguageRedirectPath req headers manifest rm = None)
  ∧ (uri req = root ∨ (∃ a, accept = Some a ∧ a ≠ "") →
     getLanguageRedirectPath req headers manifest rm
     = getAcceptLanguageLocale accept manifest rm).
Proof.
  intros accept root. unfold getLanguageRedirectPath. fold accept.
  assert ((if Js.truthy (basePath rm)
           then basePath rm +:+ (if default false (trailingSlash manifest) then "/" else "")
           else "/") = root) as ->.
  { unfold root, Js.truthy. case_decide as E.
    - by rewrite E.
    - apply String.eqb_neq in E. by rewrite E. }
  split.
  - intros Hu Ha. apply String.eqb_neq in Hu. rewrite Hu.
    by destruct Ha as [-> | ->].
  - intros [-> | (a & -> & Ha)].
    + by rewrite String.eqb_refl.
    + apply truthy_spec in Ha. by rewrite Ha, orb_true_r.
Qed.

End LanguageRedirect.

(** ** [match.ts]: scans *)

Section Scans.
Context `{!Helpers}.

(** [matchDynamic] answers the file of the first route whose regex accepts
    the URI, and nothing exactly when no regex accepts it. *)
Theorem matchDynamic_first (u : string) (routes : list Dynamic) :
  (∀ f, matchDynamic u routes = Some f
        ↔ ∃ before r rest,
            routes = before ++ r :: rest
            ∧ Forall (λ r', regexTest (regex r') u = false) before
            ∧ regexTest (regex r) u = true
            ∧ file r = f)
  ∧ (matchDynamic u routes = None
     ↔ Forall (λ r, regexTest (regex r) u = false) routes).
Proof.
  induction routes as [|r routes [IH1 IH2]]; cbn [matchDynamic].
  - split; [|by split].
    intros f. split; [done|]. intros ([|? ?] & ? & ? & ? & _); done.
  - destruct (regexTest (regex r) u) eqn:Hr; split.
    + intros f. split.
      * intros [= <-]. exists [], r, routes. by rewrite Forall_nil.
      * intros ([|b before] & r' & rest & E & Hb & Hr' & <-).
        -- by injection E as <- _.
        -- injection E as <- _. apply Forall_cons in Hb as [Hb _]. congruence.
    + split; [done|]. intros [? _]%Forall_cons. congruence.
    + intros f. rewrite IH1. split.
      * intros (before & r' & rest & -> & Hb & Hr' & <-).
        exists (r :: before), r', rest. by rewrite Forall_cons.
      * intros ([|b before] & r' & rest & E & Hb & Hr' & <-).
        -- injection E as <- _. congruence.
        -- injection E as <- ->. apply Forall_cons in Hb as [_ Hb].
           by exists before, r', rest.
    + rewrite IH2, Forall_cons. split; [by intros ?; split | by intros [_ ?]].
Qed.

(** [matchDynamicSSG] answers the key of the first entry whose regex accepts
    the URI, where a data request is tested against the data regex only and
    a page request against the page regex only. *)
Theorem matchDynamicSSG_first (u : string) (routes : list (string * DynamicSSG))
    (isData : bool) :
  let selected (r : DynamicSSG) := if isData then dataRouteRegex r else routeRegex r in
  (∀ key, matchDynamicSSG u routes isData = Some key
          ↔ ∃ before r rest,
              routes = before ++ (key, r) :: rest
              ∧ Forall (λ e, regexTest (selected e.2) u = false) before
              ∧ regexTest (selected r) u = true)
  ∧ (matchDynamicSSG u routes isData = None
     ↔ Forall (λ e, regexTest (selected e.2) u = false) routes).
Proof.
  intros selected.
  induction routes as [|[k r] routes [IH1 IH2]]; cbn [matchDynamicSSG].
  - split; [|by split].
    intros f. split; [done|]. intros ([|? ?] & ? & ? & ? & _); done.
  - fold (selected r). destruct (regexTest (selected r) u) eqn:Hr; split.
    + intros key. split.
      * intros [= <-]. exists [], r, routes. by rewrite Forall_nil.
      * intros ([|b before] & r' & rest & E & Hb & Hr').
        -- by injection E as <- _.
        -- injection E as <- _. apply Forall_cons in Hb as [Hb _].
           cbn in Hb. congruence.
    + split; [done|]. intros [? _]%Forall_cons. cbn in *. congruence.
    + intros key. rewrite IH1. split.
      * intros (before & r' & rest & -> & Hb & Hr').
        exists ((k, r) :: before), r', rest. by rewrite Forall_cons.
      * intros ([|b before] & r' & rest & E & Hb & Hr').
        -- injection E as <- <- _. congruence.
        -- injection E as <- ->. apply Forall_cons in Hb as [_ Hb].
           by exists before, r', rest.
    + rewrite IH2, Forall_cons. split; [by intros ?; split | by intros [_ ?]].
Qed.

End Scans.

(** A destination is compiled only when every step succeeds: for an
    absolute [http]/[https] destination the URL parser, the compilation of
    its path and the substitution; for any other destination the
    compilation of the escaped template and the substitution.  A failure of
    any of them gives no destination. *)
Theorem compileDestination_success `{!PathToRegexp} (dest : string) (params : Params)
    (compiled : string) :
  let lower := Js.toLowerCase dest in
  let absolute := Js.startsWith lower "https://" || Js.startsWith lower "http://" in
  compileDestination dest params = Some compiled →
  if absolute
  then ∃ origin pathname toPath compiledPath,
         parseURL dest = Some (origin, pathname)
         ∧ compile pathname = Some toPath
         ∧ toPath params = Some compiledPath
         ∧ (compiled = origin +:+ compiledPath
            ∨ compiled = Js.slice_0_m1 (origin +:+ compiledPath))
  else ∃ toPath,
         compile (Js.escapeQuestionMarks dest) = Some toPath
         ∧ toPath params = Some compiled.
Proof.
  intros lower absolute. unfold compileDestination. fold lower absolute.
  destruct absolute.
  - destruct (parseURL dest) as [[origin pathname]|] eqn:E1; [|done].
    cbn [mbind option_bind].
    destruct (compile pathname) as [toPath|] eqn:E2; [|done]. cbn [mbind option_bind].
    destruct (toPath params) as [compiledPath|] eqn:E3; [|done].
    cbn [mbind option_bind].
    intros Hc. exists origin, pathname, toPath, compiledPath. split_and!; try done.
    destruct (negb (Js.endsWith dest "/") && _) in Hc; injection Hc as <-;
      [by right|by left].
  - destruct (compile _) as [toPath|] eqn:E; [|done]. cbn [mbind option_bind].
    intros Hc. by exists toPath.
Qed.

(** ** [page.ts]: what the answers look like *)

Lemma append_inj_r (s1 s2 t : string) : s1 +:+ t = s2 +:+ t → s1 = s2.
Proof.
  revert s2. induction s1 as [|c s1 IH]; intros [|c2 s2] E.
  - done.
  - apply (f_equal String.length) in E. rewrite !append_length in E.
    cbn [String.length] in E. lia.
  - apply (f_equal String.length) in E. rewrite !append_length in E.
    cbn [String.length] in E. lia.
  - rewrite !append_cons in E. injection E as -> E. f_equal. by apply IH.
Qed.

(** Every path but the root has its own HTML artifact: two paths share one
    only if they are the same path or are ["/"] and ["/index"], which both
    get ["pages/index.html"]. *)
Theorem pageHtml_collisions (u v : string) :
  pageHtml u = pageHtml v
  ↔ u = v ∨ (u = "/" ∧ v = "/index") ∨ (u = "/index" ∧ v = "/").
Proof.
  split.
  - unfold pageHtml.
    destruct (String.eqb_spec u "/") as [->|Hu], (String.eqb_spec v "/") as [->|Hv].
    + auto.
    + intros E. right. left. split; [done|].
      change "pages/index.html" with ("pages" +:+ "/index" +:+ ".html") in E.
      apply String.app_inj, append_inj_r in E. done.
    + intros E. right. right. split; [|done].
      change "pages/index.html" with ("pages" +:+ "/index" +:+ ".html") in E.
      apply String.app_inj, append_inj_r in E. done.
    + intros E. left. by apply String.app_inj, append_inj_r in E.
  - intros [->|[[-> ->]|[-> ->]]]; done.
Qed.

Section PageAnswers.
Context `{!Helpers}.

(** The page resolver never answers a data route, and a call that is the
    target of a rewrite never answers an external route and never carries a
    query string. *)
Theorem handlePageReq_answers (fuel : nat) (u : string) (manifest : PageManifest)
    (rm : RoutesManifest) (isPreview isRewrite : bool) (answer : Route) :
  handlePageReq fuel u manifest rm isPreview isRewrite = Some answer →
  match target answer with
  | StaticFile isData _ | Render isData _ => isData = false
  | External _ => isRewrite = false
  end
  ∧ (isRewrite = true → querystring answer = None).
Proof.
  assert (∀ m l, match target (resolveDynamic m l) with
                 | StaticFile isData _ | Render isData _ => isData = false
                 | External _ => False
                 end ∧ querystring (resolveDynamic m l) = None) as Hdyn.
  { intros m l. unfold resolveDynamic, handle404.
    destruct (matchDynamicRoute l _) as [T|]; [|by destruct (Js.truthyAt _ _)].
    destruct (negb (Js.truthy T)); [by destruct (Js.truthyAt _ _)|].
    destruct (Js.has _ T); [done|].
    do 3 (destruct (Js.member _ T); [done|]). by destruct (Js.truthyAt _ _). }
  revert u isRewrite answer. induction fuel as [|fuel IH]; intros u isRewrite answer;
    [done|].
  cbn [handlePageReq].
  destruct (Js.truthyAt _ _); [by intros [= <-]|].
  destruct (_ && _); [by intros [= <-]|].
  destruct (Js.truthyAt _ _); [by intros [= <-]|].
  destruct isRewrite.
  - intros [= <-]. destruct (Hdyn manifest (normalise (addDefaultLocaleToPath u rm) rm))
      as [Ht Hq]. split; [|done]. by destruct (target _).
  - destruct (match getRewritePath u rm with Some _ => _ | None => _ end) as [rw|].
    + destruct (Js.splitQuery rw) as [path qs].
      destruct (isExternalRewrite path); [by intros [= <-]|].
      destruct (handlePageReq fuel path manifest rm isPreview true) as [route|] eqn:E;
        [|done].
      intros [= <-]. cbn. apply IH in E as [E _]. split; [|done].
      by destruct (target route).
    + intros [= <-]. destruct (Hdyn manifest (normalise (addDefaultLocaleToPath u rm) rm))
        as [Ht Hq]. split; [|done]. by destruct (target _).
Qed.

(** A rewrite to an external target is answered at once, without a nested
    call: the external path with the query string split off the target. *)
Theorem external_rewrite_short_circuit (fuel : nat) (u : string)
    (manifest : PageManifest) (rm : RoutesManifest) (isPreview : bool)
    (rewrite : string) :
  noNonDynamic manifest (normalise (addDefaultLocaleToPath u rm) rm) isPreview →
  getRewritePath u rm = Some rewrite → rewrite ≠ "" →
  isExternalRewrite (Js.splitQuery rewrite).1 = true →
  handlePageReq (S fuel) u manifest rm isPreview false
  = Some {| target := External (Js.splitQuery rewrite).1;
            querystring := (Js.splitQuery rewrite).2 |}.
Proof.
  intros ([Hhtml Hi] & Hssg & Hssr) Hrw Hne Hext. cbn [handlePageReq].
  rewrite (truthyAt_None _ _ Hhtml Hi), (truthyAt_None _ _ Hssr Hi), Hrw.
  apply truthy_spec in Hne. rewrite Hne.
  rewrite (ssg_step_skipped _ _ _ Hi Hssg).
  destruct (Js.splitQuery rewrite) as [path qs]. cbn [fst snd] in *.
  by rewrite Hext.
Qed.

End PageAnswers.

(** ** [build/index.ts]: objects *)

Section ObjectKeys.
Context {V : Type}.
Implicit Types (o : Build.JsObject V).

Lemma get_set_ne o key key' v :
  key ≠ key' → Build.get (Build.set o key v) key' = Build.get o key'.
Proof.
  intros Hne. induction o as [|[k v'] o IH]; cbn.
  - by destruct (String.eqb_spec key key').
  - destruct (String.eqb_spec k key) as [->|]; cbn.
    + by destruct (String.eqb_spec key key').
    + by rewrite IH.
Qed.

Lemma get_is_Some_keys o key :
  is_Some (Build.get o key) ↔ key ∈ Builder.keys o.
Proof.
  unfold Builder.keys. induction o as [|[k v] o IH]; cbn.
  - rewrite elem_of_nil. split; [by intros [? ?]|done].
  - rewrite elem_of_cons. destruct (String.eqb_spec k key) as [->|Hne].
    + split; eauto.
    + rewrite IH. split; [auto|]. by intros [->|?].
Qed.

Lemma get_None_keys o key :
  Build.get o key = None ↔ key ∉ Builder.keys o.
Proof. rewrite <- get_is_Some_keys, eq_None_not_Some. done. Qed.

Lemma get_elem_of o key v : Build.get o key = Some v → (key, v) ∈ o.
Proof.
  induction o as [|[k v'] o IH]; cbn; [done|].
  destruct (String.eqb_spec k key) as [->|Hne].
  - intros [= ->]. apply elem_of_cons. by left.
  - intros E. apply elem_of_cons. right. by apply IH.
Qed.

Lemma elem_of_get o key v :
  NoDup (Builder.keys o) → (key, v) ∈ o → Build.get o key = Some v.
Proof.
  unfold Builder.keys. induction o as [|[k v'] o IH]; cbn.
  - intros _ Hin. by apply elem_of_nil in Hin.
  - intros [Hk Ho]%NoDup_cons [[= -> ->]|Hin]%elem_of_cons.
    + by rewrite String.eqb_refl.
    + destruct (String.eqb_spec k key) as [->|Hne]; [|by apply IH].
      destruct Hk. apply list_elem_of_fmap. by exists (key, v).
Qed.

Lemma set_fresh o key v :
  key ∉ Builder.keys o → Build.set o key v = o ++ [(key, v)].
Proof.
  unfold Builder.keys. induction o as [|[k v'] o IH]; cbn; [done|].
  intros [Hne Ho]%not_elem_of_cons.
  destruct (String.eqb_spec k key) as [->|_]; [done|]. by rewrite IH.
Qed.

Lemma keys_set o key v :
  Builder.keys (Build.set o key v)
  = if decide (key ∈ Builder.keys o) then Builder.keys o else Builder.keys o ++ [key].
Proof.
  unfold Builder.keys. induction o as [|[k v'] o IH]; cbn.
  - rewrite decide_False; [done|]. apply not_elem_of_nil.
  - destruct (String.eqb_spec k key) as [->|Hne]; cbn.
    + rewrite decide_True; [done|]. apply elem_of_cons. by left.
    + rewrite IH. destruct (decide (key ∈ o.*1)).
      * rewrite decide_True; [done|]. apply elem_of_cons. by right.
      * rewrite decide_False; [done|]. by intros [?|?]%elem_of_cons.
Qed.

Lemma elem_of_keys_set o key key' v :
  key' ∈ Builder.keys (Build.set o key v) ↔ key' = key ∨ key' ∈ Builder.keys o.
Proof.
  rewrite keys_set. case_decide as Hk.
  - split; [auto|]. by intros [->|?].
  - rewrite elem_of_app, list_elem_of_singleton. tauto.
Qed.

Lemma NoDup_keys_set o key v :
  NoDup (Builder.keys o) → NoDup (Builder.keys (Build.set o key v)).
Proof.
  intros Ho. rewrite keys_set. case_decide as Hk; [done|].
  apply NoDup_app. split_and!; [done| |apply NoDup_singleton].
  intros k Hin ->%list_elem_of_singleton. done.
Qed.

(** A loop that writes one entry per element. *)
Lemma fold_set_keys {A} (f : A → string) (g : A → V) (l : list A) o key :
  key ∈ Builder.keys (fold_left (λ acc e, Build.set acc (f e) (g e)) l o)
  ↔ key ∈ Builder.keys o ∨ key ∈ f <$> l.
Proof.
  revert o. induction l as [|e l IH]; intros o.
  - cbn [fold_left]. rewrite fmap_nil, elem_of_nil. tauto.
  - cbn [fold_left]. rewrite IH, elem_of_keys_set, fmap_cons, elem_of_cons. tauto.
Qed.

Lemma fold_set_NoDup {A} (f : A → string) (g : A → V) (l : list A) o :
  NoDup (Builder.keys o) →
  NoDup (Builder.keys (fold_left (λ acc e, Build.set acc (f e) (g e)) l o)).
Proof.
  revert o. induction l as [|e l IH]; intros o Ho; cbn [fold_left]; [done|].
  by apply IH, NoDup_keys_set.
Qed.

Lemma fold_set_get_other {A} (f : A → string) (g : A → V) (l : list A) o key :
  key ∉ f <$> l →
  Build.get (fold_left (λ acc e, Build.set acc (f e) (g e)) l o) key = Build.get o key.
Proof.
  revert o. induction l as [|e l IH]; intros o; cbn [fold_left]; [done|].
  rewrite fmap_cons. intros [Hne Hl]%not_elem_of_cons.
  rewrite IH by done. by apply get_set_ne.
Qed.

(** What a loop of writes leaves under a key was written by it or was there
    before. *)
Lemma fold_set_get_inv {A} (f : A → string) (g : A → V) (l : list A) o key v :
  Build.get (fold_left (λ acc e, Build.set acc (f e) (g e)) l o) key = Some v →
  Build.get o key = Some v ∨ ∃ e, e ∈ l ∧ f e = key ∧ g e = v.
Proof.
  revert o. induction l as [|e l IH]; intros o; cbn [fold_left]; [auto|].
  intros [E|(e' & He' & <- & <-)]%IH.
  - destruct (decide (f e = key)) as [<-|Hne].
    + rewrite get_set_same in E. injection E as <-. right. exists e.
      split; [|done]. apply elem_of_cons. by left.
    + rewrite get_set_ne in E by done. by left.
  - right. exists e'. split; [|done]. apply elem_of_cons. by right.
Qed.

Lemma spread_keys o o' key :
  key ∈ Builder.keys (Build.spread o o')
  ↔ key ∈ Builder.keys o ∨ key ∈ Builder.keys o'.
Proof. unfold Build.spread. by rewrite (fold_set_keys fst snd). Qed.

Lemma spread_NoDup o o' :
  NoDup (Builder.keys o) → NoDup (Builder.keys (Build.spread o o')).
Proof. apply (fold_set_NoDup fst snd). Qed.

Lemma spread_get_base o o' key :
  key ∉ Builder.keys o' → Build.get (Build.spread o o') key = Build.get o key.
Proof. apply (fold_set_get_other fst snd). Qed.

Lemma spread_get_inv o o' key v :
  Build.get (Build.spread o o') key = Some v →
  Build.get o key = Some v ∨ (key, v) ∈ o'.
Proof.
  intros [?|([k v'] & He & <- & <-)]%(fold_set_get_inv fst snd); auto.
Qed.

Lemma bucket_is_Some o key :
  is_Some (Build.bucket o !! key) ↔ key ∈ Builder.keys o.
Proof.
  unfold Build.bucket.
  assert (∀ m : gmap string V,
            is_Some (fold_left (λ m kv, <[kv.1:=kv.2]> m) o m !! key)
            ↔ is_Some (m !! key) ∨ key ∈ Builder.keys o) as Hfold.
  { unfold Builder.keys. induction o as [|[k v] o IH]; intros m; cbn.
    - rewrite elem_of_nil. tauto.
    - rewrite IH, elem_of_cons, lookup_insert_is_Some.
      destruct (decide (k = key)) as [->|Hne]; [tauto|].
      assert (key ≠ k) by congruence. tauto. }
  rewrite Hfold, lookup_empty. split; [|auto]. by intros [[? ?]|?].
Qed.

End ObjectKeys.

(** ** [build/index.ts]: public files and the catch-all split *)

(** Every public file is found under its path with a leading slash, and the
    object has nothing else: each key is a slash followed by its value, a
    file of the list. *)
Theorem public_files_lookup (publicFiles : list string) :
  (∀ file, file ∈ publicFiles →
     Build.get (Builder.publicFilesObject publicFiles) ("/" +:+ file) = Some file)
  ∧ (∀ key file, Build.get (Builder.publicFilesObject publicFiles) key = Some file →
       key = "/" +:+ file ∧ file ∈ publicFiles).
Proof.
  assert (∀ key file, Build.get (Builder.publicFilesObject publicFiles) key = Some file →
            key = "/" +:+ file ∧ file ∈ publicFiles) as Hinv.
  { intros key file E. unfold Builder.publicFilesObject in E.
    apply (fold_set_get_inv (String.app "/") id) in E as [E|(f & Hf & <- & <-)]; done. }
  split; [|done]. intros file Hin.
  assert (is_Some (Build.get (Builder.publicFilesObject publicFiles) ("/" +:+ file)))
    as [v Hv].
  { apply get_is_Some_keys. unfold Builder.publicFilesObject.
    apply (fold_set_keys (String.app "/") id). right.
    apply list_elem_of_fmap. by exists file. }
  rewrite Hv. f_equal. apply Hinv in Hv as [Hv _]. by apply String.app_inj in Hv.
Qed.

Lemma NoDup_remove_middle {A} (xs ys : list A) (x : A) :
  NoDup (xs ++ x :: ys) → NoDup (xs ++ ys) ∧ x ∉ xs.
Proof.
  rewrite !NoDup_app, NoDup_cons. intros (Hxs & Hdisj & Hx & Hys). split_and!; try done.
  - intros y Hy Hin. apply (Hdisj y Hy), elem_of_cons. by right.
  - intros Hin. apply (Hdisj x Hin), elem_of_cons. by left.
Qed.

Lemma splitCatchAll_fold (l a b : list (string * Dynamic)) :
  NoDup (Builder.keys (a ++ l)) → NoDup (Builder.keys (b ++ l)) →
  fold_left
    (λ '(nonCatchAllRoutes, catchAllRoutes) entry,
       if Js.includes entry.1 "[..."
       then (nonCatchAllRoutes, Build.set catchAllRoutes entry.1 entry.2)
       else (Build.set nonCatchAllRoutes entry.1 entry.2, catchAllRoutes))
    l (a, b)
  = (a ++ filter (λ kv, Js.includes kv.1 "[..." = false) l,
     b ++ filter (λ kv, Js.includes kv.1 "[..." = true) l).
Proof.
  unfold Builder.keys. revert a b. induction l as [|[k v] l IH]; intros a b Ha Hb.
  - cbn. by rewrite !app_nil_r.
  - cbn [fold_left fst snd]. rewrite !filter_cons. cbn [fst].
    pose proof Ha as Ha0. pose proof Hb as Hb0.
    rewrite fmap_app, fmap_cons in Ha, Hb. cbn [fst] in Ha, Hb.
    apply NoDup_remove_middle in Ha as [Ha' Hka], Hb as [Hb' Hkb].
    rewrite <- fmap_app in Ha', Hb'.
    destruct (Js.includes k "[...") eqn:Hk.
    + rewrite decide_False by done. rewrite decide_True by done.
      rewrite set_fresh by done. rewrite IH.
      * by rewrite <- app_assoc.
      * done.
      * by rewrite <- app_assoc.
    + rewrite decide_True by done. rewrite decide_False by done.
      rewrite set_fresh by done. rewrite IH.
      * by rewrite <- app_assoc.
      * by rewrite <- app_assoc.
      * done.
Qed.

(** The split of the server-rendered dynamic routes is a partition in
    place: the routes whose template contains the catch-all marker go to
    [catchAll], the others stay in [dynamic], each with its page and in the
    order they had. *)
Theorem split_catch_all_partition (allDynamicRoutes : list (string * Dynamic)) :
  NoDup (Builder.keys allDynamicRoutes) →
  Builder.splitCatchAll allDynamicRoutes
  = (filter (λ kv, Js.includes kv.1 "[..." = false) allDynamicRoutes,
     filter (λ kv, Js.includes kv.1 "[..." = true) allDynamicRoutes).
Proof.
  intros Hk. unfold Builder.splitCatchAll.
  by rewrite (splitCatchAll_fold allDynamicRoutes [] []).
Qed.

(** ** [build/index.ts]: the classification of the page listing *)

Section Classification.
Context `{!RouteSyntax}.

Lemma fold_left_invariant {A B} (P : A → Prop) (step : A → B → A) (l : list B) (a : A) :
  P a → (∀ a b, P a → P (step a b)) → P (fold_left step l a).
Proof.
  intros Ha Hstep. revert a Ha. induction l as [|b l IH]; intros a Ha; cbn; [done|].
  by apply IH, Hstep.
Qed.

Lemma fold_left_reaches {A B} (P : A → Prop) (step : A → B → A) (l : list B) (a : A)
    (b : B) :
  b ∈ l → (∀ a, P (step a b)) → (∀ a b', P a → P (step a b')) →
  P (fold_left step l a).
Proof.
  intros Hin Hb Hstep. revert a. induction l as [|b' l IH]; intros a; cbn.
  - by apply elem_of_nil in Hin.
  - apply elem_of_cons in Hin as [<-|Hin].
    + by apply fold_left_invariant.
    + by apply IH.
Qed.

(** The three classes keep their files apart, whatever the routes are: the
    HTML objects hold files that end with [.html], the API objects hold
    files under [pages/api] that do not, and the server-rendered objects
    hold the rest. *)
Theorem pages_classified (pagesManifest : Build.JsObject string) :
  let c := Builder.collectPages pagesManifest in
  Forall (λ kv, Build.isHtmlPage kv.2 = true)
    (Build.nonDynamicObject (Builder.htmlPages c))
  ∧ Forall (λ kv, Build.isHtmlPage (file kv.2) = true)
      (Build.dynamicObject (Builder.htmlPages c))
  ∧ Forall (λ kv, Build.isHtmlPage kv.2 = false ∧ Builder.isApiPage kv.2 = true)
      (Builder.apiPagesNonDynamic c)
  ∧ Forall (λ kv, Build.isHtmlPage (file kv.2) = false
                  ∧ Builder.isApiPage (file kv.2) = true)
      (Builder.dynamicApi c)
  ∧ Forall (λ kv, Build.isHtmlPage kv.2 = false ∧ Builder.isApiPage kv.2 = false)
      (Builder.ssrPagesNonDynamic c)
  ∧ Forall (λ kv, Build.isHtmlPage (file kv.2) = false
                  ∧ Builder.isApiPage (file kv.2) = false)
      (Builder.ssrPagesDynamic c).
Proof.
  cbn zeta. unfold Builder.collectPages.
  apply (fold_left_invariant
           (λ c, Forall (λ kv, Build.isHtmlPage kv.2 = true)
                   (Build.nonDynamicObject (Builder.htmlPages c))
                 ∧ Forall (λ kv, Build.isHtmlPage (file kv.2) = true)
                     (Build.dynamicObject (Builder.htmlPages c))
                 ∧ Forall (λ kv, Build.isHtmlPage kv.2 = false
                                 ∧ Builder.isApiPage kv.2 = true)
                     (Builder.apiPagesNonDynamic c)
                 ∧ Forall (λ kv, Build.isHtmlPage (file kv.2) = false
                                 ∧ Builder.isApiPage (file kv.2) = true)
                     (Builder.dynamicApi c)
                 ∧ Forall (λ kv, Build.isHtmlPage kv.2 = false
                                 ∧ Builder.isApiPage kv.2 = false)
                     (Builder.ssrPagesNonDynamic c)
                 ∧ Forall (λ kv, Build.isHtmlPage (file kv.2) = false
                                 ∧ Builder.isApiPage (file kv.2) = false)
                     (Builder.ssrPagesDynamic c))).
  - cbn. split_and!; apply Forall_nil_2.
  - intros c [route pageFile] (H1 & H2 & H3 & H4 & H5 & H6). cbn [fst snd].
    unfold Builder.collectPage, Build.collectHtmlPage.
    destruct (Build.isHtmlPage pageFile) eqn:Hhtml;
      [|destruct (Builder.isApiPage pageFile) eqn:Hapi];
      destruct (isOptionalCatchAllRoute route), (isDynamicRoute route);
      cbn; split_and!; try done;
      first [ by apply (set_values _ _ _ (λ f, Build.isHtmlPage f = true))
            | by apply (set_values _ _ _ (λ d, Build.isHtmlPage (file d) = true))
            | by apply (set_values _ _ _ (λ f, Build.isHtmlPage f = false
                                               ∧ Builder.isApiPage f = true))
            | by apply (set_values _ _ _ (λ d, Build.isHtmlPage (file d) = false
                                               ∧ Builder.isApiPage (file d) = true))
            | by apply (set_values _ _ _ (λ f, Build.isHtmlPage f = false
                                               ∧ Builder.isApiPage f = false))
            | by apply (set_values _ _ _ (λ d, Build.isHtmlPage (file d) = false
                                               ∧ Builder.isApiPage (file d) = false)) ].
Qed.

(** Every page of the listing is registered in the objects of its class:
    under its route in the dynamic object when the route is dynamic, under
    its route in the non-dynamic object when it is not, and under both its
    route (dynamic) and its base route (non-dynamic) when the route has an
    optional catch-all segment. *)
Theorem every_page_registered (pagesManifest : Build.JsObject string)
    (route pageFile : string) :
  (route, pageFile) ∈ pagesManifest →
  let c := Builder.collectPages pagesManifest in
  let dynamicKeys :=
    if Build.isHtmlPage pageFile
    then Builder.keys (Build.dynamicObject (Builder.htmlPages c))
    else if Builder.isApiPage pageFile then Builder.keys (Builder.dynamicApi c)
    else Builder.keys (Builder.ssrPagesDynamic c) in
  let nonDynamicKeys :=
    if Build.isHtmlPage pageFile
    then Builder.keys (Build.nonDynamicObject (Builder.htmlPages c))
    else if Builder.isApiPage pageFile then Builder.keys (Builder.apiPagesNonDynamic c)
    else Builder.keys (Builder.ssrPagesNonDynamic c) in
  if isOptionalCatchAllRoute route
  then route ∈ dynamicKeys ∧ Builder.optionalBaseRoute route ∈ nonDynamicKeys
  else if isDynamicRoute route then route ∈ dynamicKeys
  else route ∈ nonDynamicKeys.
Proof.
  intros Hin. cbn zeta. unfold Builder.collectPages.
  match goal with
  | |- context [fold_left ?step ?l ?a] => pattern (fold_left step l a)
  end.
  apply (fold_left_reaches _ _ _ _ (route, pageFile) Hin).
  - intros c. cbn [fst snd].
    unfold Builder.collectPage, Build.collectHtmlPage, Builder.optionalBaseRoute.
    destruct (Build.isHtmlPage pageFile) eqn:Hhtml;
      [|destruct (Builder.isApiPage pageFile) eqn:Hapi];
      destruct (isOptionalCatchAllRoute route), (isDynamicRoute route);
      cbn -[Builder.keys]; rewrite ?elem_of_keys_set; auto.
  - intros c [r f]. cbn [fst snd].
    unfold Builder.collectPage, Build.collectHtmlPage.
    destruct (Build.isHtmlPage pageFile), (Builder.isApiPage pageFile),
      (isOptionalCatchAllRoute route), (isDynamicRoute route);
      destruct (Build.isHtmlPage f), (Builder.isApiPage f),
        (isOptionalCatchAllRoute r), (isDynamicRoute r);
      cbn -[Builder.keys]; rewrite ?elem_of_keys_set; tauto.
Qed.

Lemma collectPages_html (pagesManifest : Build.JsObject string) :
  Builder.htmlPages (Builder.collectPages pagesManifest)
  = Build.collectHtmlPages pagesManifest.
Proof.
  unfold Builder.collectPages, Build.collectHtmlPages.
  change {| Build.dynamicObject := []; Build.nonDynamicObject := [] |}
    with (Builder.htmlPages
            {| Builder.htmlPages :=
                 {| Build.dynamicObject := []; Build.nonDynamicObject := [] |};
               Builder.ssrPagesDynamic := []; Builder.ssrPagesNonDynamic := [];
               Builder.apiPagesNonDynamic := []; Builder.dynamicApi := [] |}) at 2.
  generalize {| Builder.htmlPages :=
                  {| Build.dynamicObject := []; Build.nonDynamicObject := [] |};
                Builder.ssrPagesDynamic := []; Builder.ssrPagesNonDynamic := [];
                Builder.apiPagesNonDynamic := []; Builder.dynamicApi := [] |}.
  induction pagesManifest as [|[route pageFile] rest IH]; intros c; cbn [fold_left];
    [done|].
  rewrite IH. f_equal. cbn [fst snd].
  unfold Builder.collectPage, Build.collectHtmlPage.
  destruct (Build.isHtmlPage pageFile); [done|].
  by destruct (Builder.isApiPage pageFile), (negb _ && _), (isOptionalCatchAllRoute route).
Qed.

End Classification.

(** ** [build/index.ts]: the locale pass *)

Lemma prefix_append (p s : string) : String.prefix p (p +:+ s) = true.
Proof.
  induction p as [|c p IH]; [apply prefix_empty|].
  by rewrite append_cons, prefix_cons, Ascii.eqb_refl, IH.
Qed.

Lemma startsWith_slash (key : string) :
  Js.startsWith key "/" = true → ∃ rest, key = String "/"%char rest.
Proof.
  unfold Js.startsWith. destruct key as [|c rest]; [done|].
  rewrite prefix_cons. intros [Hc _]%andb_true_iff.
  apply Ascii.eqb_eq in Hc as <-. by exists rest.
Qed.

(** The key of a duplicate carries the prefix of its locale. *)
Lemma localeKey_prefixed (locales : list string) (locale key : string) :
  locale ∈ locales → Js.startsWith key "/" = true →
  Build.localePrefixed locales (Build.localeKey locale key) = true.
Proof.
  intros Hin [rest ->]%startsWith_slash. unfold Build.localePrefixed.
  apply existsb_exists. exists locale. split; [by apply list_elem_of_In|].
  unfold Build.localeKey. destruct (String.eqb_spec (String "/"%char rest) "/").
  - by rewrite String.eqb_refl, orb_true_r.
  - apply orb_true_iff. left. unfold Js.startsWith.
    change (String "/"%char rest) with ("/" +:+ rest).
    rewrite <- !append_assoc. apply prefix_append.
Qed.

Lemma htmlPagesNonDynamicLoop_keys (locales : list string) (locale key : string)
    (entries acc : Build.JsObject string) :
  key ∈ Builder.keys (Build.htmlPagesNonDynamicLoop locales locale entries acc) →
  key ∈ Builder.keys acc ∨ ∃ k, k ∈ Builder.keys entries ∧ key = Build.localeKey locale k.
Proof.
  revert acc. induction entries as [|[k f] entries IH]; intros acc; cbn; [auto|].
  destruct (Build.localePrefixed locales k); [auto|].
  intros [[->|Hk]%elem_of_keys_set|(k' & Hk' & ->)]%IH.
  - right. exists k. split; [|done]. apply elem_of_cons. by left.
  - by left.
  - right. exists k'. split; [|done]. apply elem_of_cons. by right.
Qed.

Lemma localeHtmlPagesNonDynamic_keys (i : I18n) (input : Build.JsObject string)
    (key : string) :
  key ∈ Builder.keys (Build.localeHtmlPagesNonDynamic i input) →
  ∃ locale k, locale ∈ locales i ∧ k ∈ Builder.keys input
              ∧ key = Build.localeKey locale k.
Proof.
  unfold Build.localeHtmlPagesNonDynamic.
  assert (∀ todo acc,
            key ∈ Builder.keys
                    (fold_left (λ acc locale,
                                  Build.htmlPagesNonDynamicLoop (locales i) locale input acc)
                       todo acc) →
            key ∈ Builder.keys acc
            ∨ ∃ locale k, locale ∈ todo ∧ k ∈ Builder.keys input
                          ∧ key = Build.localeKey locale k) as Hfold.
  { induction todo as [|locale todo IH]; intros acc; cbn [fold_left]; [auto|].
    intros [[Hk|(k & Hk & ->)]%htmlPagesNonDynamicLoop_keys
           |(locale' & k & Hl & Hk & ->)]%IH.
    - by left.
    - right. exists locale, k. split; [|done]. apply elem_of_cons. by left.
    - right. exists locale', k. split; [|done]. apply elem_of_cons. by right. }
  intros [Hk|Hk]%Hfold; [|done]. by apply elem_of_nil in Hk.
Qed.

(** Locale duplicates are added to the HTML non-dynamic bucket and never
    take the place of an entry without locale prefix: every key of the
    bucket stays, and a key without the prefix of a configured locale keeps
    its file (the keys being paths with a leading slash). *)
Theorem html_locale_duplicates_additive (routesManifest : RoutesManifest) (i : I18n)
    (input : Build.JsObject string) :
  i18n routesManifest = Some i →
  Forall (λ kv, Js.startsWith kv.1 "/" = true) input →
  (∀ key, is_Some (Build.get input key) →
          is_Some (Build.get (Build.htmlNonDynamicOut routesManifest input) key))
  ∧ (∀ key, Build.localePrefixed (locales i) key = false →
            Build.get (Build.htmlNonDynamicOut routesManifest input) key
            = Build.get input key).
Proof.
  intros Hi Hslash. unfold Build.htmlNonDynamicOut. rewrite Hi. split.
  - intros key Hk. apply spread_is_Some. by left.
  - intros key Hkey. apply spread_get_base.
    intros (locale & k & Hl & Hk & ->)%localeHtmlPagesNonDynamic_keys.
    rewrite localeKey_prefixed in Hkey; [done|done|].
    apply list_elem_of_fmap in Hk as ([k' f] & -> & Hin).
    by apply (proj1 (Forall_forall _ _) Hslash _ Hin).
Qed.

(** ** [build/index.ts]: the manifests as a whole *)

Section Manifests.
Context `{!RouteSyntax} `{!BuildTools}.

Lemma localePages_htmlNonDynamic (buildId : string) (i : I18n) (c : Builder.Collected)
    (ssgPages : Builder.SsgPagesObject) :
  Builder.localeHtmlNonDynamic (Builder.localePages buildId i c ssgPages)
  = Build.localeHtmlPagesNonDynamic i (Build.nonDynamicObject (Builder.htmlPages c)).
Proof.
  unfold Builder.localePages, Build.localeHtmlPagesNonDynamic.
  assert (∀ todo l,
            Builder.localeHtmlNonDynamic
              (fold_left (Builder.localePass buildId i c ssgPages) todo l)
            = fold_left
                (λ acc locale,
                   Build.htmlPagesNonDynamicLoop (locales i) locale
                     (Build.nonDynamicObject (Builder.htmlPages c)) acc)
                todo (Builder.localeHtmlNonDynamic l)) as Hfold.
  { induction todo as [|locale todo IH]; intros l; cbn [fold_left]; [done|].
    by rewrite IH. }
  by rewrite Hfold.
Qed.

Lemma localePages_ssrNonDynamic (buildId : string) (i : I18n) (c : Builder.Collected)
    (ssgPages : Builder.SsgPagesObject) :
  Builder.localeSsrNonDynamic (Builder.localePages buildId i c ssgPages)
  = fold_left
      (λ acc locale,
         fold_left (λ o entry, Build.set o (Build.localeKey locale entry.1) entry.2)
           (Builder.ssrPagesNonDynamic c) acc)
      (locales i) [].
Proof.
  unfold Builder.localePages.
  assert (∀ todo l,
            Builder.localeSsrNonDynamic
              (fold_left (Builder.localePass buildId i c ssgPages) todo l)
            = fold_left
                (λ acc locale,
                   fold_left
                     (λ o entry, Build.set o (Build.localeKey locale entry.1) entry.2)
                     (Builder.ssrPagesNonDynamic c) acc)
                todo (Builder.localeSsrNonDynamic l)) as Hfold.
  { induction todo as [|locale todo IH]; intros l; cbn [fold_left]; [done|].
    by rewrite IH. }
  by rewrite Hfold.
Qed.

(** What [sortPageRoutes] leaves of the pages it is given. *)
Lemma sortPageRoutes_inv (pg0 pg : Builder.PagesObject) :
  Builder.sortPageRoutes pg0 = Some pg →
  Builder.htmlObject pg = Builder.htmlObject pg0
  ∧ Builder.ssgObject pg = Builder.ssgObject pg0
  ∧ Builder.ssrNonDynamicObject (Builder.ssrObject pg)
    = Builder.ssrNonDynamicObject (Builder.ssrObject pg0)
  ∧ (Builder.ssrDynamicObject (Builder.ssrObject pg),
     Builder.ssrCatchAllObject (Builder.ssrObject pg))
    = Builder.splitCatchAll (Builder.ssrDynamicObject (Builder.ssrObject pg0))
  ∧ ∃ sortedRoutes,
      getSortedRoutes
        (Builder.keys (Build.dynamicObject (Builder.htmlObject pg))
         ++ Builder.keys (Builder.ssgDynamicObject (Builder.ssgObject pg))
         ++ Builder.keys (Builder.ssrDynamicObject (Builder.ssrObject pg))
         ++ Builder.keys (Builder.ssrCatchAllObject (Builder.ssrObject pg)))
      = Some sortedRoutes
      ∧ Builder.dynamicList pg
        = (λ route, {| route := route; pattern := pathToRegexStr route |})
            <$> sortedRoutes.
Proof.
  unfold Builder.sortPageRoutes.
  destruct (Builder.splitCatchAll _) as [nonCatchAll catchAll].
  cbn [Builder.ssrDynamicObject Builder.ssrCatchAllObject].
  destruct (getSortedRoutes _) as [sortedRoutes|] eqn:E; [|done].
  cbn [mbind option_bind]. intros [= <-]. cbn. split_and!; try done.
  by exists sortedRoutes.
Qed.

Lemma prepareBuildManifests_inv (buildOptions : Builder.BuildOptions)
    (nextConfig : option Builder.NextConfig) (rm : RoutesManifest)
    (pagesManifest : Build.JsObject string)
    (prerenderManifest : Builder.PrerenderManifest) (publicFiles : list string)
    (m : Builder.Manifests) :
  Builder.prepareBuildManifests buildOptions nextConfig rm pagesManifest
    prerenderManifest publicFiles = Some m →
  Builder.sortPageRoutes
    (Builder.pagesWithLocales (Builder.optionsBuildId buildOptions) rm
       (Builder.collectPages pagesManifest)
       (Builder.collectSsgPages rm prerenderManifest))
  = Some (Builder.manifestPages (Builder.pageManifest m))
  ∧ Builder.sortApiRoutes (Builder.dynamicApi (Builder.collectPages pagesManifest))
    = Some (Builder.apiDynamic (Builder.apiManifest m))
  ∧ Builder.apiNonDynamic (Builder.apiManifest m)
    = Builder.apiPagesNonDynamic (Builder.collectPages pagesManifest)
  ∧ Builder.manifestPublicFiles (Builder.pageManifest m)
    = Builder.publicFilesObject publicFiles.
Proof.
  unfold Builder.prepareBuildManifests.
  destruct (Builder.sortPageRoutes _) as [pg|]; [|done]. cbn [mbind option_bind].
  destruct (Builder.sortApiRoutes _) as [apiDynamic|]; [|done].
  cbn [mbind option_bind]. by intros [= <-].
Qed.

(** The HTML non-dynamic object of the manifest is what the locale pass
    makes of the HTML pages of the listing. *)
Lemma prepareBuildManifests_html (buildOptions : Builder.BuildOptions)
    (nextConfig : option Builder.NextConfig) (rm : RoutesManifest)
    (pagesManifest : Build.JsObject string)
    (prerenderManifest : Builder.PrerenderManifest) (publicFiles : list string)
    (m : Builder.Manifests) :
  Builder.prepareBuildManifests buildOptions nextConfig rm pagesManifest
    prerenderManifest publicFiles = Some m →
  Build.nonDynamicObject (Builder.htmlObject (Builder.manifestPages (Builder.pageManifest m)))
  = Build.htmlNonDynamicOut rm
      (Build.nonDynamicObject (Build.collectHtmlPages pagesManifest)).
Proof.
  intros (Hpg & _)%prepareBuildManifests_inv.
  apply sortPageRoutes_inv in Hpg as (-> & _).
  unfold Builder.pagesWithLocales, Build.htmlNonDynamicOut.
  rewrite <- collectPages_html.
  destruct (i18n rm) as [i|]; [|done]. cbn.
  by rewrite localePages_htmlNonDynamic.
Qed.

(** The builder never hands an empty file name to the HTML non-dynamic
    bucket, so on a manifest it built the not-found decision is the static
    404 page exactly when the listing gave the bucket a ["/404"] key. *)
Theorem built_manifest_404 (buildOptions : Builder.BuildOptions)
    (nextConfig : option Builder.NextConfig) (rm : RoutesManifest)
    (pagesManifest : Build.JsObject string)
    (prerenderManifest : Builder.PrerenderManifest) (publicFiles : list string)
    (m : Builder.Manifests) :
  Builder.prepareBuildManifests buildOptions nextConfig rm pagesManifest
    prerenderManifest publicFiles = Some m →
  let manifest := Builder.toPageManifest (Builder.pageManifest m) in
  map_Forall (λ _ pageFile, pageFile ≠ "") (htmlNonDynamic (html (pages manifest)))
  ∧ (handle404 manifest = plain (StaticFile false "pages/404.html")
     ↔ is_Some (htmlNonDynamic (html (pages manifest)) !! "/404"))
  ∧ (handle404 manifest = plain (Render false "pages/_error.js")
     ↔ htmlNonDynamic (html (pages manifest)) !! "/404" = None).
Proof.
  intros Hm manifest.
  assert (map_Forall (λ _ pageFile, pageFile ≠ "") (htmlNonDynamic (html (pages manifest))))
    as Hfiles.
  { cbn. rewrite (prepareBuildManifests_html _ _ _ _ _ _ _ Hm).
    apply builder_html_files_not_empty. }
  split; [done|]. unfold handle404.
  destruct (htmlNonDynamic (html (pages manifest)) !! "/404") as [stored|] eqn:E.
  - rewrite (truthyAt_Some _ _ _ E (Hfiles _ _ E)). by split; split.
  - rewrite (truthyAt_None _ _ E eq_refl). by split; split; try intros [? ?].
Qed.

End Manifests.

Section BuiltManifest.
Context `{!Helpers} `{!RouteSyntax} `{!BuildTools}.

Lemma matchDynamicRoute_elem (u T : string) (routes : list DynamicRoute) :
  matchDynamicRoute u routes = Some T → T ∈ route <$> routes.
Proof.
  intros (before & entry & rest & -> & _ & _ & <-)%matchDynamicRoute_firstMatch.
  rewrite fmap_app, fmap_cons, elem_of_app, elem_of_cons. auto.
Qed.

(** On a manifest that the builder made (with a route sorter that returns
    only routes it was given), whatever template the dynamic scan of the
    page resolver finds is a key of one of the four dynamic buckets, so a
    match is never answered with the not-found page; and the pattern of
    every entry of the list is the regex of its own route. *)
Theorem built_dynamic_routes_have_buckets (buildOptions : Builder.BuildOptions)
    (nextConfig : option Builder.NextConfig) (rm : RoutesManifest)
    (pagesManifest : Build.JsObject string)
    (prerenderManifest : Builder.PrerenderManifest) (publicFiles : list string)
    (m : Builder.Manifests) :
  (∀ routes sortedRoutes,
     getSortedRoutes routes = Some sortedRoutes → sortedRoutes ⊆ routes) →
  Builder.prepareBuildManifests buildOptions nextConfig rm pagesManifest
    prerenderManifest publicFiles = Some m →
  let manifest := Builder.toPageManifest (Builder.pageManifest m) in
  (∀ localeUri T,
     matchDynamicRoute localeUri (dynamic (pages manifest)) = Some T →
     is_Some (ssgDynamic (ssg (pages manifest)) !! T)
     ∨ is_Some (ssrDynamic (ssr (pages manifest)) !! T)
     ∨ is_Some (htmlDynamic (html (pages manifest)) !! T)
     ∨ is_Some (ssrCatchAll (ssr (pages manifest)) !! T))
  ∧ Forall (λ entry, pattern entry = pathToRegexStr (route entry))
      (dynamic (pages manifest)).
Proof.
  intros Hsorter (Hpg & _)%prepareBuildManifests_inv manifest.
  apply sortPageRoutes_inv in Hpg as (_ & _ & _ & _ & sortedRoutes & Hsorted & Hlist).
  split.
  - intros localeUri T HT%matchDynamicRoute_elem. cbn in HT. rewrite Hlist in HT.
    rewrite <- list_fmap_compose in HT. change (route ∘ _) with (@id string) in HT.
    rewrite list_fmap_id in HT. apply (Hsorter _ _ Hsorted) in HT.
    cbn. rewrite !bucket_is_Some. rewrite !elem_of_app in HT. tauto.
  - cbn. rewrite Hlist. apply Forall_fmap, Forall_true. done.
Qed.

Lemma nested_set_get_inv {V} (ls : list string) (base acc : Build.JsObject V)
    (key : string) (v : V) :
  Build.get
    (fold_left
       (λ acc locale,
          fold_left (λ o entry, Build.set o (Build.localeKey locale entry.1) entry.2)
            base acc) ls acc) key = Some v →
  Build.get acc key = Some v
  ∨ ∃ locale k, locale ∈ ls ∧ (k, v) ∈ base ∧ key = Build.localeKey locale k.
Proof.
  revert acc. induction ls as [|locale ls IH]; intros acc; cbn [fold_left]; [auto|].
  intros [E|(locale' & k & Hl & Hk & ->)]%IH.
  - apply (fold_set_get_inv (λ e, Build.localeKey locale e.1) snd) in E
      as [E|([k v'] & He & <- & <-)]; [by left|].
    right. exists locale, k. split; [|done]. apply elem_of_cons. by left.
  - right. exists locale', k. split; [|done]. apply elem_of_cons. by right.
Qed.

Lemma nested_set_keys {V} (ls : list string) (base acc : Build.JsObject V)
    (locale k : string) :
  locale ∈ ls → k ∈ Builder.keys base →
  Build.localeKey locale k
  ∈ Builder.keys
      (fold_left
         (λ acc locale,
            fold_left (λ o entry, Build.set o (Build.localeKey locale entry.1) entry.2)
              base acc) ls acc).
Proof.
  intros Hl Hk. revert acc.
  assert (∀ ls' acc key,
            key ∈ Builder.keys acc →
            key ∈ Builder.keys
                    (fold_left
                       (λ acc locale,
                          fold_left
                            (λ o entry, Build.set o (Build.localeKey locale entry.1) entry.2)
                            base acc) ls' acc)) as Hkeep.
  { induction ls' as [|l ls' IH]; intros acc key Hin; cbn [fold_left]; [done|].
    apply IH, (fold_set_keys (λ e, Build.localeKey l e.1) snd). by left. }
  induction ls as [|l ls IH]; intros acc; cbn [fold_left].
  - by apply elem_of_nil in Hl.
  - apply elem_of_cons in Hl as [<-|Hl]; [|by apply IH].
    apply Hkeep, (fold_set_keys (λ e, Build.localeKey locale e.1) snd). right.
    unfold Builder.keys in Hk. apply list_elem_of_fmap in Hk as (e & -> & He).
    apply list_elem_of_fmap. by exists e.
Qed.

(** Server-rendered non-dynamic pages are duplicated for every configured
    locale, whether or not their key already has a locale prefix, and a
    duplicate keeps the page file of the entry it was made from: everything
    in the bucket is an entry of the listing or such a duplicate. *)
Theorem ssr_pages_duplicated_for_every_locale (buildOptions : Builder.BuildOptions)
    (nextConfig : option Builder.NextConfig) (rm : RoutesManifest) (i : I18n)
    (pagesManifest : Build.JsObject string)
    (prerenderManifest : Builder.PrerenderManifest) (publicFiles : list string)
    (m : Builder.Manifests) :
  i18n rm = Some i →
  Builder.prepareBuildManifests buildOptions nextConfig rm pagesManifest
    prerenderManifest publicFiles = Some m →
  let collected := Builder.ssrPagesNonDynamic (Builder.collectPages pagesManifest) in
  let bucket :=
    Builder.ssrNonDynamicObject
      (Builder.ssrObject (Builder.manifestPages (Builder.pageManifest m))) in
  (∀ key, key ∈ Builder.keys collected → key ∈ Builder.keys bucket)
  ∧ (∀ locale key, locale ∈ locales i → key ∈ Builder.keys collected →
                   Build.localeKey locale key ∈ Builder.keys bucket)
  ∧ (∀ key pageFile, Build.get bucket key = Some pageFile →
       (key, pageFile) ∈ collected
       ∨ ∃ locale k, locale ∈ locales i ∧ (k, pageFile) ∈ collected
                     ∧ key = Build.localeKey locale k).
Proof.
  intros Hi (Hpg & _)%prepareBuildManifests_inv collected bucket.
  apply sortPageRoutes_inv in Hpg as (_ & _ & Hssr & _).
  assert (bucket
          = Build.spread collected
              (fold_left
                 (λ acc locale,
                    fold_left
                      (λ o entry, Build.set o (Build.localeKey locale entry.1) entry.2)
                      collected acc) (locales i) [])) as ->.
  { unfold bucket. rewrite Hssr. unfold Builder.pagesWithLocales. rewrite Hi. cbn.
    by rewrite localePages_ssrNonDynamic. }
  split_and!.
  - intros key Hk. apply spread_keys. by left.
  - intros locale key Hl Hk. apply spread_keys. right. by apply nested_set_keys.
  - intros key pageFile [E|Hin]%spread_get_inv.
    + left. by apply get_elem_of.
    + apply elem_of_get in Hin.
      * apply nested_set_get_inv in Hin as [Hin|?]; [done|by right].
      * assert (∀ ls acc, NoDup (Builder.keys acc) →
                  NoDup (Builder.keys
                           (fold_left
                              (λ acc locale,
                                 fold_left
                                   (λ o entry,
                                      Build.set o (Build.localeKey locale entry.1) entry.2)
                                   collected acc) ls acc))) as Hnd.
        { induction ls as [|l ls IH]; intros acc Hacc; cbn [fold_left]; [done|].
          apply IH, (fold_set_NoDup (λ e, Build.localeKey l e.1) snd), Hacc. }
        apply Hnd. cbn. apply NoDup_nil_2.
Qed.

Lemma dynamicApi_files (pagesManifest : Build.JsObject string) :
  Forall (λ kv, Builder.isApiPage (file kv.2) = true
                ∧ Build.isHtmlPage (file kv.2) = false)
    (Builder.dynamicApi (Builder.collectPages pagesManifest)).
Proof.
  unfold Builder.collectPages.
  apply (fold_left_invariant
           (λ c, Forall (λ kv, Builder.isApiPage (file kv.2) = true
                               ∧ Build.isHtmlPage (file kv.2) = false)
                   (Builder.dynamicApi c))).
  - apply Forall_nil_2.
  - intros c [route pageFile] Hc. cbn [fst snd]. unfold Builder.collectPage.
    destruct (Build.isHtmlPage pageFile) eqn:Hhtml; [done|].
    destruct (Builder.isApiPage pageFile) eqn:Hapi;
      [|by destruct (negb _ && _), (isOptionalCatchAllRoute route)].
    destruct (negb _ && _); [|destruct (isOptionalCatchAllRoute route); [|done]];
      cbn; by apply (set_values _ _ _ (λ d, Builder.isApiPage (file d) = true
                                           ∧ Build.isHtmlPage (file d) = false)).
Qed.

Lemma matchDynamic_elem (u pageFile : string) (routes : list Dynamic) :
  matchDynamic u routes = Some pageFile → ∃ r, r ∈ routes ∧ file r = pageFile.
Proof.
  induction routes as [|r routes IH]; cbn [matchDynamic]; [done|].
  destruct (regexTest (regex r) u).
  - intros [= <-]. exists r. split; [|done]. apply elem_of_cons. by left.
  - intros (r' & Hr' & <-)%IH. exists r'. split; [|done]. apply elem_of_cons. by right.
Qed.

(** The dynamic list of the API manifest holds API pages only: each entry
    has the file of a dynamic API route of the listing, a file under
    [pages/api] that is not an HTML file, so the API scan answers such a
    file or nothing. *)
Theorem built_api_routes_are_api_pages (buildOptions : Builder.BuildOptions)
    (nextConfig : option Builder.NextConfig) (rm : RoutesManifest)
    (pagesManifest : Build.JsObject string)
    (prerenderManifest : Builder.PrerenderManifest) (publicFiles : list string)
    (m : Builder.Manifests) :
  Builder.prepareBuildManifests buildOptions nextConfig rm pagesManifest
    prerenderManifest publicFiles = Some m →
  Forall (λ page, Builder.isApiPage (file page) = true
                  ∧ Build.isHtmlPage (file page) = false)
    (Builder.apiDynamic (Builder.apiManifest m))
  ∧ (∀ u pageFile,
       matchDynamic u (Builder.apiDynamic (Builder.apiManifest m)) = Some pageFile →
       Builder.isApiPage pageFile = true ∧ Build.isHtmlPage pageFile = false).
Proof.
  intros (_ & Hapi & _)%prepareBuildManifests_inv.
  assert (Forall (λ page, Builder.isApiPage (file page) = true
                          ∧ Build.isHtmlPage (file page) = false)
            (Builder.apiDynamic (Builder.apiManifest m))) as Hfiles.
  { unfold Builder.sortApiRoutes in Hapi.
    destruct (getSortedRoutes _) as [sortedApi|]; [|done]. cbn [mbind option_bind] in Hapi.
    apply mapM_Some in Hapi.
    pose proof (dynamicApi_files pagesManifest) as Hdyn.
    induction Hapi as [|route page sortedApi pages' Hpage _ IH]; [apply Forall_nil_2|].
    apply Forall_cons. split; [|done].
    destruct (Build.get _ route) as [stored|] eqn:E; [|done].
    cbn in Hpage. injection Hpage as <-. cbn.
    apply get_elem_of in E.
    by destruct (proj1 (Forall_forall _ _) Hdyn _ E). }
  split; [done|]. intros u pageFile Hm.
  apply matchDynamic_elem in Hm as (r & Hr & <-).
  by apply (proj1 (Forall_forall _ _) Hfiles).
Qed.

End BuiltManifest.

(** ** [build/index.ts]: prerendered routes and the default locale *)

Lemma replace_unfold (pat rep s : string) :
  Js.replace pat rep s
  = if String.prefix pat s then rep +:+ Js.drop (String.length pat) s
    else match s with
         | EmptyString => EmptyString
         | String c s' => String c (Js.replace pat rep s')
         end.
Proof. by destruct s. Qed.





(** ** [redirect.ts]: redirects that end *)

Lemma slice_length (s : string) :
  s ≠ "" → String.length (Js.slice_0_m1 s) + 1 = String.length s.
Proof.
  induction s as [|c s IH]; [done|]. intros _. destruct s as [|c' s]; [done|].
  change (Js.slice_0_m1 (String c (String c' s)))
    with (String c (Js.slice_0_m1 (String c' s))).
  cbn [String.length] in *. rewrite <- IH by done. lia.
Qed.

Lemma endsWith_append_slash (s : string) : Js.endsWith (s +:+ "/") "/" = true.
Proof.
  induction s as [|c s IH]; [done|].
  rewrite append_cons. cbn [Js.endsWith]. by rewrite IH, orb_true_r.
Qed.

(** A trailing-slash redirect never points at the URI it was computed for:
    the target is one character shorter or one longer; and with the policy
    on, the target of a page redirect needs no further redirect. *)
Theorem trailing_slash_redirect_ends (u target : string) (manifest : Manifest)
    (isFile : bool) :
  getTrailingSlashPath {| uri := u |} manifest isFile = Some target →
  target ≠ u
  ∧ (String.length target + 1 = String.length u
     ∨ String.length target = String.length u + 1)
  ∧ (isFile = false → default false (trailingSlash manifest) = true →
     getTrailingSlashPath {| uri := target |} manifest false = None).
Proof.
  assert (∀ s, Js.endsWith s "/" = true →
               Js.slice_0_m1 s ≠ s
               ∧ String.length (Js.slice_0_m1 s) + 1 = String.length s) as Hslice.
  { intros s Hs. apply (endsWith_not_empty s "/") in Hs; [|done].
    pose proof (slice_length s Hs) as Hlen. split; [|done].
    intros E. rewrite E in Hlen. lia. }
  assert (u +:+ "/" ≠ u ∧ String.length (u +:+ "/") = String.length u + 1) as Happ.
  { assert (String.length (u +:+ "/") = String.length u + 1) as Hlen
      by (by rewrite append_length).
    split; [|done]. intros E. rewrite E in Hlen. lia. }
  unfold getTrailingSlashPath. cbn [uri]. destruct isFile.
  - destruct (Js.endsWith u "/") eqn:E; [|done]. intros [= <-].
    destruct (Hslice u E). split_and!; [done|by left|done].
  - destruct (Js.slashThenOther u); [|done].
    destruct (default false (trailingSlash manifest)) eqn:Hpolicy; cbn [negb andb].
    + destruct (Js.endsWith u "/"); [done|]. cbn [negb]. intros [= <-].
      destruct Happ. split_and!; [done|by right|].
      intros _ _. rewrite endsWith_append_slash.
      by destruct (Js.slashThenOther (u +:+ "/")).
    + destruct (Js.endsWith u "/") eqn:E; [|done]. intros [= <-].
      destruct (Hslice u E). split_and!; [done|by left|done].
Qed.

Section RedirectSound.
Context `{!Helpers} `{!PathToRegexp}.

(** A redirect is only ever answered from a declared rule: its source
    matches the path, its destination compiled to the answered path, which
    is not empty, and the status code is the rule's.  Without rules there
    is no redirect. *)
Theorem redirect_comes_from_a_rule (request : Request) (rm : RoutesManifest)
    (answer : Redirect) :
  getRedirectPath request rm = Some answer →
  ∃ rule params,
    rule ∈ default [] (redirects rm)
    ∧ matchPath (addDefaultLocaleToPath (uri request) rm) (source rule) = Some params
    ∧ compileDestination (destination rule) params = Some (path answer)
    ∧ path answer ≠ ""
    ∧ redirectStatusCode answer = statusCode rule.
Proof.
  unfold getRedirectPath.
  generalize (addDefaultLocaleToPath (uri request) rm) as p.
  generalize (default [] (redirects rm)) as rules. intros rules p.
  induction rules as [|rule rules IH]; cbn [scanRedirects]; [done|].
  destruct (matchPath p (source rule)) as [params|] eqn:Hm.
  - destruct (compileDestination (destination rule) params) as [compiled|] eqn:Hc;
      [|done].
    destruct (Js.truthy compiled) eqn:Ht; [|done]. intros [= <-].
    exists rule, params. split_and!; try done; [apply list_elem_of_here|].
    by apply truthy_spec.
  - intros (r & params & Hin & ?)%IH. exists r, params. split; [|done].
    by apply list_elem_of_further.
Qed.

End RedirectSound.

(** ** The further properties on concrete inputs *)


(** A request for [/about] without headers gets no language redirect. *)
Lemma language_redirect_guard_witness :
  @getLanguageRedirectPath Sample.platform {| uri := "/about" |} ∅
    {| trailingSlash := None |} (Fixture.routesManifest []) = None.
Proof.
  destruct (@language_redirect_guard Sample.platform {| uri := "/about" |} ∅
              {| trailingSlash := None |} (Fixture.routesManifest [])) as [H _].
  apply H; [done|by left].
Defined.

Lemma compileDestination_success_witness :
  ∃ toPath,
    Fixture.compileTemplate (Js.escapeQuestionMarks "/news/:slug") = Some toPath
    ∧ toPath [("slug", "abc")] = Some "/news/abc".
Proof.
  exact (@compileDestination_success Fixture.pathToRegexp "/news/:slug"
           [("slug", "abc")] "/news/abc" eq_refl).
Defined.

Lemma handlePageReq_answers_witness :
  false = false
  ∧ (false = true → querystring (plain (StaticFile false "pages/about.html")) = None).
Proof.
  exact (@handlePageReq_answers (Fixture.helpers []) 1 "/about" Fixture.aboutAndSlug
           (Fixture.routesManifest []) false false
           (plain (StaticFile false "pages/about.html")) eq_refl).
Defined.

Lemma external_rewrite_short_circuit_witness :
  @handlePageReq (Fixture.helpers [("/ext", "https://external.com?x=1")]) 1 "/ext"
    Fixture.aboutAndSlug (Fixture.routesManifest []) false false
  = Some {| target := External "https://external.com"; querystring := Some "x=1" |}.
Proof.
  apply (@external_rewrite_short_circuit
           (Fixture.helpers [("/ext", "https://external.com?x=1")]) 0 "/ext"
           Fixture.aboutAndSlug (Fixture.routesManifest []) false
           "https://external.com?x=1"); try done.
  split_and!; [done|done|by left|done].
Defined.

Lemma public_files_lookup_witness :
  Build.get (Builder.publicFilesObject ["favicon.ico"; "robots.txt"]) "/robots.txt"
  = Some "robots.txt".
Proof.
  apply (proj1 (public_files_lookup ["favicon.ico"; "robots.txt"]) "robots.txt").
  apply list_elem_of_further, list_elem_of_here.
Defined.

Lemma split_catch_all_partition_witness :
  Builder.splitCatchAll
    [ ("/[slug]", Fixture.slugPage);
      ("/docs/[...path]", {| file := "pages/docs/[...path].js"; regex := "" |}) ]
  = ([ ("/[slug]", Fixture.slugPage) ],
     [ ("/docs/[...path]", {| file := "pages/docs/[...path].js"; regex := "" |}) ]).
Proof.
  apply (split_catch_all_partition
           [ ("/[slug]", Fixture.slugPage);
             ("/docs/[...path]", {| file := "pages/docs/[...path].js"; regex := "" |}) ]).
  apply NoDup_cons. split; [|apply NoDup_singleton].
  by intros ?%list_elem_of_singleton.
Defined.

Lemma every_page_registered_witness :
  "/docs/[[...path]]"
  ∈ Builder.keys (Builder.ssrPagesDynamic
                    (@Builder.collectPages Sample.routeSyntax Sample.pagesManifest))
  ∧ "/docs"
    ∈ Builder.keys (Builder.ssrPagesNonDynamic
                      (@Builder.collectPages Sample.routeSyntax Sample.pagesManifest)).
Proof.
  apply (@every_page_registered Sample.routeSyntax Sample.pagesManifest
           "/docs/[[...path]]" "pages/docs/[[...path]].js").
  do 4 apply list_elem_of_further. apply list_elem_of_here.
Defined.

Lemma html_locale_duplicates_additive_witness :
  Build.get
    (Build.htmlNonDynamicOut Fixture.english_dutch
       [("/about", "pages/about.html"); ("/en/terms", "pages/en/terms.html")])
    "/about"
  = Some "pages/about.html".
Proof.
  destruct (html_locale_duplicates_additive Fixture.english_dutch
              {| locales := ["en"; "nl"]; defaultLocale := "en" |}
              [("/about", "pages/about.html"); ("/en/terms", "pages/en/terms.html")])
    as [_ H].
  - done.
  - by repeat apply Forall_cons_2; try apply Forall_nil_2.
  - by rewrite H.
Defined.

(** Of two HTML pages, [/contact] comes first and gets its Dutch
    duplicate. *)
Lemma duplicates_before_first_prefixed_key_witness :
  is_Some
    (Build.get
       (Build.htmlNonDynamicOut Fixture.english_dutch
          ([("/contact", "pages/contact.html")] ++ [("/en/about", "pages/en/about.html")]))
       (Build.localeKey "nl" "/contact")).
Proof.
  apply (duplicates_before_first_prefixed_key Fixture.english_dutch
           {| locales := ["en"; "nl"]; defaultLocale := "en" |}
           [("/contact", "pages/contact.html")] [("/en/about", "pages/en/about.html")]
           "nl" "/contact" "pages/contact.html").
  - done.
  - apply list_elem_of_further, list_elem_of_here.
  - by apply Forall_singleton.
  - apply list_elem_of_here.
Defined.


(** The sample build has a 404 page, and the not-found decision on its
    manifest is that page. *)
Lemma built_manifest_404_witness :
  ∃ m, Sample.build = Some m
       ∧ handle404 (Builder.toPageManifest (Builder.pageManifest m))
         = plain (StaticFile false "pages/404.html").
Proof.
  destruct Sample.build as [m|] eqn:E; [|vm_compute in E; discriminate E].
  exists m. split; [done|].
  destruct (@built_manifest_404 Sample.routeSyntax Sample.buildTools _ _ _ _ _ _ _ E)
    as (_ & H404 & _).
  apply H404. vm_compute in E. injection E as <-. vm_compute. eauto.
Defined.

(** [/contact] is matched by [/[slug]], a key of the SSR-dynamic bucket of
    the sample build. *)
Lemma built_dynamic_routes_have_buckets_witness :
  ∃ m, Sample.build = Some m
       ∧ is_Some (ssrDynamic (ssr (pages (Builder.toPageManifest (Builder.pageManifest m))))
                    !! "/[slug]").
Proof.
  destruct Sample.build as [m|] eqn:E; [|vm_compute in E; discriminate E].
  exists m. split; [done|].
  destruct (@built_dynamic_routes_have_buckets (Fixture.helpers []) Sample.routeSyntax
              Sample.buildTools Sample.buildOptions None Fixture.english_dutch
              Sample.pagesManifest Sample.prerenderManifest ["favicon.ico"] m) as [H _].
  - by intros routes sortedRoutes [= <-].
  - exact E.
  - destruct (H "/contact" "/[slug]") as [Hb|[Hb|[Hb|Hb]]]; [| |done| |].
    + vm_compute in E. injection E as <-. vm_compute. reflexivity.
    + vm_compute in E. injection E as <-. vm_compute in Hb. by destruct Hb.
    + vm_compute in E. injection E as <-. vm_compute in Hb. by destruct Hb.
    + vm_compute in E. injection E as <-. vm_compute in Hb. by destruct Hb.
Defined.

Lemma ssr_pages_duplicated_for_every_locale_witness :
  ∃ m, Sample.build = Some m
       ∧ Build.localeKey "nl" "/dashboard"
         ∈ Builder.keys
             (Builder.ssrNonDynamicObject
                (Builder.ssrObject (Builder.manifestPages (Builder.pageManifest m)))).
Proof.
  destruct Sample.build as [m|] eqn:E; [|vm_compute in E; discriminate E].
  exists m. split; [done|].
  destruct (@ssr_pages_duplicated_for_every_locale Sample.routeSyntax Sample.buildTools
              Sample.buildOptions None Fixture.english_dutch
              {| locales := ["en"; "nl"]; defaultLocale := "en" |}
              Sample.pagesManifest Sample.prerenderManifest ["favicon.ico"] m eq_refl E)
    as (_ & H & _).
  apply H.
  - apply list_elem_of_further, list_elem_of_here.
  - apply list_elem_of_here.
Defined.

Lemma built_api_routes_are_api_pages_witness :
  ∃ m, Sample.build = Some m
       ∧ Forall (λ page, Builder.isApiPage (file page) = true
                         ∧ Build.isHtmlPage (file page) = false)
           (Builder.apiDynamic (Builder.apiManifest m)).
Proof.
  destruct Sample.build as [m|] eqn:E; [|vm_compute in E; discriminate E].
  exists m. split; [done|].
  by destruct (@built_api_routes_are_api_pages (Fixture.helpers []) Sample.routeSyntax
                 Sample.buildTools Sample.buildOptions None Fixture.english_dutch
                 Sample.pagesManifest Sample.prerenderManifest ["favicon.ico"] m E).
Defined.

Lemma trailing_slash_redirect_ends_witness :
  "/blog/" ≠ "/blog"
  ∧ (String.length "/blog/" + 1 = String.length "/blog"
     ∨ String.length "/blog/" = String.length "/blog" + 1)
  ∧ (false = false → default false (Some true) = true →
     getTrailingSlashPath {| uri := "/blog/" |} {| trailingSlash := Some true |} false
     = None).
Proof.
  exact (trailing_slash_redirect_ends "/blog" "/blog/" {| trailingSlash := Some true |}
           false eq_refl).
Defined.

Lemma redirect_comes_from_a_rule_witness :
  ∃ rule params,
    rule ∈ [Fixture.rule "/a" "/b" 308; Fixture.rule "/c" "/d" 302]
    ∧ Fixture.literalMatch (source rule) "/c" = Some params
    ∧ @compileDestination Fixture.pathToRegexp (destination rule) params = Some "/d"
    ∧ "/d" ≠ ""
    ∧ 302 = statusCode rule.
Proof.
  exact (@redirect_comes_from_a_rule (Fixture.helpers []) Fixture.pathToRegexp
           {| uri := "/c" |}
           (Fixture.routesManifest
              [Fixture.rule "/a" "/b" 308; Fixture.rule "/c" "/d" 302])
           {| path := "/d"; redirectStatusCode := 302 |} eq_refl).
Defined.

(** ** [build/index.ts]: the regex of a dynamic page *)

Section DynamicRegex.
Context `{!RouteSyntax} `{!BuildTools}.

Lemma set_entries {V} (P : string * V → Prop) (o : Build.JsObject V) (key : string)
    (v : V) :
  Forall P o → P (key, v) → Forall P (Build.set o key v).
Proof.
  intros Ho Hv. induction Ho as [|[k v'] o Hk Ho IH]; cbn.
  - by apply Forall_singleton.
  - destruct (String.eqb_spec k key) as [->|]; apply Forall_cons; by split.
Qed.

Lemma spread_entries {V} (P : string * V → Prop) (o o' : Build.JsObject V) :
  Forall P o → Forall P o' → Forall P (Build.spread o o').
Proof.
  intros Ho Ho'. unfold Build.spread. revert o Ho.
  induction Ho' as [|[k v] o' Hk Ho' IH]; intros o Ho; cbn [fold_left]; [done|].
  by apply IH, set_entries.
Qed.

(** A dynamic page is stored with the regex of the key it is stored under. *)
Definition ownRegex (entry : string * Dynamic) : Prop :=
  regex entry.2 = pathToRegexStr entry.1.

Lemma collectPages_ownRegex (pagesManifest : Build.JsObject string) :
  Forall ownRegex (Build.dynamicObject (Builder.htmlPages (Builder.collectPages pagesManifest)))
  ∧ Forall ownRegex (Builder.ssrPagesDynamic (Builder.collectPages pagesManifest)).
Proof.
  unfold Builder.collectPages.
  apply (fold_left_invariant
           (λ c, Forall ownRegex (Build.dynamicObject (Builder.htmlPages c))
                 ∧ Forall ownRegex (Builder.ssrPagesDynamic c))).
  - split; apply Forall_nil_2.
  - intros c [route pageFile] [H1 H2]. cbn [fst snd].
    unfold Builder.collectPage, Build.collectHtmlPage.
    destruct (Build.isHtmlPage pageFile), (Builder.isApiPage pageFile),
      (isOptionalCatchAllRoute route), (isDynamicRoute route);
      cbn; split; try done; by apply set_entries.
Qed.

Lemma localePages_ownRegex (buildId : string) (i : I18n) (c : Builder.Collected)
    (ssgPages : Builder.SsgPagesObject) :
  Forall ownRegex (Builder.localeHtmlDynamic (Builder.localePages buildId i c ssgPages))
  ∧ Forall ownRegex (Builder.localeSsrDynamic (Builder.localePages buildId i c ssgPages)).
Proof.
  unfold Builder.localePages.
  apply (fold_left_invariant
           (λ l, Forall ownRegex (Builder.localeHtmlDynamic l)
                 ∧ Forall ownRegex (Builder.localeSsrDynamic l))).
  - split; apply Forall_nil_2.
  - intros l locale [H1 H2]. unfold Builder.localePass.
    cbn [Builder.localeHtmlDynamic Builder.localeSsrDynamic]. split.
    + apply (fold_left_invariant (Forall ownRegex)); [done|].
      intros o [key page] Ho. by apply set_entries.
    + apply (fold_left_invariant (Forall ownRegex)); [done|].
      intros o [key page] Ho. by apply set_entries.
Qed.

Lemma splitCatchAll_ownRegex (allDynamicRoutes : Build.JsObject Dynamic) :
  Forall ownRegex allDynamicRoutes →
  Forall ownRegex (Builder.splitCatchAll allDynamicRoutes).1
  ∧ Forall ownRegex (Builder.splitCatchAll allDynamicRoutes).2.
Proof.
  intros Hall. unfold Builder.splitCatchAll.
  assert (∀ acc : Build.JsObject Dynamic * Build.JsObject Dynamic,
            Forall ownRegex acc.1 ∧ Forall ownRegex acc.2 →
            let out :=
              fold_left
                (λ '(nonCatchAllRoutes, catchAllRoutes) entry,
                   if Js.includes entry.1 "[..."
                   then (nonCatchAllRoutes, Build.set catchAllRoutes entry.1 entry.2)
                   else (Build.set nonCatchAllRoutes entry.1 entry.2, catchAllRoutes))
                allDynamicRoutes acc in
            Forall ownRegex out.1 ∧ Forall ownRegex out.2) as Hfold.
  { induction Hall as [|[k v] l Hk Hl IH]; intros [a b] [Ha Hb]; cbn [fold_left];
      [done|].
    apply IH. cbn [fst snd] in *.
    destruct (Js.includes k "[..."); cbn [fst snd]; split; try done;
      by apply set_entries. }
  apply (Hfold ([], [])). split; apply Forall_nil_2.
Qed.

(** In a page manifest that the builder returned, every page of the
    HTML-dynamic, SSR-dynamic and SSR-catchAll buckets is stored with the
    regex of its own key, be it an entry of the listing or a locale
    duplicate; it is the pattern under which the dynamic list scans that
    key. *)
Theorem built_dynamic_pages_own_regex (buildOptions : Builder.BuildOptions)
    (nextConfig : option Builder.NextConfig) (rm : RoutesManifest)
    (pagesManifest : Build.JsObject string)
    (prerenderManifest : Builder.PrerenderManifest) (publicFiles : list string)
    (m : Builder.Manifests) :
  Builder.prepareBuildManifests buildOptions nextConfig rm pagesManifest
    prerenderManifest publicFiles = Some m →
  let pg := Builder.manifestPages (Builder.pageManifest m) in
  Forall (λ entry, regex entry.2 = pathToRegexStr entry.1)
    (Build.dynamicObject (Builder.htmlObject pg))
  ∧ Forall (λ entry, regex entry.2 = pathToRegexStr entry.1)
      (Builder.ssrDynamicObject (Builder.ssrObject pg))
  ∧ Forall (λ entry, regex entry.2 = pathToRegexStr entry.1)
      (Builder.ssrCatchAllObject (Builder.ssrObject pg)).
Proof.
  intros (Hpg & _)%prepareBuildManifests_inv pg.
  apply sortPageRoutes_inv in Hpg as (Hhtml & _ & _ & Hsplit & _). fold pg in Hhtml, Hsplit.
  destruct (collectPages_ownRegex pagesManifest) as [Hc1 Hc2].
  assert (Forall ownRegex
            (Build.dynamicObject
               (Builder.htmlObject
                  (Builder.pagesWithLocales (Builder.optionsBuildId buildOptions) rm
                     (Builder.collectPages pagesManifest)
                     (Builder.collectSsgPages rm prerenderManifest))))
          ∧ Forall ownRegex
              (Builder.ssrDynamicObject
                 (Builder.ssrObject
                    (Builder.pagesWithLocales (Builder.optionsBuildId buildOptions) rm
                       (Builder.collectPages pagesManifest)
                       (Builder.collectSsgPages rm prerenderManifest))))) as [H1 H2].
  { unfold Builder.pagesWithLocales. destruct (i18n rm) as [i|]; [|done]. cbn.
    destruct (localePages_ownRegex (Builder.optionsBuildId buildOptions) i
                (Builder.collectPages pagesManifest)
                (Builder.collectSsgPages rm prerenderManifest)).
    split; by apply spread_entries. }
  apply splitCatchAll_ownRegex in H2 as [H2 H3]. rewrite <- Hsplit in H2, H3.
  rewrite Hhtml. done.
Qed.

End DynamicRegex.

Lemma built_dynamic_pages_own_regex_witness :
  ∃ m, Sample.build = Some m
       ∧ Forall (λ entry, regex entry.2 = @pathToRegexStr Sample.routeSyntax entry.1)
           (Builder.ssrCatchAllObject
              (Builder.ssrObject (Builder.manifestPages (Builder.pageManifest m)))).
Proof.
  destruct Sample.build as [m|] eqn:E; [|vm_compute in E; discriminate E].
  exists m. split; [done|].
  by destruct (@built_dynamic_pages_own_regex Sample.routeSyntax Sample.buildTools
                 Sample.buildOptions None Fixture.english_dutch Sample.pagesManifest
                 Sample.prerenderManifest ["favicon.ico"] m E) as (_ & _ & ?).
Defined.

(** ** [build/index.ts]: the manifests it returns are well formed *)

Section BuiltWellFormed.
Context `{!RouteSyntax} `{!BuildTools}.

Lemma fold_left_invariant_in {A B} (P : A → Prop) (Q : B → Prop) (step : A → B → A)
    (l : list B) (a : A) :
  P a → Forall Q l → (∀ a b, P a → Q b → P (step a b)) → P (fold_left step l a).
Proof.
  intros Ha Hl Hstep. revert a Ha.
  induction Hl as [|b l Hb Hl IH]; intros a Ha; cbn [fold_left]; [done|].
  by apply IH, Hstep.
Qed.

Lemma bucket_entries {V} (P : string → V → Prop) (o : Build.JsObject V) :
  Forall (λ entry, P entry.1 entry.2) o → map_Forall P (Build.bucket o).
Proof.
  unfold Build.bucket.
  generalize (∅ : gmap string V) (map_Forall_empty P (M:=gmap string)).
  intros m Hm Ho. revert m Hm.
  induction Ho as [|[k v] o Hk Ho IH]; intros m Hm; cbn [fold_left]; [done|].
  apply IH. by apply map_Forall_insert_2.
Qed.

Lemma startsWith_slash_cons (rest : string) :
  Js.startsWith (String "/"%char rest) "/" = true.
Proof. unfold Js.startsWith. by rewrite prefix_cons, Ascii.eqb_refl, prefix_empty. Qed.

Lemma replace_keeps_slash (pat s : string) :
  Js.startsWith s "/" = true → Js.startsWith (Js.replace pat "/" s) "/" = true.
Proof.
  intros [rest ->]%startsWith_slash. rewrite replace_unfold.
  destruct (String.prefix pat _); [|apply startsWith_slash_cons].
  rewrite append_cons. apply startsWith_slash_cons.
Qed.

Lemma optionalBaseRoute_slash (route : string) :
  Js.startsWith route "/" = true →
  Js.startsWith
    (if Js.truthy (Js.beforeFirst "/[[" route)
     then Js.beforeFirst "/[[" route else "/") "/" = true.
Proof.
  intros [rest ->]%startsWith_slash.
  destruct (Js.truthy _) eqn:E; [|done].
  change (Js.beforeFirst "/[[" (String "/"%char rest))
    with (if String.prefix "/[[" (String "/"%char rest) then ""
          else String "/"%char (Js.beforeFirst "/[[" rest)) in *.
  destruct (String.prefix "/[[" _); [discriminate E|apply startsWith_slash_cons].
Qed.

Lemma localeKey_slash (locale key : string) :
  Js.startsWith (Build.localeKey locale key) "/" = true.
Proof.
  unfold Build.localeKey.
  destruct (String.eqb key "/"); rewrite append_cons; apply startsWith_slash_cons.
Qed.

Lemma collectPages_routes (pagesManifest : Build.JsObject string) :
  Forall routedFile pagesManifest →
  Forall routed (Build.nonDynamicObject (Builder.htmlPages (Builder.collectPages pagesManifest)))
  ∧ Forall routedFile (Builder.ssrPagesNonDynamic (Builder.collectPages pagesManifest)).
Proof.
  intros Hlisting. unfold Builder.collectPages.
  apply (fold_left_invariant_in
           (λ c, Forall routed (Build.nonDynamicObject (Builder.htmlPages c))
                 ∧ Forall routedFile (Builder.ssrPagesNonDynamic c))
           routedFile); [by split; apply Forall_nil_2|done|].
  intros c [route pageFile] [H1 H2] [Hroute Hfile]. cbn [fst snd] in *.
  pose proof (optionalBaseRoute_slash route Hroute) as Hbase.
  unfold Builder.collectPage, Build.collectHtmlPage, Builder.optionalBaseRoute.
  destruct (Build.isHtmlPage pageFile), (Builder.isApiPage pageFile),
    (isOptionalCatchAllRoute route), (isDynamicRoute route);
    cbn; split; try done; by apply set_entries.
Qed.

Lemma collectSsgPages_routes (rm : RoutesManifest)
    (prerenderManifest : Builder.PrerenderManifest) :
  Forall routed (Builder.prerenderRoutes prerenderManifest) →
  Forall routed (Builder.ssgNonDynamicObject (Builder.collectSsgPages rm prerenderManifest)).
Proof.
  intros Hroutes. cbn [Builder.collectSsgPages Builder.ssgNonDynamicObject].
  apply (fold_left_invariant_in (Forall routed) routed);
    [apply Forall_nil_2|done|].
  intros o [route ssgRoute] Ho Hroute. cbn [fst snd] in *.
  unfold Builder.addSsgRoute. destruct (defaultLocale <$> i18n rm) as [d|].
  - destruct (Js.truthy d); apply set_entries; try done.
    by apply replace_keeps_slash.
  - by apply set_entries.
Qed.

Lemma htmlPagesNonDynamicLoop_routes (locales : list string) (locale : string)
    (entries acc : Build.JsObject string) :
  Forall routed acc →
  Forall routed (Build.htmlPagesNonDynamicLoop locales locale entries acc).
Proof.
  revert acc. induction entries as [|[key pageFile] entries IH]; intros acc Hacc;
    cbn [Build.htmlPagesNonDynamicLoop]; [done|].
  destruct (Build.localePrefixed locales key); [done|].
  apply IH, set_entries; [done|]. apply localeKey_slash.
Qed.

Lemma localePages_routes (buildId : string) (i : I18n) (c : Builder.Collected)
    (ssgPages : Builder.SsgPagesObject) :
  Forall routedFile (Builder.ssrPagesNonDynamic c) →
  let l := Builder.localePages buildId i c ssgPages in
  Forall routed (Builder.localeHtmlNonDynamic l)
  ∧ Forall routedFile (Builder.localeSsrNonDynamic l)
  ∧ Forall routed (Builder.localeSsgNonDynamic l).
Proof.
  intros Hssr. unfold Builder.localePages.
  apply (fold_left_invariant
           (λ l, Forall routed (Builder.localeHtmlNonDynamic l)
                 ∧ Forall routedFile (Builder.localeSsrNonDynamic l)
                 ∧ Forall routed (Builder.localeSsgNonDynamic l))).
  - split_and!; apply Forall_nil_2.
  - intros l locale (H1 & H2 & H3). unfold Builder.localePass.
    cbn [Builder.localeHtmlNonDynamic Builder.localeSsrNonDynamic
         Builder.localeSsgNonDynamic].
    split_and!.
    + by apply htmlPagesNonDynamicLoop_routes.
    + apply (fold_left_invariant_in (Forall routedFile) routedFile); [done..|].
      intros o [key page] Ho [_ Hfile]. apply set_entries; [done|].
      split; [apply localeKey_slash|done].
    + apply (fold_left_invariant (Forall routed)); [done|].
      intros o [key page] Ho. apply set_entries; [done|]. apply localeKey_slash.
Qed.

(** When the routes of the page listing and of the prerendered routes begin
    with a slash and the listing names a file for each page, the page
    manifest that the builder returns is well formed. *)
Lemma built_manifest_wellFormed (buildOptions : Builder.BuildOptions)
    (nextConfig : option Builder.NextConfig) (rm : RoutesManifest)
    (pagesManifest : Build.JsObject string)
    (prerenderManifest : Builder.PrerenderManifest) (publicFiles : list string)
    (m : Builder.Manifests) :
  Forall routedFile pagesManifest →
  Forall routed (Builder.prerenderRoutes prerenderManifest) →
  Builder.prepareBuildManifests buildOptions nextConfig rm pagesManifest
    prerenderManifest publicFiles = Some m →
  wellFormed (Builder.toPageManifest (Builder.pageManifest m)).
Proof.
  intros Hlisting Hprerendered Hm.
  pose proof (prepareBuildManifests_html _ _ _ _ _ _ _ Hm) as Hhtml.
  destruct (prepareBuildManifests_inv _ _ _ _ _ _ _ Hm) as (Hpg & _).
  apply sortPageRoutes_inv in Hpg as (Ehtml & Essg & Essr & _).
  destruct (collectPages_routes pagesManifest Hlisting) as [Chtml Cssr].
  pose proof (collectSsgPages_routes rm prerenderManifest Hprerendered) as Cssg.
  set (pg := Builder.pagesWithLocales (Builder.optionsBuildId buildOptions) rm
               (Builder.collectPages pagesManifest)
               (Builder.collectSsgPages rm prerenderManifest)) in *.
  assert (Forall routed (Build.nonDynamicObject (Builder.htmlObject pg))
          ∧ Forall routedFile (Builder.ssrNonDynamicObject (Builder.ssrObject pg))
          ∧ Forall routed (Builder.ssgNonDynamicObject (Builder.ssgObject pg)))
    as (Phtml & Pssr & Pssg).
  { subst pg. unfold Builder.pagesWithLocales. destruct (i18n rm) as [i|]; [|done]. cbn.
    destruct (localePages_routes (Builder.optionsBuildId buildOptions) i
                (Builder.collectPages pagesManifest)
                (Builder.collectSsgPages rm prerenderManifest) Cssr)
      as (L1 & L2 & L3).
    split_and!; by apply spread_entries. }
  rewrite <- Ehtml in Phtml. rewrite <- Essr in Pssr. rewrite <- Essg in Pssg.
  unfold wellFormed, routeKeys.
  cbn [Builder.toPageManifest pages html ssr ssg htmlNonDynamic ssrNonDynamic
       ssgNonDynamic].
  split_and!.
  - rewrite Hhtml. apply builder_html_files_not_empty.
  - apply bucket_entries. eapply Forall_impl; [exact Pssr|]. by intros entry [_ ?].
  - apply bucket_entries. eapply Forall_impl; [exact Phtml|].
    intros entry Hentry. by apply route_not_inherited.
  - apply bucket_entries. eapply Forall_impl; [exact Pssg|].
    intros entry Hentry. by apply route_not_inherited.
  - apply bucket_entries. eapply Forall_impl; [exact Pssr|].
    intros entry [Hentry _]. by apply route_not_inherited.
Qed.

End BuiltWellFormed.

(** The sample build gives a well-formed manifest. *)
Example sample_build_wellFormed :
  ∃ m, Sample.build = Some m
       ∧ wellFormed (Builder.toPageManifest (Builder.pageManifest m)).
Proof.
  destruct Sample.build as [m|] eqn:E; [|vm_compute in E; discriminate E].
  exists m. split; [done|].
  apply (@built_manifest_wellFormed Sample.routeSyntax Sample.buildTools
           Sample.buildOptions None Fixture.english_dutch Sample.pagesManifest
           Sample.prerenderManifest ["favicon.ico"] m); [| |exact E].
  - unfold Sample.pagesManifest. repeat (apply Forall_cons; split; [done|]).
    apply Forall_nil_2.
  - unfold Sample.prerenderManifest. cbn.
    repeat (apply Forall_cons; split; [done|]). apply Forall_nil_2.
Qed.
